(** * firewall3: the orchestration engine of [main.c]

    A shallow embedding of [main.c] (start, stop, restart, flush, print and
    the two lookups) together with the properties of its orchestration
    logic: which collaborator is called when, what ends up in the state
    file, and in which order directives reach the rule loader.

    The collaborators that live in other translation units (the rule
    emitters, the state file reader and writer, the pipe helpers, the lock)
    are not interpreted.  Every call to one of them is logged as an [event];
    where [main.c] branches on a collaborator's result, the result is read
    from an oracle in [fw3_env]. *)

From Stdlib Require Import ZArith List Bool String Ascii Lia Sorted.
Import ListNotations.
Open Scope string_scope.
Open Scope list_scope.
Open Scope Z_scope.

(** ** Enumerations and the name tables *)

(** [enum fw3_family]; the order is the one [families] and [cmd] are
    indexed with. *)
Inductive fw3_family : Type :=
| FW3_FAMILY_ANY
| FW3_FAMILY_V4
| FW3_FAMILY_V6.

(** [enum fw3_table]; the order is the index order of [tables]. *)
Inductive fw3_table : Type :=
| FW3_TABLE_FILTER
| FW3_TABLE_NAT
| FW3_TABLE_MANGLE
| FW3_TABLE_RAW.

Definition family_eqb (a b : fw3_family) : bool :=
  match a, b with
  | FW3_FAMILY_ANY, FW3_FAMILY_ANY => true
  | FW3_FAMILY_V4, FW3_FAMILY_V4 => true
  | FW3_FAMILY_V6, FW3_FAMILY_V6 => true
  | _, _ => false
  end.

Definition table_eqb (a b : fw3_table) : bool :=
  match a, b with
  | FW3_TABLE_FILTER, FW3_TABLE_FILTER => true
  | FW3_TABLE_NAT, FW3_TABLE_NAT => true
  | FW3_TABLE_MANGLE, FW3_TABLE_MANGLE => true
  | FW3_TABLE_RAW, FW3_TABLE_RAW => true
  | _, _ => false
  end.

(** [static const char *families[]] *)
Definition families (f : fw3_family) : string :=
  match f with
  | FW3_FAMILY_ANY => "(bug)"
  | FW3_FAMILY_V4 => "IPv4"
  | FW3_FAMILY_V6 => "IPv6"
  end.

(** [static const char *tables[]] *)
Definition tables (t : fw3_table) : string :=
  match t with
  | FW3_TABLE_FILTER => "filter"
  | FW3_TABLE_NAT => "nat"
  | FW3_TABLE_MANGLE => "mangle"
  | FW3_TABLE_RAW => "raw"
  end.

(** The range of [for (family = FW3_FAMILY_V4; family <= FW3_FAMILY_V6; family++)]. *)
Definition family_range : list fw3_family := [FW3_FAMILY_V4; FW3_FAMILY_V6].

(** The range of [for (table = FW3_TABLE_FILTER; table <= FW3_TABLE_RAW; table++)]. *)
Definition table_range : list fw3_table :=
  [FW3_TABLE_FILTER; FW3_TABLE_NAT; FW3_TABLE_MANGLE; FW3_TABLE_RAW].

Definition nl : string := String "010"%char EmptyString.

(** ** Flag words *)

(** Modelled from the spec: the macros [setbit], [delbit] and [hasbit] are
    defined in options.h, which is not among the sources.  The spec calls the
    field a small bitmask with one bit per family; the macros are the usual
    or / and-not / and-test on bit number [flag] of the word. *)
Definition setbit (field flag : Z) : Z := Z.lor field (Z.shiftl 1 flag).
Definition delbit (field flag : Z) : Z := Z.land field (Z.lnot (Z.shiftl 1 flag)).
Definition hasbit (field flag : Z) : bool := negb (Z.land field (Z.shiftl 1 flag) =? 0).

(** Modelled from the spec: [FW3_DEFAULT_IPV4_LOADED] and
    [FW3_DEFAULT_IPV6_LOADED] are enumerators of options.h, which is not among
    the sources.  The spec fixes only that each family owns one bit of the
    word.  The two positions below stand for them; the proofs use nothing
    about them except that they are distinct and not negative
    ([family_flag_nonneg], [family_flag_inj]). *)
Definition FW3_DEFAULT_IPV4_LOADED : Z := 5.
Definition FW3_DEFAULT_IPV6_LOADED : Z := 6.

(** [#define family_flag(f)] *)
Definition family_flag (f : fw3_family) : Z :=
  if family_eqb f FW3_FAMILY_V4 then FW3_DEFAULT_IPV4_LOADED
  else FW3_DEFAULT_IPV6_LOADED.

(** ** Configuration state and state file entries *)

Record fw3_defaults : Type := mk_defaults {
  disable_ipv6 : bool;
  has_flag : Z
}.

Record fw3_device : Type := mk_device { d_name : string }.

Record fw3_zone : Type := mk_zone {
  z_name : string;
  z_networks : list fw3_device;
  z_devices : list fw3_device
}.

(** [struct fw3_state], with the fields [main.c] reads or writes.  The rule,
    redirect and forward lists are only handed to collaborators and to
    [free_state]; they carry no information the orchestration looks at. *)
Record fw3_state : Type := mk_state {
  defaults : fw3_defaults;
  disable_ipsets : bool;
  zones : list fw3_zone
}.

(** [enum fw3_type] as far as a state file entry is concerned. *)
Inductive fw3_type : Type :=
| FW3_TYPE_DEFAULTS
| FW3_TYPE_ZONE
| FW3_TYPE_IPSET.

Definition type_eqb (a b : fw3_type) : bool :=
  match a, b with
  | FW3_TYPE_DEFAULTS, FW3_TYPE_DEFAULTS => true
  | FW3_TYPE_ZONE, FW3_TYPE_ZONE => true
  | FW3_TYPE_IPSET, FW3_TYPE_IPSET => true
  | _, _ => false
  end.

(** [struct fw3_statefile_entry]: [flags] is the C array, read at index 0 by
    [family_running]. *)
Record fw3_statefile_entry : Type := mk_entry {
  e_type : fw3_type;
  e_name : string;
  e_flags : list Z
}.

(** The result of [fw3_read_statefile]: [None] is the NULL pointer returned
    when there is no state file. *)
Definition statefile_t : Type := option (list fw3_statefile_entry).

(** ** Events, environment and the run monad *)

Inductive emitter : Type :=
| DefaultChains
| ZoneChains
| DefaultHeadRules
| Rules
| Redirects
| Forwards
| ZoneRules
| DefaultTailRules.

Inductive loader : Type :=
| LoadDefaults
| LoadIpsets
| LoadZones
| LoadRules
| LoadRedirects
| LoadForwards.

(** Destination of generated text. *)
Inductive sink : Type :=
| SinkCommand (cmd : string)
| SinkStdout.

(** One constructor per call that leaves [main.c] (or, for [EvFamilySet],
    per update of the in-memory flag word). *)
Inductive event : Type :=
| EvFreopenStderr
| EvUsage
| EvUbusConnect (ok : bool)
| EvUbusDisconnect
| EvMalloc (ok : bool)
| EvUciAlloc (ok : bool)
| EvUciLoad (ok : bool)
| EvUciPerror
| EvFindCommand (cmd : string) (found : bool)
| EvLoad (what : loader)
| EvFreeState
| EvLock (ok : bool)
| EvUnlock
| EvError (msg : string)
| EvWarn (msg : string)
| EvInfo (msg : string)
| EvReadStatefile
| EvFreeStatefile
| EvWriteStatefile (flags : Z)
| EvCommandPipe (silent : bool) (cmd : string) (args : list string) (ok : bool)
| EvStdoutPipe (ok : bool)
| EvCommandClose (ok : bool)
| EvPr (text : string)
| EvPrint (what : emitter) (table : fw3_table) (family : fw3_family)
| EvFlushAll (table : fw3_table)
| EvFlushRules (table : fw3_table) (family : fw3_family) (pass2 : bool)
| EvFlushZones (table : fw3_table) (family : fw3_family) (pass2 : bool)
| EvCreateIpsets
| EvDestroyIpsets
| EvFamilySet (family : fw3_family) (set : bool)
| EvPrintf (text : string).

(** What the world answers.  [env_close] is the completion status the spec
    gives [close]; it depends on the sink being closed. *)
Record fw3_env : Type := mk_env {
  env_ubus_connect : bool;
  env_malloc : bool;
  env_uci_alloc : bool;
  env_uci_load : bool;
  env_find_command : string -> bool;
  env_load_config : fw3_state -> fw3_state;
  env_lock : bool;
  env_command : string -> bool;
  env_stdout_pipe : bool;
  env_has_table : bool -> string -> bool;
  env_close : option sink -> bool
}.

(** The part of the world [main.c] reads back: the state file and the pipe
    that is currently open. *)
Record world : Type := mk_world {
  w_statefile : statefile_t;
  w_pipe : option sink
}.

(** The two file-scope variables of [main.c]. *)
Record globals : Type := mk_globals {
  print_rules : bool;
  use_family : fw3_family
}.

(** A computation reads and updates the world and logs its calls. *)
Definition M (A : Type) : Type := world -> A * world * list event.

Definition ret {A} (a : A) : M A := fun w => (a, w, []).

Definition bind {A B} (m : M A) (f : A -> M B) : M B :=
  fun w =>
    let '(a, w1, l1) := m w in
    let '(b, w2, l2) := f a w1 in
    (b, w2, l1 ++ l2).

Notation "x <- m ;; k" := (bind m (fun x => k))
  (right associativity, at level 61, m at next level).
Notation "' pat <- m ;; k" := (bind m (fun r => let 'pat := r in k))
  (right associativity, at level 61, pat pattern, m at next level).
Notation "m ;; k" := (bind m (fun _ => k))
  (right associativity, at level 61).

Definition emit (e : event) : M unit := fun w => (tt, w, [e]).

Definition when (b : bool) (m : M unit) : M unit := if b then m else ret tt.

(** [for (x = first; x <= last; x++) body], over the listed range. *)
Fixpoint for_each {A} (l : list A) (body : A -> M unit) : M unit :=
  match l with
  | [] => ret tt
  | x :: l' => body x ;; for_each l' body
  end.

(** The same loop when the body updates local variables [S]. *)
Fixpoint for_fold {A S} (l : list A) (body : S -> A -> M S) (s : S) : M S :=
  match l with
  | [] => ret s
  | x :: l' => s' <- body s x ;; for_fold l' body s'
  end.

Definition result_of {A} (r : A * world * list event) : A := fst (fst r).
Definition world_of {A} (r : A * world * list event) : world := snd (fst r).
Definition trace_of {A} (r : A * world * list event) : list event := snd r.

(** ** Collaborators *)

Definition warn (msg : string) : M unit := emit (EvWarn msg).
Definition info (msg : string) : M unit := emit (EvInfo msg).

Definition fw3_read_statefile : M statefile_t :=
  fun w => (w_statefile w, w, [EvReadStatefile]).

Definition fw3_free_statefile : M unit := emit EvFreeStatefile.

Definition zone_entry (z : fw3_zone) : fw3_statefile_entry :=
  mk_entry FW3_TYPE_ZONE (z_name z) [].

(** Modelled from the spec: [fw3_write_statefile] is defined outside
    [main.c].  Per the spec it serialises the current family-activity bits
    in the Defaults-kind entry, followed by the other entity-activity
    entries; a later read returns what was written. *)
Definition fw3_write_statefile (state : fw3_state) : M unit :=
  fun w =>
    (tt,
     mk_world (Some (mk_entry FW3_TYPE_DEFAULTS "-" [has_flag (defaults state)]
                       :: map zone_entry (zones state)))
              (w_pipe w),
     [EvWriteStatefile (has_flag (defaults state))]).

Definition fw3_command_pipe (env : fw3_env) (silent : bool) (cmd : string)
    (args : list string) : M bool :=
  fun w =>
    let ok := env_command env cmd in
    (ok,
     mk_world (w_statefile w) (if ok then Some (SinkCommand cmd) else w_pipe w),
     [EvCommandPipe silent cmd args ok]).

Definition fw3_stdout_pipe (env : fw3_env) : M bool :=
  fun w =>
    let ok := env_stdout_pipe env in
    (ok,
     mk_world (w_statefile w) (if ok then Some SinkStdout else w_pipe w),
     [EvStdoutPipe ok]).

(** The spec's [close() -> bool]; the status is logged, and every caller in
    [main.c] drops it. *)
Definition fw3_command_close (env : fw3_env) : M bool :=
  fun w =>
    let ok := env_close env (w_pipe w) in
    (ok, mk_world (w_statefile w) None, [EvCommandClose ok]).

Definition fw3_pr (text : string) : M unit := emit (EvPr text).

Definition fw3_has_table (env : fw3_env) (ipv6 : bool) (table : string) : bool :=
  env_has_table env ipv6 table.

Definition fw3_find_command (env : fw3_env) (cmd : string) : M bool :=
  fun w => (env_find_command env cmd, w, [EvFindCommand cmd (env_find_command env cmd)]).

Definition fw3_ubus_connect (env : fw3_env) : M bool :=
  fun w => (env_ubus_connect env, w, [EvUbusConnect (env_ubus_connect env)]).

Definition fw3_lock (env : fw3_env) : M bool :=
  fun w => (env_lock env, w, [EvLock (env_lock env)]).

Definition fw3_unlock : M unit := emit EvUnlock.

(** Modelled from the spec: [error] is defined outside [main.c]; per the
    spec a fatal condition aborts the run immediately.  The callers below
    stop right after it. *)
Definition error (msg : string) : M unit := emit (EvError msg).

(** How a run ends: [main] returns [rv], or [error] ended the process. *)
Inductive outcome : Type :=
| Return (rv : Z)
| Fatal.

(** ** [main.c] *)

(** The zeroed [struct fw3_state] that [build_state] starts from (its memset). *)
Definition zero_state : fw3_state := mk_state (mk_defaults false 0) false [].

Definition set_disable_ipsets (state : fw3_state) (b : bool) : fw3_state :=
  mk_state (defaults state) b (zones state).

Definition set_has_flag (state : fw3_state) (v : Z) : fw3_state :=
  mk_state (mk_defaults (disable_ipv6 (defaults state)) v)
           (disable_ipsets state) (zones state).

(** [build_state]; [None] when [error] ended the run. *)
Definition build_state (env : fw3_env) : M (option fw3_state) :=
  emit (EvMalloc (env_malloc env)) ;;
  if negb (env_malloc env) then
    error "Out of memory" ;; ret None
  else
    emit (EvUciAlloc (env_uci_alloc env)) ;;
    if negb (env_uci_alloc env) then
      error "Out of memory" ;; ret None
    else
      emit (EvUciLoad (env_uci_load env)) ;;
      if negb (env_uci_load env) then
        emit EvUciPerror ;;
        error "Failed to load /etc/config/firewall" ;; ret None
      else
        found <- fw3_find_command env "ipset" ;;
        state <- (if negb found then
                    warn "Unable to locate ipset utility, disabling ipset support" ;;
                    ret (set_disable_ipsets zero_state true)
                  else ret zero_state) ;;
        emit (EvLoad LoadDefaults) ;;
        emit (EvLoad LoadIpsets) ;;
        emit (EvLoad LoadZones) ;;
        emit (EvLoad LoadRules) ;;
        emit (EvLoad LoadRedirects) ;;
        emit (EvLoad LoadForwards) ;;
        ret (Some (env_load_config env state)).

(** [free_state] *)
Definition free_state : M unit :=
  emit EvFreeState ;; emit EvUbusDisconnect.

(** The local table [cmd] of [restore_pipe]. *)
Definition restore_cmd (f : fw3_family) : string :=
  match f with
  | FW3_FAMILY_ANY => "(bug)"
  | FW3_FAMILY_V4 => "iptables-restore"
  | FW3_FAMILY_V6 => "ip6tables-restore"
  end.

(** [restore_pipe] *)
Definition restore_pipe (env : fw3_env) (g : globals) (family : fw3_family)
    (silent : bool) : M bool :=
  if print_rules g then fw3_stdout_pipe env
  else
    ok <- fw3_command_pipe env silent (restore_cmd family) ["--lenient"; "--noflush"] ;;
    if negb ok then
      warn ("Unable to execute " ++ restore_cmd family)%string ;; ret false
    else ret true.

(** [family_running] *)
Fixpoint first_defaults_bit (l : list fw3_statefile_entry) (family : fw3_family) : bool :=
  match l with
  | [] => false
  | e :: l' =>
      if negb (type_eqb (e_type e) FW3_TYPE_DEFAULTS) then first_defaults_bit l' family
      else hasbit (nth 0 (e_flags e) 0) (family_flag family)
  end.

Definition family_running (statefile : statefile_t) (family : fw3_family) : bool :=
  match statefile with
  | Some l => first_defaults_bit l family
  | None => false
  end.

(** [family_used] *)
Definition family_used (g : globals) (family : fw3_family) : bool :=
  family_eqb (use_family g) FW3_FAMILY_ANY || family_eqb (use_family g) family.

(** [family_loaded] *)
Definition family_loaded (state : fw3_state) (family : fw3_family) : bool :=
  hasbit (has_flag (defaults state)) (family_flag family).

(** [family_set]; the update is logged so that its place among the calls
    can be stated. *)
Definition family_set (state : fw3_state) (family : fw3_family) (set : bool)
    : M fw3_state :=
  emit (EvFamilySet family set) ;;
  ret (if set then set_has_flag state (setbit (has_flag (defaults state)) (family_flag family))
       else set_has_flag state (delbit (has_flag (defaults state)) (family_flag family))).

Definition is_none {A} (o : option A) : bool :=
  match o with None => true | Some _ => false end.

Definition select_directive (t : fw3_table) : string := ("*" ++ tables t ++ nl)%string.
Definition commit_directive : string := ("COMMIT" ++ nl)%string.

(** Body of the table loop of [stop]. *)
Definition stop_table (env : fw3_env) (family : fw3_family) (complete : bool)
    (table : fw3_table) : M unit :=
  if negb (fw3_has_table env (family_eqb family FW3_FAMILY_V6) (tables table)) then ret tt
  else
    info (" * " ++ (if complete then "Flush" else "Clear") ++ "ing "
          ++ tables table ++ " table")%string ;;
    fw3_pr (select_directive table) ;;
    (if complete then
       emit (EvFlushAll table)
     else
       (* pass 1 *)
       emit (EvFlushRules table family false) ;;
       emit (EvFlushZones table family false) ;;
       (* pass 2 *)
       emit (EvFlushRules table family true) ;;
       emit (EvFlushZones table family true)) ;;
    fw3_pr commit_directive.

(** Body of the family loop of [stop]; [acc] holds [rv] and the state. *)
Definition stop_family (env : fw3_env) (g : globals) (statefile : statefile_t)
    (complete restart : bool) (acc : Z * fw3_state) (family : fw3_family)
    : M (Z * fw3_state) :=
  let '(rv, state) := acc in
  if negb complete && negb (family_running statefile family) then ret acc
  else if negb (family_used g family) then ret acc
  else
    ok <- restore_pipe env g family true ;;
    if negb ok then ret acc
    else
      info ("Removing " ++ families family ++ " rules ...")%string ;;
      for_each table_range (stop_table env family complete) ;;
      fw3_command_close env ;;
      state' <- (if negb restart then family_set state family false else ret state) ;;
      ret (0, state').

(** [stop] *)
Definition stop (env : fw3_env) (g : globals) (state : fw3_state)
    (complete restart : bool) : M (Z * fw3_state) :=
  statefile <- fw3_read_statefile ;;
  if negb complete && is_none statefile then
    when (negb restart)
      (warn ("The firewall appears to be stopped. "
             ++ "Use the 'flush' command to forcefully purge all rules.")%string) ;;
    ret (1, state)
  else
    ' (rv, state') <- for_fold family_range
                        (stop_family env g statefile complete restart) (1, state) ;;
    (if negb restart
        && negb (family_loaded state' FW3_FAMILY_V4)
        && negb (family_loaded state' FW3_FAMILY_V6)
     then
       ok <- fw3_command_pipe env false "ipset" ["-exist"; "-"] ;;
       if ok then emit EvDestroyIpsets ;; fw3_command_close env ;; ret tt
       else ret tt
     else ret tt) ;;
    fw3_free_statefile ;;
    when (rv =? 0) (fw3_write_statefile state') ;;
    ret (rv, state').

(** Body of the table loop of [start]. *)
Definition start_table (env : fw3_env) (family : fw3_family) (table : fw3_table)
    : M unit :=
  if negb (fw3_has_table env (family_eqb family FW3_FAMILY_V6) (tables table)) then ret tt
  else
    info (" * Populating " ++ tables table ++ " table")%string ;;
    fw3_pr (select_directive table) ;;
    emit (EvPrint DefaultChains table family) ;;
    emit (EvPrint ZoneChains table family) ;;
    emit (EvPrint DefaultHeadRules table family) ;;
    emit (EvPrint Rules table family) ;;
    emit (EvPrint Redirects table family) ;;
    emit (EvPrint Forwards table family) ;;
    emit (EvPrint ZoneRules table family) ;;
    emit (EvPrint DefaultTailRules table family) ;;
    fw3_pr commit_directive.

(** The macro [FW3_STATEFILE] comes from a header that is not among the
    sources; only the text of one warning depends on it. *)
Definition FW3_STATEFILE : string := "/var/run/fw3.state".

Definition constructing (family : fw3_family) : string :=
  ("Constructing " ++ families family ++ " rules ...")%string.

(** Body of the family loop of [start]; [acc] holds [rv] and the state. *)
Definition start_family (env : fw3_env) (g : globals) (statefile : statefile_t)
    (restart : bool) (acc : Z * fw3_state) (family : fw3_family)
    : M (Z * fw3_state) :=
  let '(rv, state) := acc in
  if negb (family_used g family) then ret acc
  else if negb (family_loaded state family) then ret acc
  else
    ok <- restore_pipe env g family false ;;
    if negb ok then ret acc
    else if negb restart && family_running statefile family then
      warn ("The " ++ families family ++ " firewall appears to be started already. "
            ++ "If it is indeed empty, remove the " ++ FW3_STATEFILE
            ++ " file and retry.")%string ;;
      ret acc
    else
      info (constructing family) ;;
      for_each table_range (start_table env family) ;;
      fw3_command_close env ;;
      state' <- family_set state family true ;;
      ret (0, state').

(** [start] *)
Definition start (env : fw3_env) (g : globals) (state : fw3_state)
    (restart : bool) : M (Z * fw3_state) :=
  statefile <- fw3_read_statefile ;;
  (if negb (print_rules g) && negb restart then
     ok <- fw3_command_pipe env false "ipset" ["-exist"; "-"] ;;
     if ok then emit EvCreateIpsets ;; fw3_command_close env ;; ret tt
     else ret tt
   else ret tt) ;;
  ' (rv, state') <- for_fold family_range
                      (start_family env g statefile restart) (1, state) ;;
  fw3_free_statefile ;;
  when (rv =? 0) (fw3_write_statefile state') ;;
  ret (rv, state').

(** [lookup_network] and [lookup_device]: the first zone, in list order,
    one of whose entries carries the name. *)
Definition has_name (name : string) (l : list fw3_device) : bool :=
  existsb (fun d => String.eqb (d_name d) name) l.

Definition lookup_network (state : fw3_state) (net : string) : M Z :=
  match find (fun z => has_name net (z_networks z)) (zones state) with
  | Some z => emit (EvPrintf (z_name z ++ nl)%string) ;; ret 0
  | None => ret 1
  end.

Definition lookup_device (state : fw3_state) (dev : string) : M Z :=
  match find (fun z => has_name dev (z_devices z)) (zones state) with
  | Some z => emit (EvPrintf (z_name z ++ nl)%string) ;; ret 0
  | None => ret 1
  end.

(** [usage] *)
Definition usage : M Z := emit EvUsage ;; ret 1.

(** C's [!x] on an [int], and the truth value of an [int] passed as [bool]. *)
Definition c_lnot (x : Z) : Z := if x =? 0 then 1 else 0.
Definition c_truth (x : Z) : bool := negb (x =? 0).

(** The option loop of [main].  [opts] is the sequence of characters
    [getopt(argc, argv, "46qh")] returns before -1 (['?'] for an option it
    does not know).  [None]: -h was met, [usage] ran and control went to
    [out]. *)
Fixpoint parse_options (opts : list ascii) (g : globals) : M (option globals) :=
  match opts with
  | [] => ret (Some g)
  | ch :: rest =>
      if Ascii.eqb ch "4" then
        parse_options rest (mk_globals (print_rules g) FW3_FAMILY_V4)
      else if Ascii.eqb ch "6" then
        parse_options rest (mk_globals (print_rules g) FW3_FAMILY_V6)
      else if Ascii.eqb ch "q" then
        emit EvFreopenStderr ;; parse_options rest g
      else if Ascii.eqb ch "h" then
        usage ;; ret None
      else parse_options rest g
  end.

(** The command chain of [main]: [cmd] is [argv[optind]], [rest] what
    follows it. *)
Definition run_command (env : fw3_env) (g : globals) (state : fw3_state)
    (cmd : string) (rest : list string) : M Z :=
  if String.eqb cmd "print" then
    emit EvFreopenStderr ;;
    ' (rv, _) <- start env (mk_globals true (use_family g))
                   (set_disable_ipsets state true) false ;;
    ret rv
  else if String.eqb cmd "start" then
    ' (rv, _) <- start env g state false ;;
    ret rv
  else if String.eqb cmd "stop" then
    ' (rv, _) <- stop env g state false false ;;
    ret rv
  else if String.eqb cmd "flush" then
    ' (rv, _) <- stop env g state true false ;;
    ret rv
  else if String.eqb cmd "restart" then
    ' (rv, state1) <- stop env g state false true ;;
    ' (rv', _) <- start env g state1 (c_truth (c_lnot rv)) ;;
    ret rv'
  else if String.eqb cmd "network" && negb (is_none (hd_error rest)) then
    lookup_network state (hd "" rest)
  else if String.eqb cmd "device" && negb (is_none (hd_error rest)) then
    lookup_device state (hd "" rest)
  else usage.

(** [main].  [args] is [argv] from [optind] on. *)
Definition main (env : fw3_env) (opts : list ascii) (args : list string) : M outcome :=
  og <- parse_options opts (mk_globals false FW3_FAMILY_ANY) ;;
  match og with
  | None => fw3_unlock ;; ret (Return 1)
  | Some g =>
      connected <- fw3_ubus_connect env ;;
      if negb connected then
        error "Failed to connect to ubus" ;; ret Fatal
      else
        built <- build_state env ;;
        match built with
        | None => ret Fatal
        | Some state =>
            locked <- fw3_lock env ;;
            rv <- (if negb locked then ret 1
                   else
                     match args with
                     | [] => usage
                     | cmd :: rest =>
                         when (family_eqb (use_family g) FW3_FAMILY_V6
                               && disable_ipv6 (defaults state))
                           (warn "IPv6 rules globally disabled in configuration") ;;
                         run_command env g state cmd rest
                     end) ;;
            free_state ;;
            fw3_unlock ;;
            ret (Return rv)
        end
  end.

(** ** Vocabulary of the statements *)

(** The restart command in the words of the specification: stop with
    complete=false and isRestart=true, followed unconditionally by start
    whose isRestart is whether that stop succeeded. *)
Definition stop_succeeded (rv : Z) : bool := rv =? 0.

Definition restart_spec (env : fw3_env) (g : globals) (state : fw3_state) : M Z :=
  ' (rv, state1) <- stop env g state false true ;;
  ' (rv', _) <- start env g state1 (stop_succeeded rv) ;;
  ret rv'.

(** Whether the kernel has [table] for [family], as both table loops ask. *)
Definition supported (env : fw3_env) (family : fw3_family) (table : fw3_table) : bool :=
  fw3_has_table env (family_eqb family FW3_FAMILY_V6) (tables table).

(** What [restore_pipe] answers, and what it logs and opens when it
    succeeds. *)
Definition pipe_ok (env : fw3_env) (g : globals) (family : fw3_family) : bool :=
  if print_rules g then env_stdout_pipe env else env_command env (restore_cmd family).

Definition restore_sink (g : globals) (family : fw3_family) : sink :=
  if print_rules g then SinkStdout else SinkCommand (restore_cmd family).

Definition open_event (g : globals) (family : fw3_family) (silent : bool) : event :=
  if print_rules g then EvStdoutPipe true
  else EvCommandPipe silent (restore_cmd family) ["--lenient"; "--noflush"] true.

(** The guards of the family loop of [start], in source order: a family
    that passes them all is processed. *)
Definition start_processes (env : fw3_env) (g : globals) (statefile : statefile_t)
    (restart : bool) (state : fw3_state) (family : fw3_family) : bool :=
  family_used g family
  && family_loaded state family
  && pipe_ok env g family
  && negb (negb restart && family_running statefile family).

(** The guards of the family loop of [stop]. *)
Definition stop_processes (env : fw3_env) (g : globals) (statefile : statefile_t)
    (complete : bool) (family : fw3_family) : bool :=
  (complete || family_running statefile family)
  && family_used g family
  && pipe_ok env g family.

(** What one round of a table loop logs. *)
Definition start_table_events (env : fw3_env) (family : fw3_family)
    (table : fw3_table) : list event :=
  trace_of (start_table env family table (mk_world None None)).

Definition stop_table_events (env : fw3_env) (family : fw3_family) (complete : bool)
    (table : fw3_table) : list event :=
  trace_of (stop_table env family complete table (mk_world None None)).

(** The log of a family [start] processes. *)
Definition start_block (env : fw3_env) (g : globals) (f : fw3_family) : list event :=
  open_event g f false
  :: EvInfo (constructing f)
  :: flat_map (start_table_events env f) table_range
  ++ [EvCommandClose (env_close env (Some (restore_sink g f))); EvFamilySet f true].

(** What a family skipped by a family loop can leave in the log. *)
Definition skip_event (e : event) : bool :=
  match e with
  | EvCommandPipe _ _ _ _ | EvStdoutPipe _ | EvWarn _ => true
  | _ => false
  end.

(** The in-memory flag word after a family loop: [family_set] ran for the
    families the loop processed. *)
Definition mark (set : bool) (processed : bool) (st : fw3_state) (f : fw3_family)
    : fw3_state :=
  if processed then
    set_has_flag st ((if set then setbit else delbit) (has_flag (defaults st)) (family_flag f))
  else st.

(** What a read finds after [fw3_write_statefile state]. *)
Definition written_record (state : fw3_state) : statefile_t :=
  w_statefile (world_of (fw3_write_statefile state (mk_world None None))).

(** The log of one round of a family loop: the block of a processed family,
    or the few events a skipped one can leave. *)
Definition family_log (processed : bool) (block evs : list event) : Prop :=
  if processed then evs = block else forallb skip_event evs = true.

(** The named-set step of [start] and [stop] only talks to the set tool. *)
Definition ipset_event (e : event) : bool :=
  match e with
  | EvCommandPipe false "ipset" _ _ | EvCreateIpsets | EvDestroyIpsets
  | EvCommandClose _ => true
  | _ => false
  end.

(** The log of a family [stop] processes. *)
Definition removing (family : fw3_family) : string :=
  ("Removing " ++ families family ++ " rules ...")%string.

Definition stop_block (env : fw3_env) (g : globals) (f : fw3_family)
    (complete restart : bool) : list event :=
  open_event g f true
  :: EvInfo (removing f)
  :: flat_map (stop_table_events env f complete) table_range
  ++ EvCommandClose (env_close env (Some (restore_sink g f)))
  :: (if restart then [] else [EvFamilySet f false]).

(** Classes of events. *)
Definition is_info (msg : string) (e : event) : bool :=
  match e with EvInfo m => String.eqb m msg | _ => false end.

Definition is_close (e : event) : bool :=
  match e with EvCommandClose _ => true | _ => false end.

Definition is_warn (e : event) : bool :=
  match e with EvWarn _ => true | _ => false end.

Definition is_command_pipe (e : event) : bool :=
  match e with EvCommandPipe _ _ _ _ => true | _ => false end.

Definition is_write_statefile (e : event) : bool :=
  match e with EvWriteStatefile _ => true | _ => false end.

Definition is_family_set (family : fw3_family) (e : event) : bool :=
  match e with EvFamilySet f true => family_eqb f family | _ => false end.

(** Text written for [family]: the calls of the rule emitters carry the
    family they write for. *)
Definition is_emission (family : fw3_family) (e : event) : bool :=
  match e with EvPrint _ _ f => family_eqb f family | _ => false end.

(** Events that are no part of what [start] does for [family]: neither its
    announcement, nor text written for it, nor the update of its flag. *)
Definition foreign (family : fw3_family) (e : event) : bool :=
  negb (is_family_set family e)
  && negb (is_emission family e)
  && negb (is_info (constructing family) e).

(** The eight rule emitters in the order [start] calls them. *)
Definition emitter_order : list emitter :=
  [DefaultChains; ZoneChains; DefaultHeadRules; Rules; Redirects; Forwards;
   ZoneRules; DefaultTailRules].

(** The emitter calls [start] owes a processed family. *)
Definition owed_emissions (env : fw3_env) (family : fw3_family) : list event :=
  flat_map (fun t => map (fun k => EvPrint k t family) emitter_order)
           (filter (supported env family) table_range).

(** Opening a sink for rules, as opposed to the set tool. *)
Definition is_rule_pipe (e : event) : bool :=
  match e with
  | EvStdoutPipe _ => true
  | EvCommandPipe _ cmd _ _ => negb (String.eqb cmd "ipset")
  | _ => false
  end.

(** Removal directives of [stop]. *)
Definition is_removal (e : event) : bool :=
  match e with
  | EvFlushAll _ | EvFlushRules _ _ _ | EvFlushZones _ _ _ | EvPr _ => true
  | _ => false
  end.

(** Calls that read or change what the lock protects: the state file, the
    sinks and everything written to them. *)
Definition guarded (e : event) : bool :=
  match e with
  | EvReadStatefile | EvFreeStatefile | EvWriteStatefile _
  | EvCommandPipe _ _ _ _ | EvStdoutPipe _ | EvCommandClose _
  | EvPr _ | EvPrint _ _ _
  | EvFlushAll _ | EvFlushRules _ _ _ | EvFlushZones _ _ _
  | EvCreateIpsets | EvDestroyIpsets | EvFamilySet _ _ => true
  | _ => false
  end.

Definition is_config_load (e : event) : bool :=
  match e with EvUciLoad _ | EvLoad _ => true | _ => false end.

Definition is_lock (e : event) : bool :=
  match e with EvLock _ => true | _ => false end.

(** What may happen before the lock is asked for. *)
Definition prelude (e : event) : bool := negb (guarded e) && negb (is_lock e).

(** The order the specification states: the lock is held before any
    configuration load and before anything it protects is touched. *)
Definition lock_first (tr : list event) : Prop :=
  forall pre e post,
    tr = pre ++ e :: post ->
    is_config_load e || guarded e = true ->
    In (EvLock true) pre.

(** The table-select directives of a log, in order. *)
Definition table_selects (tr : list event) : list string :=
  flat_map (fun e => match e with
                     | EvPr (String "*" s) => [String "*" s]
                     | _ => []
                     end) tr.

(** What follows the first event satisfying [p], and what precedes it. *)
Fixpoint skip_to (p : event -> bool) (tr : list event) : list event :=
  match tr with
  | [] => []
  | e :: tr' => if p e then tr' else skip_to p tr'
  end.

Fixpoint take_until (p : event -> bool) (tr : list event) : list event :=
  match tr with
  | [] => []
  | e :: tr' => if p e then [] else e :: take_until p tr'
  end.

(** The part of a log of [start] that belongs to [family]: from the
    announcement of the family to the next close of a sink. *)
Definition family_block (family : fw3_family) (tr : list event) : list event :=
  take_until is_close (skip_to (is_info (constructing family)) tr).

(** The select directives [start] owes a processed family. *)
Definition supported_selects (env : fw3_env) (family : fw3_family) : list string :=
  map select_directive (filter (supported env family) table_range).

(** The calls of the two teardown collaborators, and their place in the
    order family, table, pass, rules before zones. *)
Inductive teardown : Type :=
| TdRules
| TdZones.

Definition removal_calls (tr : list event)
    : list (fw3_family * fw3_table * bool * teardown) :=
  flat_map (fun e => match e with
                     | EvFlushRules t f p => [(f, t, p, TdRules)]
                     | EvFlushZones t f p => [(f, t, p, TdZones)]
                     | _ => []
                     end) tr.

Definition family_index (f : fw3_family) : Z :=
  match f with FW3_FAMILY_ANY => 0 | FW3_FAMILY_V4 => 1 | FW3_FAMILY_V6 => 2 end.

Definition table_index (t : fw3_table) : Z :=
  match t with
  | FW3_TABLE_FILTER => 0 | FW3_TABLE_NAT => 1
  | FW3_TABLE_MANGLE => 2 | FW3_TABLE_RAW => 3
  end.

Definition call_rank (c : fw3_family * fw3_table * bool * teardown) : Z :=
  let '(f, t, p, k) := c in
  ((family_index f * 4 + table_index t) * 2 + (if p then 1 else 0)) * 2
  + (match k with TdRules => 0 | TdZones => 1 end).

(** The teardown calls a non-complete [stop] owes one table of a family: pass
    1 (rules, zones), then pass 2 (rules, zones). *)
Definition pass_calls (f : fw3_family) (t : fw3_table)
    : list (fw3_family * fw3_table * bool * teardown) :=
  [(f, t, false, TdRules); (f, t, false, TdZones);
   (f, t, true, TdRules); (f, t, true, TdZones)].

(** The calls of a run on which every family is processed and every table
    supported. *)
Definition all_calls : list (fw3_family * fw3_table * bool * teardown) :=
  flat_map (fun f => flat_map (pass_calls f) table_range) family_range.

(** Whether a run keeps a call: its family is processed and its table
    supported. *)
Definition keep (p : fw3_family -> bool) (s : fw3_family -> fw3_table -> bool)
    (c : fw3_family * fw3_table * bool * teardown) : bool :=
  let '(f, t, _, _) := c in p f && s f t.

(** ** Concrete runs *)

Definition both_loaded : Z :=
  setbit (setbit 0 FW3_DEFAULT_IPV4_LOADED) FW3_DEFAULT_IPV6_LOADED.

(** A router where every tool is present and every table exists; both
    families are enabled in the configuration; [closes] is what closing a
    sink reports. *)
Definition router (locks : bool) (closes : option sink -> bool) : fw3_env :=
  mk_env true true true true (fun _ => true)
         (fun s => set_has_flag s both_loaded)
         locks (fun _ => true) true (fun _ _ => true) closes.

Definition closes_fine : option sink -> bool := fun _ => true.

(** Only the IPv4 rule loader ends with a failure status. *)
Definition iptables_restore_fails : option sink -> bool :=
  fun s => match s with
           | Some (SinkCommand cmd) => negb (String.eqb cmd "iptables-restore")
           | _ => true
           end.

Definition loaded_state : fw3_state := set_has_flag zero_state both_loaded.

Definition no_record : world := mk_world None None.

(** A record that marks only IPv6 as applied, behind a zone entry. *)
Definition v6_record : list fw3_statefile_entry :=
  [mk_entry FW3_TYPE_ZONE "lan" [];
   mk_entry FW3_TYPE_DEFAULTS "-" [Z.shiftl 1 FW3_DEFAULT_IPV6_LOADED];
   mk_entry FW3_TYPE_DEFAULTS "-" [both_loaded]].

Definition v6_running : world := mk_world (Some v6_record) None.

(** A record that marks both families as applied. *)
Definition both_running : world :=
  mk_world (Some [mk_entry FW3_TYPE_DEFAULTS "-" [both_loaded]]) None.

(** ** Further vocabulary *)

(** Text handed to the open sink: the directives [main.c] writes itself
    and the calls of the rule emitters. *)
Definition is_sink_write (e : event) : bool :=
  match e with EvPr _ | EvPrint _ _ _ => true | _ => false end.

(** What [start] writes for one table of a family: the select directive,
    the eight emitters, the commit. *)
Definition table_text (f : fw3_family) (t : fw3_table) : list event :=
  EvPr (select_directive t)
  :: map (fun k => EvPrint k t f) emitter_order
  ++ [EvPr commit_directive].

(** What [stop] writes for one table of a family. *)
Definition removal_text (complete : bool) (f : fw3_family) (t : fw3_table)
    : list event :=
  EvPr (select_directive t)
  :: (if complete then [EvFlushAll t]
      else [EvFlushRules t f false; EvFlushZones t f false;
            EvFlushRules t f true; EvFlushZones t f true])
  ++ [EvPr commit_directive].

(** The named-set step of [start] ([what] is [EvCreateIpsets]) and of
    [stop] ([what] is [EvDestroyIpsets]) when its guard [go] holds. *)
Definition ipset_log (env : fw3_env) (go : bool) (what : event) : list event :=
  if go then
    EvCommandPipe false "ipset" ["-exist"; "-"] (env_command env "ipset")
    :: (if env_command env "ipset"
        then [what; EvCommandClose (env_close env (Some (SinkCommand "ipset")))]
        else [])
  else [].

Definition is_create (e : event) : bool :=
  match e with EvCreateIpsets => true | _ => false end.

Definition is_destroy (e : event) : bool :=
  match e with EvDestroyIpsets => true | _ => false end.

Definition is_unlock (e : event) : bool :=
  match e with EvUnlock => true | _ => false end.

Definition is_load (e : event) : bool :=
  match e with EvLoad _ => true | _ => false end.

(** What the start-up of [main] can log before the lock is asked for. *)
Definition startup_event (e : event) : bool :=
  match e with
  | EvFreopenStderr | EvUsage | EvUbusConnect _ | EvMalloc _ | EvUciAlloc _
  | EvUciLoad _ | EvUciPerror | EvFindCommand _ _ | EvLoad _ | EvError _
  | EvWarn _ => true
  | _ => false
  end.

(** What a command can log: everything except the start-up, the lock and
    the cleanup of [main]. *)
Definition command_event (e : event) : bool :=
  match e with
  | EvUbusConnect _ | EvUbusDisconnect | EvMalloc _ | EvUciAlloc _ | EvUciLoad _
  | EvUciPerror | EvFindCommand _ _ | EvLoad _ | EvFreeState | EvLock _
  | EvUnlock | EvError _ => false
  | _ => true
  end.

(** The loaders in the order [build_state] calls them. *)
Definition loader_order : list loader :=
  [LoadDefaults; LoadIpsets; LoadZones; LoadRules; LoadRedirects; LoadForwards].

(** The commands [main] knows that take no argument. *)
Definition plain_commands : list string :=
  ["print"; "start"; "stop"; "flush"; "restart"].

(** A zone lists [name] among its devices or networks. *)
Definition owns (sel : fw3_zone -> list fw3_device) (name : string) (z : fw3_zone)
    : Prop :=
  exists d, In d (sel z) /\ d_name d = name.

(** Two zones for the lookups. *)
Definition lan_zone : fw3_zone :=
  mk_zone "lan" [mk_device "lan"] [mk_device "eth0"; mk_device "eth1"].

Definition wan_zone : fw3_zone :=
  mk_zone "wan" [mk_device "wan"] [mk_device "eth2"; mk_device "eth1"].

Definition two_zones : fw3_state :=
  mk_state (mk_defaults false both_loaded) false [lan_zone; wan_zone].

(** Calls that concern the named sets. *)
Definition is_ipset_call (e : event) : bool :=
  match e with
  | EvCommandPipe _ cmd _ _ => String.eqb cmd "ipset"
  | EvCreateIpsets | EvDestroyIpsets => true
  | _ => false
  end.

(** The warning of [restore_pipe]. *)
Definition unable_to_execute (f : fw3_family) : event :=
  EvWarn ("Unable to execute " ++ restore_cmd f)%string.

(** A router on which the IPv4 rule loader is not installed. *)
Definition router_without_iptables : fw3_env :=
  mk_env true true true true (fun _ => true)
         (fun s => set_has_flag s both_loaded)
         true (fun cmd => negb (String.eqb cmd "iptables-restore")) true
         (fun _ _ => true) closes_fine.

(** What one round of a family loop can log. *)
Definition round_event (e : event) : bool :=
  match e with
  | EvCommandPipe _ _ _ _ | EvStdoutPipe _ | EvWarn _ | EvInfo _ | EvPr _
  | EvPrint _ _ _ | EvFlushAll _ | EvFlushRules _ _ _ | EvFlushZones _ _ _
  | EvCommandClose _ | EvFamilySet _ _ => true
  | _ => false
  end.

(** The warning of [start] for a family the record marks as applied. *)
Definition already_started (f : fw3_family) : event :=
  EvWarn ("The " ++ families f ++ " firewall appears to be started already. "
          ++ "If it is indeed empty, remove the " ++ FW3_STATEFILE
          ++ " file and retry.")%string.

(** What [restore_pipe] logs when the sink cannot be opened. *)
Definition pipe_failure (g : globals) (f : fw3_family) (silent : bool) : list event :=
  if print_rules g then [EvStdoutPipe false]
  else [EvCommandPipe silent (restore_cmd f) ["--lenient"; "--noflush"] false;
        unable_to_execute f].

(** What one round of the family loop of [start] logs for a family that
    the record marks as applied, when the run is not a restart: nothing if
    the family is not selected or not enabled; otherwise the opening of its
    sink, followed by the warning if the sink could be opened. *)
Definition refused_round (env : fw3_env) (g : globals) (st : fw3_state)
    (f : fw3_family) : list event :=
  if family_used g f && family_loaded st f then
    if pipe_ok env g f then [open_event g f false; already_started f]
    else pipe_failure g f false
  else [].

(** * Properties *)

(** ** Flag-word lemmas *)

Lemma hasbit_testbit (x n : Z) : 0 <= n -> hasbit x n = Z.testbit x n.
Proof.
  intros Hn. unfold hasbit. rewrite Z.shiftl_1_l.
  destruct (Z.testbit x n) eqn:Hb.
  - apply negb_true_iff, Z.eqb_neq. intros H0.
    assert (Ht : Z.testbit (Z.land x (2 ^ n)) n = true).
    { rewrite Z.land_spec, Hb, Z.pow2_bits_true by lia. reflexivity. }
    rewrite H0, Z.bits_0 in Ht. discriminate.
  - apply negb_false_iff, Z.eqb_eq. apply Z.bits_inj'. intros m Hm.
    rewrite Z.land_spec, Z.bits_0, Z.pow2_bits_eqb by lia.
    destruct (Z.eqb_spec n m) as [->|]; [rewrite Hb|]; auto using andb_false_r.
Qed.

Lemma hasbit_setbit (x n m : Z) :
  0 <= n -> 0 <= m -> hasbit (setbit x n) m = (n =? m) || hasbit x m.
Proof.
  intros Hn Hm. rewrite !hasbit_testbit by lia. unfold setbit.
  rewrite Z.lor_spec, Z.shiftl_1_l, Z.pow2_bits_eqb by lia. apply orb_comm.
Qed.

Lemma hasbit_delbit (x n m : Z) :
  0 <= n -> 0 <= m -> hasbit (delbit x n) m = negb (n =? m) && hasbit x m.
Proof.
  intros Hn Hm. rewrite !hasbit_testbit by lia. unfold delbit.
  rewrite Z.land_spec, Z.lnot_spec, Z.shiftl_1_l, Z.pow2_bits_eqb by lia.
  apply andb_comm.
Qed.

Lemma family_flag_nonneg (f : fw3_family) : 0 <= family_flag f.
Proof. destruct f; vm_compute; discriminate. Qed.

Lemma family_flag_inj (f f' : fw3_family) :
  f <> FW3_FAMILY_ANY -> f' <> FW3_FAMILY_ANY ->
  (family_flag f =? family_flag f') = family_eqb f f'.
Proof. destruct f, f'; intros; try congruence; reflexivity. Qed.

Lemma family_eqb_eq (f f' : fw3_family) : family_eqb f f' = true <-> f = f'.
Proof. destruct f, f'; simpl; split; congruence. Qed.

Lemma family_loaded_set (st : fw3_state) (f f' : fw3_family) :
  f <> FW3_FAMILY_ANY -> f' <> FW3_FAMILY_ANY ->
  family_loaded (set_has_flag st (setbit (has_flag (defaults st)) (family_flag f))) f'
  = family_eqb f f' || family_loaded st f'.
Proof.
  intros Hf Hf'. unfold family_loaded. simpl.
  rewrite hasbit_setbit by apply family_flag_nonneg.
  now rewrite family_flag_inj.
Qed.

Lemma family_loaded_del (st : fw3_state) (f f' : fw3_family) :
  f <> FW3_FAMILY_ANY -> f' <> FW3_FAMILY_ANY ->
  family_loaded (set_has_flag st (delbit (has_flag (defaults st)) (family_flag f))) f'
  = negb (family_eqb f f') && family_loaded st f'.
Proof.
  intros Hf Hf'. unfold family_loaded. simpl.
  rewrite hasbit_delbit by apply family_flag_nonneg.
  now rewrite family_flag_inj.
Qed.

(** ** The family lookup in the persisted record *)

Lemma first_defaults_bit_skip (pre l : list fw3_statefile_entry) (f : fw3_family) :
  Forall (fun e => e_type e <> FW3_TYPE_DEFAULTS) pre ->
  first_defaults_bit (pre ++ l) f = first_defaults_bit l f.
Proof.
  induction 1 as [|e pre He _ IH]; simpl; [reflexivity|].
  destruct (e_type e); simpl; congruence.
Qed.

(** C10. [family_running] answers with the bit of the first Defaults-kind
    entry of the record: the entries [post] behind it, Defaults-kind or not,
    have no influence.  It answers false on an absent record and on a record
    without a Defaults-kind entry. *)
Theorem family_running_first_defaults
    (pre post : list fw3_statefile_entry) (e : fw3_statefile_entry) (f : fw3_family) :
  Forall (fun x => e_type x <> FW3_TYPE_DEFAULTS) pre ->
  e_type e = FW3_TYPE_DEFAULTS ->
  family_running (Some (pre ++ e :: post)) f
    = hasbit (nth 0 (e_flags e) 0) (family_flag f)
  /\ family_running (Some pre) f = false
  /\ family_running None f = false.
Proof.
  intros Hpre He. repeat split.
  - simpl. rewrite first_defaults_bit_skip by assumption.
    simpl. now rewrite He.
  - simpl. rewrite <- (app_nil_r pre).
    now rewrite first_defaults_bit_skip.
Qed.

Lemma family_running_first_defaults_witness :
  family_running (Some v6_record) FW3_FAMILY_V4 = false
  /\ family_running (Some v6_record) FW3_FAMILY_V6 = true.
Proof.
  destruct (family_running_first_defaults
              [mk_entry FW3_TYPE_ZONE "lan" []]
              [mk_entry FW3_TYPE_DEFAULTS "-" [both_loaded]]
              (mk_entry FW3_TYPE_DEFAULTS "-" [Z.shiftl 1 FW3_DEFAULT_IPV6_LOADED])
              FW3_FAMILY_V4) as [H4 _].
  { repeat constructor; simpl; discriminate. }
  { reflexivity. }
  destruct (family_running_first_defaults
              [mk_entry FW3_TYPE_ZONE "lan" []]
              [mk_entry FW3_TYPE_DEFAULTS "-" [both_loaded]]
              (mk_entry FW3_TYPE_DEFAULTS "-" [Z.shiftl 1 FW3_DEFAULT_IPV6_LOADED])
              FW3_FAMILY_V6) as [H6 _].
  { repeat constructor; simpl; discriminate. }
  { reflexivity. }
  split; [exact H4 | exact H6].
Defined.

(** ** Stop without a record *)

(** C7. A stop with complete=false that finds no persisted record reads the
    record, warns unless it is part of a restart, and returns 1: it opens no
    sink, writes no directive and does not rewrite the record. *)
Theorem stop_without_record
    (env : fw3_env) (g : globals) (state : fw3_state) (restart : bool) (w : world) :
  w_statefile w = None ->
  stop env g state false restart w
  = ((1, state), w,
     EvReadStatefile ::
     (if restart then []
      else [EvWarn ("The firewall appears to be stopped. "
                    ++ "Use the 'flush' command to forcefully purge all rules.")%string])).
Proof.
  intros Hw. unfold stop, bind, fw3_read_statefile. rewrite Hw. simpl.
  destruct restart; reflexivity.
Qed.

Lemma stop_without_record_witness :
  result_of (stop (router true closes_fine) (mk_globals false FW3_FAMILY_ANY)
               loaded_state false false no_record) = (1, loaded_state)
  /\ world_of (stop (router true closes_fine) (mk_globals false FW3_FAMILY_ANY)
                 loaded_state false false no_record) = no_record.
Proof.
  rewrite (stop_without_record (router true closes_fine) (mk_globals false FW3_FAMILY_ANY)
             loaded_state false no_record); [| reflexivity].
  split; reflexivity.
Defined.

(** ** Restart *)

Lemma c_truth_lnot (rv : Z) : c_truth (c_lnot rv) = stop_succeeded rv.
Proof. unfold c_truth, c_lnot, stop_succeeded. destruct (rv =? 0); reflexivity. Qed.

(** C6. The restart branch of [main] is the composition the specification
    names: [stop] with complete=false and restart=true, then [start] on the
    state [stop] left, with restart equal to whether that stop returned
    success; [start] is run whatever [stop] returned. *)
Theorem restart_is_stop_then_start
    (env : fw3_env) (g : globals) (state : fw3_state) (rest : list string) (w : world) :
  run_command env g state "restart" rest w = restart_spec env g state w.
Proof.
  unfold run_command, restart_spec. simpl. unfold bind.
  destruct (stop env g state false true w) as [[[rv state1] w1] l1].
  now rewrite c_truth_lnot.
Qed.

(** ** The table loops *)

Arguments for_each : simpl never.

Lemma start_table_run (env : fw3_env) (f : fw3_family) (t : fw3_table) (w : world) :
  start_table env f t w = (tt, w, start_table_events env f t).
Proof.
  unfold start_table_events, start_table.
  destruct (negb (fw3_has_table env (family_eqb f FW3_FAMILY_V6) (tables t)));
    reflexivity.
Qed.

Lemma stop_table_run (env : fw3_env) (f : fw3_family) (c : bool) (t : fw3_table)
    (w : world) :
  stop_table env f c t w = (tt, w, stop_table_events env f c t).
Proof.
  unfold stop_table_events, stop_table.
  destruct (negb (fw3_has_table env (family_eqb f FW3_FAMILY_V6) (tables t)));
    [reflexivity|].
  destruct c; reflexivity.
Qed.

Lemma for_each_run {A} (body : A -> M unit) (evs : A -> list event) (l : list A)
    (w : world) :
  (forall x w', body x w' = (tt, w', evs x)) ->
  for_each l body w = (tt, w, flat_map evs l).
Proof.
  intros Hbody. induction l as [|x l IH]; [reflexivity|].
  change (for_each (x :: l) body) with (body x ;; for_each l body).
  unfold bind. rewrite Hbody, IH. reflexivity.
Qed.

Lemma start_tables_run (env : fw3_env) (f : fw3_family) (w : world) :
  for_each table_range (start_table env f) w
  = (tt, w, flat_map (start_table_events env f) table_range).
Proof. apply for_each_run. intros; apply start_table_run. Qed.

Lemma stop_tables_run (env : fw3_env) (f : fw3_family) (c : bool) (w : world) :
  for_each table_range (stop_table env f c) w
  = (tt, w, flat_map (stop_table_events env f c) table_range).
Proof. apply for_each_run. intros; apply stop_table_run. Qed.

(** ** One round of the family loop of [start] *)

Lemma restore_pipe_ok (env : fw3_env) (g : globals) (f : fw3_family) (silent : bool)
    (w : world) :
  pipe_ok env g f = true ->
  restore_pipe env g f silent w
  = (true, mk_world (w_statefile w) (Some (restore_sink g f)), [open_event g f silent]).
Proof.
  unfold pipe_ok, restore_pipe, restore_sink, open_event.
  destruct (print_rules g); intros H.
  - unfold fw3_stdout_pipe. now rewrite H.
  - unfold bind, fw3_command_pipe. now rewrite H.
Qed.

Lemma restore_pipe_fail (env : fw3_env) (g : globals) (f : fw3_family) (silent : bool)
    (w : world) :
  pipe_ok env g f = false ->
  exists evs,
    restore_pipe env g f silent w = (false, w, evs)
    /\ forallb skip_event evs = true.
Proof.
  unfold pipe_ok, restore_pipe.
  destruct (print_rules g); intros H.
  - unfold fw3_stdout_pipe. rewrite H. destruct w. eexists; split; reflexivity.
  - unfold bind, fw3_command_pipe. rewrite H. destruct w. eexists; split; reflexivity.
Qed.

Lemma start_family_processed
    (env : fw3_env) (g : globals) (sf : statefile_t) (restart : bool)
    (rv : Z) (st : fw3_state) (f : fw3_family) (w : world) :
  start_processes env g sf restart st f = true ->
  start_family env g sf restart (rv, st) f w
  = ((0, set_has_flag st (setbit (has_flag (defaults st)) (family_flag f))),
     mk_world (w_statefile w) None,
     start_block env g f).
Proof.
  unfold start_processes. intros H.
  apply andb_true_iff in H as [H Hrun]. apply andb_true_iff in H as [H Hpipe].
  apply andb_true_iff in H as [Hused Hloaded].
  unfold start_family. rewrite Hused, Hloaded. simpl.
  unfold bind at 1. rewrite (restore_pipe_ok env g f false w Hpipe). simpl.
  apply negb_true_iff in Hrun. rewrite Hrun.
  unfold bind, info, emit, family_set, fw3_command_close, ret.
  rewrite start_tables_run. reflexivity.
Qed.

Lemma start_family_skipped
    (env : fw3_env) (g : globals) (sf : statefile_t) (restart : bool)
    (rv : Z) (st : fw3_state) (f : fw3_family) (w : world) :
  start_processes env g sf restart st f = false ->
  exists w' evs,
    start_family env g sf restart (rv, st) f w = ((rv, st), w', evs)
    /\ w_statefile w' = w_statefile w
    /\ forallb skip_event evs = true.
Proof.
  unfold start_processes, start_family. intros H.
  destruct (family_used g f); simpl in *; [|now exists w, []].
  destruct (family_loaded st f); simpl in *; [|now exists w, []].
  destruct (pipe_ok env g f) eqn:Hpipe; simpl in H.
  - unfold bind at 1. rewrite (restore_pipe_ok env g f false w Hpipe). simpl.
    apply negb_false_iff in H. rewrite H.
    eexists _, _. split; [reflexivity|]. split; [reflexivity|].
    unfold open_event. destruct (print_rules g); reflexivity.
  - destruct (restore_pipe_fail env g f false w Hpipe) as (evs & Hr & Hevs).
    unfold bind. rewrite Hr. simpl. exists w, (evs ++ []).
    rewrite app_nil_r. auto.
Qed.

(** ** The shape of a run of [start] *)

Lemma start_processes_mark (env : fw3_env) (g : globals) (sf : statefile_t)
    (restart b : bool) (st : fw3_state) :
  start_processes env g sf restart (mark true b st FW3_FAMILY_V4) FW3_FAMILY_V6
  = start_processes env g sf restart st FW3_FAMILY_V6.
Proof.
  destruct b; [|reflexivity]. unfold start_processes, mark.
  rewrite family_loaded_set by discriminate. reflexivity.
Qed.

Lemma start_family_shape
    (env : fw3_env) (g : globals) (sf : statefile_t) (restart : bool)
    (rv : Z) (st : fw3_state) (f : fw3_family) (w : world) :
  let p := start_processes env g sf restart st f in
  exists w' evs,
    start_family env g sf restart (rv, st) f w
    = ((if p then 0 else rv, mark true p st f), w', evs)
    /\ w_statefile w' = w_statefile w
    /\ family_log p (start_block env g f) evs.
Proof.
  intros p. subst p.
  destruct (start_processes env g sf restart st f) eqn:Hp.
  - rewrite (start_family_processed env g sf restart rv st f w Hp).
    eexists _, _. split; [reflexivity|]. split; reflexivity.
  - destruct (start_family_skipped env g sf restart rv st f w Hp)
      as (w' & evs & Hr & Hw & Hevs).
    exists w', evs. auto.
Qed.

Lemma start_loop_shape
    (env : fw3_env) (g : globals) (sf : statefile_t) (restart : bool)
    (st : fw3_state) (w : world) :
  let p4 := start_processes env g sf restart st FW3_FAMILY_V4 in
  let p6 := start_processes env g sf restart st FW3_FAMILY_V6 in
  exists w' B4 B6,
    for_fold family_range (start_family env g sf restart) (1, st) w
    = ((if p4 || p6 then 0 else 1,
        mark true p6 (mark true p4 st FW3_FAMILY_V4) FW3_FAMILY_V6),
       w', B4 ++ B6)
    /\ w_statefile w' = w_statefile w
    /\ family_log p4 (start_block env g FW3_FAMILY_V4) B4
    /\ family_log p6 (start_block env g FW3_FAMILY_V6) B6.
Proof.
  intros p4 p6.
  destruct (start_family_shape env g sf restart 1 st FW3_FAMILY_V4 w)
    as (w1 & B4 & H4 & Hw1 & HB4).
  fold p4 in H4, HB4.
  destruct (start_family_shape env g sf restart (if p4 then 0 else 1)
              (mark true p4 st FW3_FAMILY_V4) FW3_FAMILY_V6 w1)
    as (w2 & B6 & H6 & Hw2 & HB6).
  rewrite start_processes_mark in H6, HB6. fold p6 in H6, HB6.
  exists w2, B4, B6. split; [|split; [congruence | split; assumption]].
  cbn [for_fold family_range]. unfold bind. rewrite H4, H6.
  unfold ret. rewrite app_nil_r.
  destruct p4, p6; reflexivity.
Qed.

Lemma start_ipsets_run (env : fw3_env) (g : globals) (restart : bool) (w : world) :
  exists w' A,
    (if negb (print_rules g) && negb restart then
       ok <- fw3_command_pipe env false "ipset" ["-exist"; "-"] ;;
       if ok then emit EvCreateIpsets ;; fw3_command_close env ;; ret tt
       else ret tt
     else ret tt) w = (tt, w', A)
    /\ w_statefile w' = w_statefile w
    /\ forallb ipset_event A = true
    /\ (print_rules g = true -> A = []).
Proof.
  destruct (negb (print_rules g) && negb restart) eqn:Hc.
  - assert (Hp : print_rules g = false)
      by (destruct (print_rules g); [discriminate | reflexivity]).
    unfold bind, fw3_command_pipe.
    destruct (env_command env "ipset"); simpl.
    + eexists _, _. repeat split. intros H; rewrite Hp in H; discriminate.
    + eexists _, _. repeat split. intros H; rewrite Hp in H; discriminate.
  - exists w, []. repeat split.
Qed.

Lemma start_shape
    (env : fw3_env) (g : globals) (st : fw3_state) (restart : bool) (w : world) :
  let sf := w_statefile w in
  let p4 := start_processes env g sf restart st FW3_FAMILY_V4 in
  let p6 := start_processes env g sf restart st FW3_FAMILY_V6 in
  let st' := mark true p6 (mark true p4 st FW3_FAMILY_V4) FW3_FAMILY_V6 in
  exists w' A B4 B6,
    start env g st restart w
    = ((if p4 || p6 then 0 else 1, st'), w',
       EvReadStatefile :: A ++ (B4 ++ B6)
       ++ EvFreeStatefile
       :: (if p4 || p6 then [EvWriteStatefile (has_flag (defaults st'))] else []))
    /\ w_statefile w' = (if p4 || p6 then written_record st' else sf)
    /\ forallb ipset_event A = true
    /\ (print_rules g = true -> A = [])
    /\ family_log p4 (start_block env g FW3_FAMILY_V4) B4
    /\ family_log p6 (start_block env g FW3_FAMILY_V6) B6.
Proof.
  intros sf p4 p6 st'.
  destruct (start_ipsets_run env g restart w) as (w1 & A & HA & Hw1 & HAev & HAp).
  destruct (start_loop_shape env g sf restart st w1) as (w2 & B4 & B6 & HL & Hw2 & HB4 & HB6).
  fold p4 in HL, HB4. fold p6 in HL, HB6. fold st' in HL.
  unfold start. unfold bind at 1. unfold fw3_read_statefile at 1.
  unfold bind at 1. fold sf. rewrite HA.
  unfold bind at 1. rewrite HL.
  destruct (p4 || p6) eqn:Hp.
  - eexists _, A, B4, B6. split; [reflexivity|].
    repeat split; assumption.
  - eexists _, A, B4, B6. split; [simpl; reflexivity|].
    repeat split; try assumption. simpl. subst sf. congruence.
Qed.

(** ** Searching a log *)

Lemma forallb_impl {A} (P Q : A -> bool) (l : list A) :
  (forall x, P x = true -> Q x = true) ->
  forallb P l = true -> forallb Q l = true.
Proof.
  intros HPQ. rewrite !forallb_forall. auto.
Qed.

Lemma forallb_flat_map {A B} (P : B -> bool) (f : A -> list B) (l : list A) :
  (forall x, forallb P (f x) = true) ->
  forallb P (flat_map f l) = true.
Proof.
  intros Hf. induction l as [|x l IH]; simpl; [reflexivity|].
  now rewrite forallb_app, Hf, IH.
Qed.

Lemma skip_to_app_none (p : event -> bool) (l1 l2 : list event) :
  forallb (fun e => negb (p e)) l1 = true ->
  skip_to p (l1 ++ l2) = skip_to p l2.
Proof.
  induction l1 as [|e l1 IH]; simpl; [reflexivity|].
  intros H. apply andb_true_iff in H as [He Hl].
  apply negb_true_iff in He. rewrite He. auto.
Qed.

Lemma take_until_app_hit (p : event -> bool) (l1 l2 : list event) (e : event) :
  forallb (fun x => negb (p x)) l1 = true ->
  p e = true ->
  take_until p (l1 ++ e :: l2) = l1.
Proof.
  intros H He. induction l1 as [|x l1 IH]; simpl.
  - now rewrite He.
  - simpl in H. apply andb_true_iff in H as [Hx Hl].
    apply negb_true_iff in Hx. rewrite Hx. now rewrite IH.
Qed.

Lemma table_selects_app (l1 l2 : list event) :
  table_selects (l1 ++ l2) = table_selects l1 ++ table_selects l2.
Proof. unfold table_selects. apply flat_map_app. Qed.

Lemma table_selects_none (P : event -> bool) (l : list event) :
  (forall e, P e = true -> table_selects [e] = []) ->
  forallb P l = true -> table_selects l = [].
Proof.
  intros HP. induction l as [|e l IH]; [reflexivity|].
  intros H. simpl in H. apply andb_true_iff in H as [He Hl].
  change (e :: l) with ([e] ++ l). rewrite table_selects_app, (HP e He). auto.
Qed.

(** ** What the table loop of [start] logs *)

Lemma start_table_events_eq (env : fw3_env) (f : fw3_family) (t : fw3_table) :
  start_table_events env f t
  = if supported env f t then
      [EvInfo (" * Populating " ++ tables t ++ " table")%string;
       EvPr (select_directive t);
       EvPrint DefaultChains t f; EvPrint ZoneChains t f;
       EvPrint DefaultHeadRules t f; EvPrint Rules t f;
       EvPrint Redirects t f; EvPrint Forwards t f;
       EvPrint ZoneRules t f; EvPrint DefaultTailRules t f;
       EvPr commit_directive]
    else [].
Proof.
  unfold start_table_events, start_table, supported.
  destruct (fw3_has_table env (family_eqb f FW3_FAMILY_V6) (tables t)); reflexivity.
Qed.

Lemma start_tables_no_close (env : fw3_env) (f : fw3_family) (l : list fw3_table) :
  forallb (fun e => negb (is_close e)) (flat_map (start_table_events env f) l) = true.
Proof.
  apply forallb_flat_map. intros t. rewrite start_table_events_eq.
  destruct (supported env f t); reflexivity.
Qed.

Lemma start_tables_no_marker (env : fw3_env) (f f' : fw3_family) (l : list fw3_table) :
  forallb (fun e => negb (is_info (constructing f') e))
          (flat_map (start_table_events env f) l) = true.
Proof.
  apply forallb_flat_map. intros t. rewrite start_table_events_eq.
  destruct (supported env f t); [|reflexivity].
  destruct t, f'; reflexivity.
Qed.

Lemma start_tables_selects (env : fw3_env) (f : fw3_family) (l : list fw3_table) :
  table_selects (flat_map (start_table_events env f) l)
  = map select_directive (filter (supported env f) l).
Proof.
  induction l as [|t l IH]; [reflexivity|].
  cbn [flat_map filter]. rewrite table_selects_app, IH, start_table_events_eq.
  destruct (supported env f t); [|reflexivity].
  destruct t; reflexivity.
Qed.

Lemma filter_keeps_NoDup_map {X Y} (h : X -> Y) (q : X -> bool) (xs : list X) :
  NoDup (map h xs) -> NoDup (map h (filter q xs)).
Proof.
  induction xs as [|x xs IH]; simpl; [constructor|].
  intros H. inversion H as [|y ys Hin Hnd]; subst.
  destruct (q x); simpl; [|auto].
  constructor; [|auto].
  intros Hc. apply Hin. apply in_map_iff in Hc as (x' & Hx' & Hf').
  apply filter_In in Hf' as [Hf' _]. apply in_map_iff. eauto.
Qed.

Lemma supported_selects_NoDup (env : fw3_env) (f : fw3_family) :
  NoDup (supported_selects env f).
Proof.
  unfold supported_selects. apply filter_keeps_NoDup_map.
  repeat constructor; simpl; intuition discriminate.
Qed.

(** ** Table selection in [start] *)

Lemma open_event_plain (g : globals) (f : fw3_family) (silent : bool) :
  skip_event (open_event g f silent) = true.
Proof. unfold open_event. destruct (print_rules g); reflexivity. Qed.

Lemma skip_event_no_marker (msg : string) (e : event) :
  skip_event e = true -> negb (is_info msg e) = true.
Proof. destruct e; simpl; congruence. Qed.

Lemma ipset_event_no_marker (msg : string) (e : event) :
  ipset_event e = true -> negb (is_info msg e) = true.
Proof. destruct e; simpl; congruence. Qed.

Lemma skip_event_no_select (e : event) :
  skip_event e = true -> table_selects [e] = [].
Proof. destruct e; simpl; congruence. Qed.

Lemma ipset_event_no_select (e : event) :
  ipset_event e = true -> table_selects [e] = [].
Proof. destruct e; simpl; congruence. Qed.

Lemma start_block_selects (env : fw3_env) (g : globals) (f : fw3_family) :
  table_selects (start_block env g f) = supported_selects env f.
Proof.
  unfold start_block.
  change (open_event g f false :: EvInfo (constructing f)
          :: flat_map (start_table_events env f) table_range ++ ?l)
    with ([open_event g f false] ++ [EvInfo (constructing f)]
          ++ flat_map (start_table_events env f) table_range ++ l).
  rewrite !table_selects_app, start_tables_selects.
  rewrite (skip_event_no_select _ (open_event_plain g f false)).
  simpl. apply app_nil_r.
Qed.

Lemma family_log_selects (env : fw3_env) (g : globals) (f : fw3_family) (p : bool)
    (B : list event) :
  family_log p (start_block env g f) B ->
  table_selects B = if p then supported_selects env f else [].
Proof.
  destruct p; simpl.
  - intros ->. apply start_block_selects.
  - apply table_selects_none. apply skip_event_no_select.
Qed.

Lemma start_block_no_marker (env : fw3_env) (g : globals) (f f' : fw3_family) :
  family_eqb f f' = false ->
  forallb (fun e => negb (is_info (constructing f') e)) (start_block env g f) = true.
Proof.
  intros Hff. unfold start_block.
  cbn [forallb]. rewrite forallb_app, start_tables_no_marker.
  rewrite (skip_event_no_marker _ _ (open_event_plain g f false)).
  destruct f, f'; try discriminate; reflexivity.
Qed.

Lemma family_log_no_marker (env : fw3_env) (g : globals) (f f' : fw3_family) (p : bool)
    (B : list event) :
  family_eqb f f' = false ->
  family_log p (start_block env g f) B ->
  forallb (fun e => negb (is_info (constructing f') e)) B = true.
Proof.
  intros Hff. destruct p; simpl.
  - intros ->. now apply start_block_no_marker.
  - apply forallb_impl. apply skip_event_no_marker.
Qed.

Lemma family_block_start_block (env : fw3_env) (g : globals) (f : fw3_family)
    (P Q : list event) :
  forallb (fun e => negb (is_info (constructing f) e)) P = true ->
  family_block f (P ++ start_block env g f ++ Q)
  = flat_map (start_table_events env f) table_range.
Proof.
  intros HP. unfold family_block. rewrite skip_to_app_none by assumption.
  unfold start_block. cbn [app skip_to].
  rewrite (proj1 (negb_true_iff _)
             (skip_event_no_marker (constructing f) _ (open_event_plain g f false))).
  cbn [is_info]. rewrite String.eqb_refl.
  rewrite <- app_assoc. cbn [app].
  apply take_until_app_hit; [apply start_tables_no_close | reflexivity].
Qed.

(** C8. In a successful run of [start], the table-select directives written
    for a processed family are exactly the selects of the tables the kernel
    supports for it, in the order filter, nat, mangle, raw, none of them
    twice; and the run writes no other select directive than those of the
    processed families, IPv4 first. *)
Theorem start_table_select_order
    (env : fw3_env) (g : globals) (st : fw3_state) (restart : bool) (w : world)
    (f : fw3_family) :
  f <> FW3_FAMILY_ANY ->
  fst (result_of (start env g st restart w)) = 0 ->
  start_processes env g (w_statefile w) restart st f = true ->
  table_selects (family_block f (trace_of (start env g st restart w)))
    = map select_directive (filter (supported env f) table_range)
  /\ NoDup (table_selects (family_block f (trace_of (start env g st restart w))))
  /\ table_selects (trace_of (start env g st restart w))
     = flat_map (fun f' =>
                   if start_processes env g (w_statefile w) restart st f'
                   then supported_selects env f' else [])
                family_range.
Proof.
  intros Hf _ Hp.
  destruct (start_shape env g st restart w)
    as (w' & A & B4 & B6 & Hrun & _ & HA & _ & HB4 & HB6).
  rewrite Hrun. unfold trace_of. cbn [snd].
  match goal with
  | |- context [EvFreeStatefile :: ?x] => set (W := x)
  end.
  assert (HAm : forall f', forallb (fun e => negb (is_info (constructing f') e))
                             (EvReadStatefile :: A) = true).
  { intros f'. cbn [forallb]. simpl. revert HA. apply forallb_impl.
    apply ipset_event_no_marker. }
  assert (Hblock :
    family_block f (EvReadStatefile :: A ++ (B4 ++ B6) ++ EvFreeStatefile :: W)
    = flat_map (start_table_events env f) table_range).
  { destruct f; [congruence | |].
    - rewrite Hp in HB4. simpl in HB4. subst B4.
      replace (EvReadStatefile :: A ++ (start_block env g FW3_FAMILY_V4 ++ B6)
               ++ EvFreeStatefile :: W)
        with ((EvReadStatefile :: A) ++ start_block env g FW3_FAMILY_V4
              ++ (B6 ++ EvFreeStatefile :: W))
        by (cbn [app]; now rewrite <- !app_assoc).
      apply family_block_start_block, HAm.
    - rewrite Hp in HB6. simpl in HB6. subst B6.
      replace (EvReadStatefile :: A ++ (B4 ++ start_block env g FW3_FAMILY_V6)
               ++ EvFreeStatefile :: W)
        with (((EvReadStatefile :: A) ++ B4) ++ start_block env g FW3_FAMILY_V6
              ++ (EvFreeStatefile :: W))
        by (cbn [app]; now rewrite <- !app_assoc).
      apply family_block_start_block.
      rewrite forallb_app, HAm.
      eapply family_log_no_marker; [|exact HB4]. reflexivity. }
  rewrite Hblock, start_tables_selects. split; [reflexivity|].
  split; [apply supported_selects_NoDup|].
  assert (HW : table_selects (EvFreeStatefile :: W) = []).
  { subst W. match goal with |- context [if ?b then _ else _] => destruct b end;
      reflexivity. }
  change (EvReadStatefile :: A ++ ?l) with ([EvReadStatefile] ++ A ++ l).
  rewrite !table_selects_app, HW.
  rewrite (table_selects_none _ A ipset_event_no_select HA).
  rewrite (family_log_selects _ _ _ _ _ HB4), (family_log_selects _ _ _ _ _ HB6).
  cbn [family_range flat_map]. simpl (table_selects [_]).
  now rewrite !app_nil_r.
Qed.

(** ** Where a processed family sits in the log of [start] *)

Lemma skip_event_foreign (f : fw3_family) (e : event) :
  skip_event e = true -> foreign f e = true.
Proof. destruct e; simpl; intros H; try discriminate H; reflexivity. Qed.

Lemma ipset_event_foreign (f : fw3_family) (e : event) :
  ipset_event e = true -> foreign f e = true.
Proof. destruct e; simpl; intros H; try discriminate H; reflexivity. Qed.

Lemma start_tables_foreign (env : fw3_env) (f f' : fw3_family) (l : list fw3_table) :
  family_eqb f f' = false ->
  forallb (foreign f') (flat_map (start_table_events env f) l) = true.
Proof.
  intros Hff. apply forallb_flat_map. intros t. rewrite start_table_events_eq.
  destruct (supported env f t); [|reflexivity].
  destruct t, f, f'; try discriminate; reflexivity.
Qed.

Lemma start_block_foreign (env : fw3_env) (g : globals) (f f' : fw3_family) :
  family_eqb f f' = false ->
  forallb (foreign f') (start_block env g f) = true.
Proof.
  intros Hff. unfold start_block.
  cbn [forallb]. rewrite forallb_app, start_tables_foreign by assumption.
  rewrite (skip_event_foreign _ _ (open_event_plain g f false)).
  destruct f, f'; try discriminate; reflexivity.
Qed.

Lemma family_log_foreign (env : fw3_env) (g : globals) (f f' : fw3_family) (p : bool)
    (B : list event) :
  family_eqb f f' = false ->
  family_log p (start_block env g f) B ->
  forallb (foreign f') B = true.
Proof.
  intros Hff. destruct p; simpl.
  - intros ->. now apply start_block_foreign.
  - apply forallb_impl. apply skip_event_foreign.
Qed.

(** The log of [start] around the block of a processed family. *)
Lemma start_trace_split
    (env : fw3_env) (g : globals) (st : fw3_state) (restart : bool) (w : world)
    (f : fw3_family) :
  f <> FW3_FAMILY_ANY ->
  start_processes env g (w_statefile w) restart st f = true ->
  exists P Q,
    trace_of (start env g st restart w) = P ++ start_block env g f ++ Q
    /\ forallb (foreign f) P = true
    /\ forallb (foreign f) Q = true.
Proof.
  intros Hf Hp.
  destruct (start_shape env g st restart w)
    as (w' & A & B4 & B6 & Hrun & _ & HA & _ & HB4 & HB6).
  rewrite Hrun. unfold trace_of. cbn [snd].
  match goal with
  | |- context [EvFreeStatefile :: ?x] => set (W := x)
  end.
  assert (HW : forall f', forallb (foreign f') (EvFreeStatefile :: W) = true).
  { intros f'. subst W.
    match goal with |- context [if ?b then _ else _] => destruct b end;
      destruct f'; reflexivity. }
  assert (HAf : forall f', forallb (foreign f') (EvReadStatefile :: A) = true).
  { intros f'. cbn [forallb].
    rewrite (forallb_impl _ _ A (ipset_event_foreign f') HA).
    destruct f'; reflexivity. }
  destruct f; [congruence | |].
  - rewrite Hp in HB4. simpl in HB4. subst B4.
    exists (EvReadStatefile :: A), (B6 ++ EvFreeStatefile :: W).
    split; [cbn [app]; now rewrite <- !app_assoc|].
    split; [apply HAf|].
    rewrite forallb_app, HW.
    rewrite (family_log_foreign env g FW3_FAMILY_V6 FW3_FAMILY_V4 _ B6 eq_refl HB6).
    reflexivity.
  - rewrite Hp in HB6. simpl in HB6. subst B6.
    exists ((EvReadStatefile :: A) ++ B4), (EvFreeStatefile :: W).
    split; [cbn [app]; now rewrite <- !app_assoc|].
    split; [|apply HW].
    rewrite forallb_app, HAf.
    rewrite (family_log_foreign env g FW3_FAMILY_V4 FW3_FAMILY_V6 _ B4 eq_refl HB4).
    reflexivity.
Qed.

Lemma family_loaded_mark (st : fw3_state) (f f' : fw3_family) (b : bool) :
  f <> FW3_FAMILY_ANY -> f' <> FW3_FAMILY_ANY ->
  family_loaded (mark true b st f) f' = (b && family_eqb f f') || family_loaded st f'.
Proof.
  intros Hf Hf'. destruct b; [|reflexivity].
  unfold mark. now rewrite family_loaded_set.
Qed.

Lemma start_result
    (env : fw3_env) (g : globals) (st : fw3_state) (restart : bool) (w : world) :
  let sf := w_statefile w in
  let p4 := start_processes env g sf restart st FW3_FAMILY_V4 in
  let p6 := start_processes env g sf restart st FW3_FAMILY_V6 in
  let st' := mark true p6 (mark true p4 st FW3_FAMILY_V4) FW3_FAMILY_V6 in
  result_of (start env g st restart w) = (if p4 || p6 then 0 else 1, st')
  /\ w_statefile (world_of (start env g st restart w))
     = if p4 || p6 then written_record st' else sf.
Proof.
  intros sf p4 p6 st'.
  destruct (start_shape env g st restart w)
    as (w' & A & B4 & B6 & Hrun & Hw & _).
  rewrite Hrun. split; [reflexivity | exact Hw].
Qed.

Lemma In_forallb_false {A} (P : A -> bool) (x : A) (l : list A) :
  forallb (fun e => negb (P e)) l = true -> P x = true -> ~ In x l.
Proof.
  intros Hl Hx Hin. rewrite forallb_forall in Hl.
  specialize (Hl x Hin). rewrite Hx in Hl. discriminate.
Qed.

Lemma split_at_unique {A} (x : A) (l1 l2 pre post : list A) :
  ~ In x l1 -> ~ In x l2 ->
  l1 ++ x :: l2 = pre ++ x :: post ->
  pre = l1 /\ post = l2.
Proof.
  revert pre. induction l1 as [|a l1 IH]; intros pre H1 H2 Heq.
  - destruct pre as [|y pre]; simpl in Heq.
    + injection Heq as ->. auto.
    + injection Heq as <- ->. exfalso. apply H2. apply in_elt.
  - destruct pre as [|y pre]; simpl in Heq.
    + injection Heq as <- _. exfalso. apply H1. now left.
    + injection Heq as <- Heq.
      destruct (IH pre) as [-> ->]; auto.
      intros Hin. apply H1. now right.
Qed.

Lemma filter_none {A} (P : A -> bool) (l : list A) :
  forallb (fun e => negb (P e)) l = true -> filter P l = [].
Proof.
  induction l as [|x l IH]; simpl; [reflexivity|].
  intros H. apply andb_true_iff in H as [Hx Hl].
  apply negb_true_iff in Hx. rewrite Hx. auto.
Qed.

Lemma start_tables_emissions (env : fw3_env) (f : fw3_family) (l : list fw3_table) :
  f <> FW3_FAMILY_ANY ->
  filter (is_emission f) (flat_map (start_table_events env f) l)
  = flat_map (fun t => map (fun k => EvPrint k t f) emitter_order)
             (filter (supported env f) l).
Proof.
  intros Hf. induction l as [|t l IH]; [reflexivity|].
  cbn [flat_map filter]. rewrite filter_app, IH, start_table_events_eq.
  destruct (supported env f t); [|reflexivity].
  destruct f; [congruence | reflexivity | reflexivity].
Qed.

(** ** The flag update of [start] and the close of the sink *)

Lemma foreign_no_family_set (f : fw3_family) (e : event) :
  foreign f e = true -> negb (is_family_set f e) = true.
Proof.
  unfold foreign. intros H.
  apply andb_true_iff in H as [H _]. now apply andb_true_iff in H as [H _].
Qed.

Lemma foreign_no_emission (f : fw3_family) (e : event) :
  foreign f e = true -> negb (is_emission f e) = true.
Proof.
  unfold foreign. intros H.
  apply andb_true_iff in H as [H _]. now apply andb_true_iff in H as [_ H].
Qed.

Lemma start_tables_no_family_set (env : fw3_env) (f f' : fw3_family)
    (l : list fw3_table) :
  forallb (fun e => negb (is_family_set f' e))
          (flat_map (start_table_events env f) l) = true.
Proof.
  apply forallb_flat_map. intros t. rewrite start_table_events_eq.
  destruct (supported env f t); reflexivity.
Qed.

(** C1, as amended. For a family that [start] processes, the in-memory flag
    is updated exactly once, directly after the close of that family's sink
    and after every emitter call the family is owed; nothing is written for
    the family afterwards.  The status [close] reports is whatever the
    environment answers and is not looked at: in either case the flag is set
    in the state [start] leaves and the run returns 0. *)
Theorem start_marks_after_close
    (env : fw3_env) (g : globals) (st : fw3_state) (restart : bool) (w : world)
    (f : fw3_family) :
  f <> FW3_FAMILY_ANY ->
  start_processes env g (w_statefile w) restart st f = true ->
  (exists pre post,
      trace_of (start env g st restart w)
      = pre ++ EvCommandClose (env_close env (Some (restore_sink g f)))
            :: EvFamilySet f true :: post
      /\ ~ In (EvFamilySet f true) pre
      /\ ~ In (EvFamilySet f true) post
      /\ filter (is_emission f) pre = owed_emissions env f
      /\ filter (is_emission f) post = [])
  /\ fst (result_of (start env g st restart w)) = 0
  /\ family_loaded (snd (result_of (start env g st restart w))) f = true.
Proof.
  intros Hf Hp. split.
  - destruct (start_trace_split env g st restart w f Hf Hp) as (P & Q & Htr & HP & HQ).
    exists (P ++ open_event g f false :: EvInfo (constructing f)
              :: flat_map (start_table_events env f) table_range), Q.
    assert (Hself : is_family_set f (EvFamilySet f true) = true)
      by (destruct f; [congruence | reflexivity | reflexivity]).
    split; [|split; [|split; [|split]]].
    + rewrite Htr. unfold start_block. rewrite <- !app_assoc. cbn [app].
      rewrite <- !app_assoc. reflexivity.
    + apply (In_forallb_false (is_family_set f)); [|exact Hself].
      rewrite forallb_app. cbn [forallb].
      rewrite (forallb_impl _ _ P (foreign_no_family_set f) HP).
      rewrite start_tables_no_family_set.
      rewrite (proj1 (negb_true_iff _)
                 (foreign_no_family_set f _
                    (skip_event_foreign f _ (open_event_plain g f false)))).
      reflexivity.
    + apply (In_forallb_false (is_family_set f)); [|exact Hself].
      revert HQ. apply forallb_impl, foreign_no_family_set.
    + rewrite filter_app.
      rewrite (filter_none _ P (forallb_impl _ _ P (foreign_no_emission f) HP)).
      cbn [app filter].
      rewrite (proj1 (negb_true_iff _)
                 (foreign_no_emission f _
                    (skip_event_foreign f _ (open_event_plain g f false)))).
      cbn [is_emission]. now apply start_tables_emissions.
    + apply filter_none. revert HQ. apply forallb_impl, foreign_no_emission.
  - destruct (start_result env g st restart w) as [Hres _].
    rewrite Hres. cbn [fst snd].
    destruct f; [congruence | |]; rewrite Hp.
    + split; [reflexivity|].
      rewrite !family_loaded_mark by discriminate.
      cbn [family_eqb andb orb]. now rewrite andb_false_r.
    + split; [now rewrite orb_true_r|].
      rewrite !family_loaded_mark by discriminate. reflexivity.
Qed.

(** A run in which closing the sink of the IPv4 rule loader reports failure:
    [start] nevertheless leaves the IPv4 flag set and returns success. *)
Lemma start_close_failure_counterexample :
  In (EvCommandClose false)
     (trace_of (start (router true iptables_restore_fails) (mk_globals false FW3_FAMILY_V4)
                  loaded_state false no_record))
  /\ fst (result_of (start (router true iptables_restore_fails) (mk_globals false FW3_FAMILY_V4)
                       loaded_state false no_record)) = 0
  /\ family_loaded (snd (result_of (start (router true iptables_restore_fails)
                                      (mk_globals false FW3_FAMILY_V4)
                                      loaded_state false no_record)))
                   FW3_FAMILY_V4 = true.
Proof.
  split; [|split]; [| vm_compute; reflexivity | vm_compute; reflexivity].
  vm_compute. repeat (try (left; reflexivity); right).
Qed.

Lemma start_marks_after_close_witness :
  fst (result_of (start (router true iptables_restore_fails) (mk_globals false FW3_FAMILY_V4)
                    loaded_state false no_record)) = 0.
Proof.
  refine (proj1 (proj2 (start_marks_after_close (router true iptables_restore_fails)
                          (mk_globals false FW3_FAMILY_V4) loaded_state false
                          no_record FW3_FAMILY_V4 _ _))).
  - discriminate.
  - vm_compute. reflexivity.
Defined.

(** ** The record [start] leaves *)

Lemma family_running_written (st : fw3_state) (f : fw3_family) :
  family_running (written_record st) f = family_loaded st f.
Proof. reflexivity. Qed.

Lemma start_processes_used (env : fw3_env) (g : globals) (sf : statefile_t)
    (restart : bool) (st : fw3_state) (f : fw3_family) :
  family_used g f = false -> start_processes env g sf restart st f = false.
Proof. unfold start_processes. now intros ->. Qed.

Lemma family_used_other (g : globals) (f other : fw3_family) :
  f <> FW3_FAMILY_ANY -> other <> f -> use_family g = f ->
  family_used g other = false.
Proof.
  unfold family_used. intros Hf Ho ->.
  destruct f, other; try congruence; reflexivity.
Qed.

(** How far the defect of C4 reaches.  After any successful [start]
    restricted to family F the record read back marks F as applied, and for
    the other family, which [start] did not touch, it carries the in-memory
    flag the configuration load left, whatever the record said before. *)
Lemma start_restricted_record
    (env : fw3_env) (g : globals) (st : fw3_state) (restart : bool) (w : world)
    (f other : fw3_family) :
  f <> FW3_FAMILY_ANY -> other <> FW3_FAMILY_ANY -> other <> f ->
  use_family g = f ->
  fst (result_of (start env g st restart w)) = 0 ->
  family_running (w_statefile (world_of (start env g st restart w))) f = true
  /\ family_running (w_statefile (world_of (start env g st restart w))) other
     = family_loaded st other.
Proof.
  intros Hf Ho Hne Huse Hrv.
  destruct (start_result env g st restart w) as [Hres Hw].
  rewrite Hres in Hrv. cbn [fst] in Hrv.
  pose proof (start_processes_used env g (w_statefile w) restart st other
                (family_used_other g f other Hf Hne Huse)) as Hother.
  destruct (start_processes env g (w_statefile w) restart st FW3_FAMILY_V4
            || start_processes env g (w_statefile w) restart st FW3_FAMILY_V6) eqn:Hp;
    [|discriminate].
  rewrite Hw, !family_running_written.
  rewrite !family_loaded_mark by (assumption || discriminate).
  destruct f, other; try congruence; rewrite Hother in *.
  - rewrite orb_false_r in Hp. rewrite Hp. split; reflexivity.
  - cbn [orb] in Hp. rewrite Hp. split; reflexivity.
Qed.

(** C4, at a failing input.  No record exists and both families are
    enabled in the configuration.  [fw3 -4 start] succeeds and calls no
    emitter for IPv6; the record it writes nevertheless marks IPv6 as
    applied, where the record before did not.  [main.c] itself reads that
    bit as the IPv6 firewall being started already: the [fw3 -6 start] that
    follows is refused with that warning, returns 1 and again writes
    nothing for IPv6. *)
Theorem start_restricted_marks_other_family :
  let first := main (router true closes_fine) ["4"%char] ["start"] no_record in
  let second :=
    main (router true closes_fine) ["6"%char] ["start"] (world_of first) in
  result_of first = Return 0
  /\ existsb (is_emission FW3_FAMILY_V6) (trace_of first) = false
  /\ family_running (w_statefile no_record) FW3_FAMILY_V6 = false
  /\ family_running (w_statefile (world_of first)) FW3_FAMILY_V4 = true
  /\ family_running (w_statefile (world_of first)) FW3_FAMILY_V6 = true
  /\ result_of second = Return 1
  /\ existsb (is_emission FW3_FAMILY_V6) (trace_of second) = false
  /\ In (already_started FW3_FAMILY_V6) (trace_of second).
Proof.
  vm_compute. repeat split. repeat (try (left; reflexivity); right).
Qed.

Lemma start_restricted_record_witness :
  family_running
    (w_statefile (world_of (start (router true closes_fine)
                              (mk_globals false FW3_FAMILY_V6)
                              (set_has_flag zero_state (setbit 0 FW3_DEFAULT_IPV6_LOADED))
                              false no_record)))
    FW3_FAMILY_V6 = true
  /\ family_running
       (w_statefile (world_of (start (router true closes_fine)
                                 (mk_globals false FW3_FAMILY_V6)
                                 (set_has_flag zero_state (setbit 0 FW3_DEFAULT_IPV6_LOADED))
                                 false no_record)))
       FW3_FAMILY_V4 = false.
Proof.
  apply (start_restricted_record (router true closes_fine)
           (mk_globals false FW3_FAMILY_V6)
           (set_has_flag zero_state (setbit 0 FW3_DEFAULT_IPV6_LOADED))
           false no_record FW3_FAMILY_V6 FW3_FAMILY_V4).
  - discriminate.
  - discriminate.
  - discriminate.
  - reflexivity.
  - vm_compute. reflexivity.
Defined.

(** ** Print mode *)

(** C2, at a failing input.  On a router with no record, [print] opens no
    external process (the rules go to the standard output), yet the run ends
    with [fw3_write_statefile]: a record marking both families as applied
    now exists although nothing was applied. *)
Theorem print_writes_statefile :
  let r := main (router true closes_fine) [] ["print"] no_record in
  result_of r = Return 0
  /\ existsb is_command_pipe (trace_of r) = false
  /\ existsb is_write_statefile (trace_of r) = true
  /\ w_statefile no_record = None
  /\ w_statefile (world_of r)
     = Some [mk_entry FW3_TYPE_DEFAULTS "-" [both_loaded]].
Proof. vm_compute. repeat split. Qed.

(** ** The shape of a run of [stop] *)

Lemma stop_family_processed
    (env : fw3_env) (g : globals) (sf : statefile_t) (complete restart : bool)
    (rv : Z) (st : fw3_state) (f : fw3_family) (w : world) :
  stop_processes env g sf complete f = true ->
  stop_family env g sf complete restart (rv, st) f w
  = ((0, mark false (negb restart) st f),
     mk_world (w_statefile w) None,
     stop_block env g f complete restart).
Proof.
  unfold stop_processes. intros H.
  apply andb_true_iff in H as [H Hpipe]. apply andb_true_iff in H as [Hrun Hused].
  unfold stop_family.
  replace (negb complete && negb (family_running sf f)) with false
    by (destruct complete, (family_running sf f); simpl in *; congruence).
  rewrite Hused. cbn [negb].
  unfold bind at 1. rewrite (restore_pipe_ok env g f true w Hpipe). cbn [negb].
  unfold bind, info, emit, fw3_command_close.
  rewrite stop_tables_run. unfold stop_block.
  destruct restart; simpl; rewrite ?app_nil_r, <- ?app_assoc; reflexivity.
Qed.

Lemma stop_family_skipped
    (env : fw3_env) (g : globals) (sf : statefile_t) (complete restart : bool)
    (rv : Z) (st : fw3_state) (f : fw3_family) (w : world) :
  stop_processes env g sf complete f = false ->
  exists w' evs,
    stop_family env g sf complete restart (rv, st) f w = ((rv, st), w', evs)
    /\ w_statefile w' = w_statefile w
    /\ forallb skip_event evs = true.
Proof.
  unfold stop_processes, stop_family. intros H.
  destruct (negb complete && negb (family_running sf f)) eqn:Hrun;
    [exists w, []; repeat split; reflexivity|].
  assert (Hc : complete || family_running sf f = true)
    by (destruct complete, (family_running sf f); simpl in *; congruence).
  rewrite Hc in H. cbn [andb] in H.
  destruct (family_used g f); cbn [negb andb] in *;
    [|exists w, []; repeat split; reflexivity].
  destruct (restore_pipe_fail env g f true w H) as (evs & Hr & Hevs).
  unfold bind. rewrite Hr. cbn [negb]. exists w, evs.
  unfold ret. rewrite app_nil_r. auto.
Qed.

Lemma stop_family_shape
    (env : fw3_env) (g : globals) (sf : statefile_t) (complete restart : bool)
    (rv : Z) (st : fw3_state) (f : fw3_family) (w : world) :
  let p := stop_processes env g sf complete f in
  exists w' evs,
    stop_family env g sf complete restart (rv, st) f w
    = ((if p then 0 else rv, mark false (p && negb restart) st f), w', evs)
    /\ w_statefile w' = w_statefile w
    /\ family_log p (stop_block env g f complete restart) evs.
Proof.
  intros p. subst p.
  destruct (stop_processes env g sf complete f) eqn:Hp.
  - rewrite (stop_family_processed env g sf complete restart rv st f w Hp).
    eexists _, _. split; [reflexivity|]. split; reflexivity.
  - destruct (stop_family_skipped env g sf complete restart rv st f w Hp)
      as (w' & evs & Hr & Hw & Hevs).
    exists w', evs. auto.
Qed.

Lemma stop_loop_shape
    (env : fw3_env) (g : globals) (sf : statefile_t) (complete restart : bool)
    (st : fw3_state) (w : world) :
  let p4 := stop_processes env g sf complete FW3_FAMILY_V4 in
  let p6 := stop_processes env g sf complete FW3_FAMILY_V6 in
  exists w' B4 B6,
    for_fold family_range (stop_family env g sf complete restart) (1, st) w
    = ((if p4 || p6 then 0 else 1,
        mark false (p6 && negb restart)
             (mark false (p4 && negb restart) st FW3_FAMILY_V4) FW3_FAMILY_V6),
       w', B4 ++ B6)
    /\ w_statefile w' = w_statefile w
    /\ family_log p4 (stop_block env g FW3_FAMILY_V4 complete restart) B4
    /\ family_log p6 (stop_block env g FW3_FAMILY_V6 complete restart) B6.
Proof.
  intros p4 p6.
  destruct (stop_family_shape env g sf complete restart 1 st FW3_FAMILY_V4 w)
    as (w1 & B4 & H4 & Hw1 & HB4).
  fold p4 in H4, HB4.
  destruct (stop_family_shape env g sf complete restart (if p4 then 0 else 1)
              (mark false (p4 && negb restart) st FW3_FAMILY_V4) FW3_FAMILY_V6 w1)
    as (w2 & B6 & H6 & Hw2 & HB6).
  fold p6 in H6, HB6.
  exists w2, B4, B6. split; [|split; [congruence | split; assumption]].
  cbn [for_fold family_range]. unfold bind. rewrite H4, H6.
  unfold ret. rewrite app_nil_r.
  destruct p4, p6; reflexivity.
Qed.

Lemma stop_ipsets_run (env : fw3_env) (b : bool) (w : world) :
  exists w' A,
    (if b then
       ok <- fw3_command_pipe env false "ipset" ["-exist"; "-"] ;;
       if ok then emit EvDestroyIpsets ;; fw3_command_close env ;; ret tt
       else ret tt
     else ret tt) w = (tt, w', A)
    /\ w_statefile w' = w_statefile w
    /\ forallb ipset_event A = true.
Proof.
  destruct b.
  - unfold bind, fw3_command_pipe.
    destruct (env_command env "ipset"); simpl; eexists _, _; repeat split.
  - exists w, []. repeat split.
Qed.

(** A [stop] that gets past the check for a missing record. *)
Lemma stop_shape
    (env : fw3_env) (g : globals) (st : fw3_state) (complete restart : bool)
    (w : world) :
  negb complete && is_none (w_statefile w) = false ->
  let sf := w_statefile w in
  let p4 := stop_processes env g sf complete FW3_FAMILY_V4 in
  let p6 := stop_processes env g sf complete FW3_FAMILY_V6 in
  let st' := mark false (p6 && negb restart)
                  (mark false (p4 && negb restart) st FW3_FAMILY_V4) FW3_FAMILY_V6 in
  exists w' B4 B6 A,
    stop env g st complete restart w
    = ((if p4 || p6 then 0 else 1, st'), w',
       EvReadStatefile :: (B4 ++ B6) ++ A
       ++ EvFreeStatefile
       :: (if p4 || p6 then [EvWriteStatefile (has_flag (defaults st'))] else []))
    /\ w_statefile w' = (if p4 || p6 then written_record st' else sf)
    /\ forallb ipset_event A = true
    /\ family_log p4 (stop_block env g FW3_FAMILY_V4 complete restart) B4
    /\ family_log p6 (stop_block env g FW3_FAMILY_V6 complete restart) B6.
Proof.
  intros Hgo sf p4 p6 st'.
  destruct (stop_loop_shape env g sf complete restart st w)
    as (w1 & B4 & B6 & HL & Hw1 & HB4 & HB6).
  fold p4 in HL, HB4. fold p6 in HL, HB6. fold st' in HL.
  destruct (stop_ipsets_run env
              (negb restart && negb (family_loaded st' FW3_FAMILY_V4)
               && negb (family_loaded st' FW3_FAMILY_V6)) w1)
    as (w2 & A & HA & Hw2 & HAev).
  unfold stop. unfold bind at 1. unfold fw3_read_statefile at 1.
  rewrite Hgo. fold sf.
  unfold bind at 1. rewrite HL.
  unfold bind at 1. rewrite HA.
  destruct (p4 || p6) eqn:Hp.
  - eexists _, B4, B6, A. split; [cbn; rewrite <- !app_assoc; reflexivity|].
    repeat split; assumption.
  - eexists _, B4, B6, A. split; [cbn; rewrite <- !app_assoc; reflexivity|].
    repeat split; try assumption. simpl. subst sf. congruence.
Qed.

(** ** The two passes of [stop] *)

Lemma stop_table_events_eq (env : fw3_env) (f : fw3_family) (t : fw3_table) :
  stop_table_events env f false t
  = if supported env f t then
      [EvInfo (" * Clearing " ++ tables t ++ " table")%string;
       EvPr (select_directive t);
       EvFlushRules t f false; EvFlushZones t f false;
       EvFlushRules t f true; EvFlushZones t f true;
       EvPr commit_directive]
    else [].
Proof.
  unfold stop_table_events, stop_table, supported.
  destruct (fw3_has_table env (family_eqb f FW3_FAMILY_V6) (tables t)); reflexivity.
Qed.

Lemma removal_calls_app (l1 l2 : list event) :
  removal_calls (l1 ++ l2) = removal_calls l1 ++ removal_calls l2.
Proof. unfold removal_calls. apply flat_map_app. Qed.

Lemma removal_calls_none (P : event -> bool) (l : list event) :
  (forall e, P e = true -> removal_calls [e] = []) ->
  forallb P l = true -> removal_calls l = [].
Proof.
  intros HP. induction l as [|e l IH]; [reflexivity|].
  intros H. simpl in H. apply andb_true_iff in H as [He Hl].
  change (e :: l) with ([e] ++ l). rewrite removal_calls_app, (HP e He). auto.
Qed.

Lemma skip_event_no_call (e : event) :
  skip_event e = true -> removal_calls [e] = [].
Proof. destruct e; simpl; congruence. Qed.

Lemma ipset_event_no_call (e : event) :
  ipset_event e = true -> removal_calls [e] = [].
Proof. destruct e; simpl; congruence. Qed.

Lemma stop_tables_calls (env : fw3_env) (f : fw3_family) (l : list fw3_table) :
  removal_calls (flat_map (stop_table_events env f false) l)
  = flat_map (pass_calls f) (filter (supported env f) l).
Proof.
  induction l as [|t l IH]; [reflexivity|].
  cbn [flat_map filter]. rewrite removal_calls_app, IH, stop_table_events_eq.
  destruct (supported env f t); reflexivity.
Qed.

Lemma stop_block_calls (env : fw3_env) (g : globals) (f : fw3_family) (restart : bool) :
  removal_calls (stop_block env g f false restart)
  = flat_map (pass_calls f) (filter (supported env f) table_range).
Proof.
  unfold stop_block.
  change (open_event g f true :: EvInfo (removing f)
          :: flat_map (stop_table_events env f false) table_range ++ ?l)
    with ([open_event g f true] ++ [EvInfo (removing f)]
          ++ flat_map (stop_table_events env f false) table_range ++ l).
  rewrite !removal_calls_app, stop_tables_calls.
  rewrite (skip_event_no_call _ (open_event_plain g f true)).
  destruct restart; simpl; apply app_nil_r.
Qed.

Lemma family_log_calls (env : fw3_env) (g : globals) (f : fw3_family)
    (restart p : bool) (B : list event) :
  family_log p (stop_block env g f false restart) B ->
  removal_calls B
  = if p then flat_map (pass_calls f) (filter (supported env f) table_range) else [].
Proof.
  destruct p; simpl.
  - intros ->. apply stop_block_calls.
  - apply removal_calls_none. apply skip_event_no_call.
Qed.

(** The teardown calls of a non-complete [stop], in order. *)
Lemma stop_removal_calls
    (env : fw3_env) (g : globals) (st : fw3_state) (restart : bool) (w : world) :
  removal_calls (trace_of (stop env g st false restart w))
  = flat_map (fun f =>
                if stop_processes env g (w_statefile w) false f
                then flat_map (pass_calls f) (filter (supported env f) table_range)
                else [])
             family_range.
Proof.
  destruct (w_statefile w) as [sf|] eqn:Hsf.
  - destruct (stop_shape env g st false restart w)
      as (w' & B4 & B6 & A & Hrun & _ & HA & HB4 & HB6).
    { now rewrite Hsf. }
    rewrite Hrun. unfold trace_of. cbn [snd].
    match goal with
    | |- context [EvFreeStatefile :: ?x] => set (W := x)
    end.
    assert (HW : removal_calls (EvFreeStatefile :: W) = []).
    { subst W. match goal with |- context [if ?b then _ else _] => destruct b end;
        reflexivity. }
    change (EvReadStatefile :: ?l) with ([EvReadStatefile] ++ l).
    rewrite !removal_calls_app, HW.
    rewrite (removal_calls_none _ A ipset_event_no_call HA).
    rewrite (family_log_calls _ _ _ _ _ _ HB4), (family_log_calls _ _ _ _ _ _ HB6).
    rewrite Hsf. cbn [family_range flat_map]. simpl (removal_calls [_]).
    now rewrite !app_nil_r.
  - unfold stop, bind, fw3_read_statefile. rewrite Hsf.
    destruct restart; reflexivity.
Qed.

Lemma filter_flat_map {A B} (P : B -> bool) (g : A -> list B) (l : list A) :
  filter P (flat_map g l) = flat_map (fun x => filter P (g x)) l.
Proof.
  induction l as [|x l IH]; simpl; [reflexivity|].
  now rewrite filter_app, IH.
Qed.

Lemma keep_pass_calls (p : fw3_family -> bool) (s : fw3_family -> fw3_table -> bool)
    (f : fw3_family) (l : list fw3_table) :
  filter (keep p s) (flat_map (pass_calls f) l)
  = if p f then flat_map (pass_calls f) (filter (s f) l) else [].
Proof.
  induction l as [|t l IH]; simpl.
  - now destruct (p f).
  - rewrite IH. destruct (p f), (s f t); reflexivity.
Qed.

Lemma owed_calls_as_filter (p : fw3_family -> bool)
    (s : fw3_family -> fw3_table -> bool) :
  flat_map (fun f => if p f then flat_map (pass_calls f) (filter (s f) table_range)
                     else [])
           family_range
  = filter (keep p s) all_calls.
Proof.
  unfold all_calls. rewrite filter_flat_map.
  apply flat_map_ext. intros f. now rewrite keep_pass_calls.
Qed.

Lemma all_calls_sorted : StronglySorted Z.lt (map call_rank all_calls).
Proof.
  apply Sorted_StronglySorted; [exact Z.lt_trans|].
  vm_compute. repeat constructor.
Qed.

Lemma StronglySorted_map_filter {A} (R : Z -> Z -> Prop) (r : A -> Z)
    (P : A -> bool) (l : list A) :
  StronglySorted R (map r l) -> StronglySorted R (map r (filter P l)).
Proof.
  induction l as [|a l IH]; simpl; [constructor|].
  intros H. apply StronglySorted_inv in H as [Hs Hall].
  destruct (P a); simpl; [|auto].
  constructor; [auto|].
  rewrite Forall_forall in *. intros x Hx. apply Hall.
  apply in_map_iff in Hx as (y & <- & Hy). apply filter_In in Hy as [Hy _].
  now apply in_map.
Qed.

Lemma StronglySorted_nth {A} (R : A -> A -> Prop) (l : list A) :
  StronglySorted R l ->
  forall i j a b,
    (i < j)%nat -> nth_error l i = Some a -> nth_error l j = Some b -> R a b.
Proof.
  induction 1 as [|x l Hs IH Hall]; intros i j a b Hij Hi Hj.
  - destruct i; discriminate.
  - destruct j as [|j]; [lia|]. simpl in Hj.
    destruct i as [|i]; simpl in Hi.
    + injection Hi as ->. rewrite Forall_forall in Hall.
      apply Hall. eapply nth_error_In; eauto.
    + apply (IH i j); auto. lia.
Qed.

Lemma sorted_rank_order {A} (r : A -> Z) (l : list A) (i j : nat) (a b : A) :
  StronglySorted Z.lt (map r l) ->
  nth_error l i = Some a -> nth_error l j = Some b ->
  r a < r b -> (i < j)%nat.
Proof.
  intros Hs Hi Hj Hab.
  destruct (Nat.lt_trichotomy i j) as [Hlt | [Heq | Hgt]]; [assumption | |].
  - subst j. rewrite Hi in Hj. injection Hj as ->. lia.
  - pose proof (StronglySorted_nth Z.lt (map r l) Hs j i (r b) (r a) Hgt
                  (map_nth_error r j l Hj) (map_nth_error r i l Hi)).
    lia.
Qed.

Lemma pass_calls_present (f : fw3_family) (t : fw3_table) (p : bool) (k : teardown)
    (c : fw3_family * fw3_table * bool * teardown) :
  In (f, t, p, k) all_calls -> In c (pass_calls f t) -> In c all_calls.
Proof.
  intros Hin Hc.
  assert (Hf : f <> FW3_FAMILY_ANY).
  { intros ->. vm_compute in Hin. intuition discriminate. }
  clear Hin.
  unfold pass_calls in Hc. simpl in Hc.
  destruct Hc as [<- | [<- | [<- | [<- | []]]]];
    destruct f, t; try congruence;
    vm_compute; repeat (try (left; reflexivity); right).
Qed.

(** C9. In a non-complete [stop], take any table of a family.  Every call
    of a teardown collaborator for it with the terminal flag set comes
    strictly after every call for it with the flag clear, and within one
    pass the rules collaborator is called before the zones collaborator.
    Whenever one of the four calls for the table occurs, all four do. *)
Theorem stop_two_pass_order
    (env : fw3_env) (g : globals) (st : fw3_state) (restart : bool) (w : world)
    (f : fw3_family) (t : fw3_table) (i j : nat) (p p' : bool) (k k' : teardown) :
  let calls := removal_calls (trace_of (stop env g st false restart w)) in
  nth_error calls i = Some (f, t, p, k) ->
  nth_error calls j = Some (f, t, p', k') ->
  (p = false /\ p' = true) \/ (p = p' /\ k = TdRules /\ k' = TdZones) ->
  (i < j)%nat
  /\ forall c, In c (pass_calls f t) -> In c calls.
Proof.
  intros calls Hi Hj Hord.
  assert (Hcalls : calls
                   = filter (keep (stop_processes env g (w_statefile w) false)
                                  (supported env)) all_calls).
  { subst calls. rewrite stop_removal_calls. apply owed_calls_as_filter. }
  split.
  - apply (sorted_rank_order call_rank calls i j (f, t, p, k) (f, t, p', k'));
      [| assumption | assumption |].
    + rewrite Hcalls. apply StronglySorted_map_filter, all_calls_sorted.
    + unfold call_rank.
      destruct Hord as [[-> ->] | [-> [-> ->]]];
        [destruct k, k'; lia | destruct p'; lia].
  - intros c Hc. apply nth_error_In in Hi. rewrite Hcalls in *.
    apply filter_In in Hi as [Hall Hkeep]. apply filter_In. split.
    + eapply pass_calls_present; eauto.
    + unfold pass_calls in Hc. simpl in Hc.
      destruct Hc as [<- | [<- | [<- | [<- | []]]]]; exact Hkeep.
Qed.

(** ** Stop restricted to a family that is not running *)

Lemma stop_family_not_running
    (env : fw3_env) (g : globals) (sf : statefile_t) (restart : bool)
    (acc : Z * fw3_state) (f : fw3_family) (w : world) :
  family_running sf f = false ->
  stop_family env g sf false restart acc f w = (acc, w, []).
Proof. intros H. destruct acc. unfold stop_family. now rewrite H. Qed.

Lemma stop_family_not_used
    (env : fw3_env) (g : globals) (sf : statefile_t) (complete restart : bool)
    (acc : Z * fw3_state) (f : fw3_family) (w : world) :
  family_used g f = false ->
  stop_family env g sf complete restart acc f w = (acc, w, []).
Proof.
  intros H. destruct acc. unfold stop_family. rewrite H.
  destruct (negb complete && negb (family_running sf f)); reflexivity.
Qed.

(** C5, as amended. The record marks IPv6 but not IPv4 as applied and a
    non-complete [stop] is restricted to IPv4: the run returns 1 with the
    state unchanged, calls no removal directive, opens no sink for rules,
    does not write the record, which stays as it was, and calls [warn] not
    once. *)
Theorem stop_other_family_only
    (env : fw3_env) (pr : bool) (st : fw3_state) (sf : list fw3_statefile_entry)
    (w : world) :
  w_statefile w = Some sf ->
  family_running (Some sf) FW3_FAMILY_V4 = false ->
  family_running (Some sf) FW3_FAMILY_V6 = true ->
  let r := stop env (mk_globals pr FW3_FAMILY_V4) st false false w in
  result_of r = (1, st)
  /\ w_statefile (world_of r) = Some sf
  /\ existsb is_removal (trace_of r) = false
  /\ existsb is_rule_pipe (trace_of r) = false
  /\ existsb is_write_statefile (trace_of r) = false
  /\ existsb is_warn (trace_of r) = false.
Proof.
  intros Hw H4 H6 r.
  assert (Hr : r = stop env (mk_globals pr FW3_FAMILY_V4) st false false w)
    by reflexivity.
  clearbody r.
  unfold stop in Hr. unfold bind at 1 in Hr. unfold fw3_read_statefile at 1 in Hr.
  rewrite Hw in Hr. cbn [negb andb is_none] in Hr.
  unfold bind at 1 in Hr. cbn [for_fold family_range] in Hr.
  unfold bind at 1 in Hr.
  rewrite (stop_family_not_running env _ (Some sf) false (1, st) FW3_FAMILY_V4 w H4)
    in Hr.
  unfold bind at 1 in Hr.
  rewrite (stop_family_not_used env (mk_globals pr FW3_FAMILY_V4) (Some sf) false false
             (1, st) FW3_FAMILY_V6 w eq_refl) in Hr.
  unfold ret at 1 in Hr. cbn [negb andb] in Hr.
  destruct (family_loaded st FW3_FAMILY_V4), (family_loaded st FW3_FAMILY_V6);
    cbn [negb andb] in Hr;
    try (subst r; cbn; rewrite Hw; repeat split; reflexivity).
  unfold bind at 1 in Hr. unfold bind at 1 in Hr. unfold fw3_command_pipe in Hr.
  destruct (env_command env "ipset"); subst r; cbn; rewrite Hw; repeat split;
    reflexivity.
Qed.

Lemma stop_other_family_only_witness :
  result_of (stop (router true closes_fine) (mk_globals false FW3_FAMILY_V4)
               loaded_state false false v6_running) = (1, loaded_state)
  /\ existsb is_warn
       (trace_of (stop (router true closes_fine) (mk_globals false FW3_FAMILY_V4)
                    loaded_state false false v6_running)) = false.
Proof.
  destruct (stop_other_family_only (router true closes_fine) false loaded_state
              v6_record v6_running eq_refl eq_refl eq_refl)
    as (Hres & _ & _ & _ & _ & Hwarn).
  split; [exact Hres | exact Hwarn].
Defined.

(** The scenario run from the command line, with -4 and the command stop:
    the run ends with status 1 and [warn] is never called. *)
Lemma stop_other_family_counterexample :
  family_running (w_statefile v6_running) FW3_FAMILY_V4 = false
  /\ family_running (w_statefile v6_running) FW3_FAMILY_V6 = true
  /\ result_of (main (router true closes_fine) ["4"%char] ["stop"] v6_running)
     = Return 1
  /\ existsb is_warn
       (trace_of (main (router true closes_fine) ["4"%char] ["stop"] v6_running))
     = false.
Proof. vm_compute. repeat split. Qed.

(** ** The lock *)

Lemma parse_options_run (opts : list ascii) (g : globals) (w : world) :
  exists og evs,
    parse_options opts g w = (og, w, evs) /\ forallb prelude evs = true.
Proof.
  revert g. induction opts as [|ch opts IH]; intros g; cbn [parse_options].
  - exists (Some g), []. split; reflexivity.
  - destruct (Ascii.eqb ch "4"); [apply IH|].
    destruct (Ascii.eqb ch "6"); [apply IH|].
    destruct (Ascii.eqb ch "q").
    + destruct (IH g) as (og & evs & Hrun & Hevs).
      exists og, (EvFreopenStderr :: evs). unfold bind, emit. rewrite Hrun.
      split; [reflexivity | exact Hevs].
    + destruct (Ascii.eqb ch "h"); [|apply IH].
      exists None, [EvUsage]. split; reflexivity.
Qed.

Lemma build_state_run (env : fw3_env) (w : world) :
  exists os evs,
    build_state env w = (os, w, evs)
    /\ forallb prelude evs = true
    /\ (os <> None ->
        In (EvUciLoad true) evs /\ forall l, In (EvLoad l) evs).
Proof.
  unfold build_state, bind, fw3_find_command.
  destruct (env_malloc env); cbn;
    [|eexists _, _; split; [reflexivity|]; split; [reflexivity | congruence]].
  destruct (env_uci_alloc env); cbn;
    [|eexists _, _; split; [reflexivity|]; split; [reflexivity | congruence]].
  destruct (env_uci_load env); cbn;
    [|eexists _, _; split; [reflexivity|]; split; [reflexivity | congruence]].
  destruct (env_find_command env "ipset"); cbn;
    (eexists _, _; split; [reflexivity|]; split; [reflexivity|]);
    (intros _; split; [simpl; tauto | intros []; simpl; tauto]).
Qed.

Lemma prelude_not_guarded (l : list event) :
  forallb prelude l = true -> forallb (fun e => negb (guarded e)) l = true.
Proof.
  apply forallb_impl. unfold prelude. intros e H.
  now apply andb_true_iff in H as [H _].
Qed.

Lemma no_guarded_split (l pre post : list event) (e : event) :
  forallb (fun x => negb (guarded x)) l = true ->
  l = pre ++ e :: post -> guarded e = true -> False.
Proof.
  intros Hl -> He. rewrite forallb_app in Hl. simpl in Hl.
  rewrite He in Hl. simpl in Hl. rewrite andb_false_r in Hl. discriminate.
Qed.

Lemma split_after_prefix (P R pre post : list event) (e : event) (Q : event -> bool) :
  forallb (fun x => negb (Q x)) P = true ->
  Q e = true ->
  P ++ R = pre ++ e :: post ->
  exists l, pre = P ++ l /\ R = l ++ e :: post.
Proof.
  intros HP He Heq. apply app_eq_app in Heq as [l [[-> Hl] | [-> Hl]]].
  - destruct l as [|x l].
    + exists []. rewrite !app_nil_r. simpl in Hl. split; [reflexivity | now symmetry].
    + simpl in Hl. injection Hl as <- ->.
      rewrite forallb_app in HP. simpl in HP. rewrite He in HP. simpl in HP.
      rewrite andb_false_r in HP. discriminate.
  - exists l. auto.
Qed.

(** The log of [main]: a prelude without the lock and without anything the
    lock protects, then either nothing more, or the failed lock and the
    cleanup, or the lock taken and the rest of the run. *)
Lemma main_shape (env : fw3_env) (opts : list ascii) (args : list string) (w : world) :
  exists P R,
    trace_of (main env opts args w) = P ++ R
    /\ forallb prelude P = true
    /\ ((R = [] \/ R = [EvUnlock]
           \/ R = [EvLock false; EvFreeState; EvUbusDisconnect; EvUnlock])
          /\ world_of (main env opts args w) = w
          /\ result_of (main env opts args w) <> Return 0
        \/ (exists R', R = EvLock true :: R') /\ env_lock env = true)
    /\ (R <> [] -> R <> [EvUnlock] ->
        In (EvUciLoad true) P /\ forall l, In (EvLoad l) P).
Proof.
  remember (main env opts args w) as r eqn:Hr.
  unfold main in Hr.
  destruct (parse_options_run opts (mk_globals false FW3_FAMILY_ANY) w)
    as (og & E1 & H1 & HE1).
  unfold bind at 1 in Hr. rewrite H1 in Hr.
  destruct og as [g|].
  - unfold bind at 1 in Hr. unfold fw3_ubus_connect at 1 in Hr.
    destruct (env_ubus_connect env); cbn [negb] in Hr.
    + destruct (build_state_run env w) as (os & E2 & H2 & HE2 & Hloads).
      unfold bind at 1 in Hr. rewrite H2 in Hr.
      destruct os as [state|].
      * destruct (Hloads ltac:(discriminate)) as [Hu Hl].
        assert (HinP : In (EvUciLoad true) (E1 ++ EvUbusConnect true :: E2)
                       /\ forall l, In (EvLoad l) (E1 ++ EvUbusConnect true :: E2)).
        { split; [|intros l]; apply in_or_app; right; right; auto. }
        unfold bind at 1 in Hr. unfold fw3_lock at 1 in Hr.
        destruct (env_lock env) eqn:Hlock; cbn [negb] in Hr.
        -- match type of Hr with
           | context [bind ?m ?k w] => destruct (bind m k w) as [[o w'] E3]
           end.
           subst r.
           exists (E1 ++ EvUbusConnect true :: E2), (EvLock true :: E3).
           split; [cbn; now rewrite <- !app_assoc|].
           split; [rewrite forallb_app; cbn; now rewrite HE1, HE2|].
           split; [right; eauto | auto].
        -- subst r.
           exists (E1 ++ EvUbusConnect true :: E2),
             [EvLock false; EvFreeState; EvUbusDisconnect; EvUnlock].
           split; [cbn; now rewrite <- !app_assoc|].
           split; [rewrite forallb_app; cbn; now rewrite HE1, HE2|].
           split; [left; cbn; repeat split; auto; discriminate | auto].
      * subst r. exists (E1 ++ EvUbusConnect true :: E2), [].
        split; [cbn; now rewrite !app_nil_r|].
        split; [rewrite forallb_app; cbn; now rewrite HE1, HE2|].
        split; [left; cbn; repeat split; auto; discriminate|].
        congruence.
    + subst r.
      exists (E1 ++ [EvUbusConnect false; EvError "Failed to connect to ubus"]), [].
      split; [cbn; now rewrite !app_nil_r|].
      split; [rewrite forallb_app; cbn; now rewrite HE1|].
      split; [left; cbn; repeat split; auto; discriminate|].
      congruence.
  - subst r. exists E1, [EvUnlock].
    split; [reflexivity|].
    split; [exact HE1|].
    split; [left; cbn; repeat split; auto; discriminate|].
    congruence.
Qed.

(** C3, as amended. In every run the lock is asked for after the
    configuration has been loaded, and a granted lock precedes every call
    that touches what it protects: the state file, the sinks, the
    directives written to them and the in-memory flags.  If the lock is
    refused, no such call is made at all, the world is left as it was, and
    the run does not end with status 0. *)
Theorem lock_guards_state
    (env : fw3_env) (opts : list ascii) (args : list string) (w : world) :
  (forall pre e post,
      trace_of (main env opts args w) = pre ++ e :: post ->
      guarded e = true -> In (EvLock true) pre)
  /\ (forall pre ok post,
         trace_of (main env opts args w) = pre ++ EvLock ok :: post ->
         In (EvUciLoad true) pre /\ forall l, In (EvLoad l) pre)
  /\ (env_lock env = false ->
      forallb (fun e => negb (guarded e)) (trace_of (main env opts args w)) = true
      /\ world_of (main env opts args w) = w
      /\ result_of (main env opts args w) <> Return 0).
Proof.
  destruct (main_shape env opts args w) as (P & R & Htr & HP & Hcases & Hloads).
  pose proof (prelude_not_guarded P HP) as HPg.
  assert (HPl : forallb (fun e => negb (is_lock e)) P = true).
  { revert HP. apply forallb_impl. unfold prelude. intros e H.
    now apply andb_true_iff in H as [_ H]. }
  rewrite Htr. split; [|split].
  - intros pre e post Heq He.
    destruct Hcases as [(HR & _ & _) | ((R' & ->) & Hlock)].
    + exfalso. apply (no_guarded_split (P ++ R) pre post e); auto.
      rewrite forallb_app, HPg.
      destruct HR as [-> | [-> | ->]]; reflexivity.
    + destruct (split_after_prefix P (EvLock true :: R') pre post e guarded HPg He Heq)
        as (l & -> & Hl).
      destruct l as [|x l]; simpl in Hl.
      * injection Hl as <- _. discriminate.
      * injection Hl as <- _. apply in_or_app. right. now left.
  - intros pre ok post Heq.
    destruct (split_after_prefix P R pre post (EvLock ok) is_lock HPl eq_refl Heq)
      as (l & -> & Hl).
    destruct Hloads as [Hu Hlo].
    + intros ->. destruct l; discriminate.
    + intros ->. destruct l as [|x [|y l]]; discriminate.
    + split; [|intros lo]; apply in_or_app; left; auto.
  - intros Hlock.
    destruct Hcases as [(HR & Hw & Hres) | (_ & Hlock')]; [|congruence].
    split; [|split; assumption].
    rewrite forallb_app, HPg.
    destruct HR as [-> | [-> | ->]]; reflexivity.
Qed.

(** On a router where everything works, [start] loads the configuration
    before the lock is taken: the order the specification states does not
    hold of the run. *)
Lemma lock_first_counterexample :
  ~ lock_first (trace_of (main (router true closes_fine) [] ["start"] no_record)).
Proof.
  intros H. unfold lock_first in H.
  vm_compute in H.
  specialize (H [EvUbusConnect true; EvMalloc true; EvUciAlloc true]
                (EvUciLoad true) _ eq_refl eq_refl).
  simpl in H. intuition discriminate.
Qed.

(** ** Instances *)

Lemma start_table_select_order_witness :
  table_selects
    (family_block FW3_FAMILY_V6
       (trace_of (start (router true closes_fine) (mk_globals false FW3_FAMILY_ANY)
                    loaded_state false no_record)))
  = [select_directive FW3_TABLE_FILTER; select_directive FW3_TABLE_NAT;
     select_directive FW3_TABLE_MANGLE; select_directive FW3_TABLE_RAW].
Proof.
  refine (proj1 (start_table_select_order (router true closes_fine)
                   (mk_globals false FW3_FAMILY_ANY) loaded_state false no_record
                   FW3_FAMILY_V6 _ _ _)).
  - discriminate.
  - vm_compute. reflexivity.
  - vm_compute. reflexivity.
Defined.

Lemma stop_two_pass_order_witness :
  (1 < 2)%nat
  /\ forall c,
       In c (pass_calls FW3_FAMILY_V4 FW3_TABLE_FILTER) ->
       In c (removal_calls
               (trace_of (stop (router true closes_fine)
                            (mk_globals false FW3_FAMILY_ANY)
                            loaded_state false false both_running))).
Proof.
  apply (stop_two_pass_order (router true closes_fine)
           (mk_globals false FW3_FAMILY_ANY) loaded_state false both_running
           FW3_FAMILY_V4 FW3_TABLE_FILTER 1 2 false true TdZones TdRules).
  - vm_compute. reflexivity.
  - vm_compute. reflexivity.
  - left. split; reflexivity.
Defined.

(** The two passes are ordered within a family.  Across families the table
    loop starts over: when both families are stopped, pass 2 on the IPv4
    filter table comes before pass 1 on the IPv6 filter table. *)
Remark stop_passes_are_per_family :
  let calls := removal_calls
                 (trace_of (stop (router true closes_fine)
                              (mk_globals false FW3_FAMILY_ANY)
                              loaded_state false false both_running)) in
  nth_error calls 3 = Some (FW3_FAMILY_V4, FW3_TABLE_FILTER, true, TdZones)
  /\ nth_error calls 16 = Some (FW3_FAMILY_V6, FW3_TABLE_FILTER, false, TdRules).
Proof. vm_compute. split; reflexivity. Qed.

(** ** Print mode in general *)

Lemma start_family_print_quiet
    (env : fw3_env) (g : globals) (sf : statefile_t) (restart : bool)
    (acc : Z * fw3_state) (f : fw3_family) (w : world) :
  print_rules g = true ->
  forallb (fun e => negb (is_command_pipe e))
          (trace_of (start_family env g sf restart acc f w)) = true.
Proof.
  intros Hpr. destruct acc as [rv st]. unfold start_family.
  destruct (family_used g f); [|reflexivity]. cbn [negb].
  destruct (family_loaded st f); [|reflexivity]. cbn [negb].
  unfold bind at 1. unfold restore_pipe. rewrite Hpr. unfold fw3_stdout_pipe.
  destruct (env_stdout_pipe env); [|reflexivity]. cbn [negb].
  destruct (negb restart && family_running sf f); [reflexivity|].
  unfold bind, info, emit, family_set, fw3_command_close, ret.
  rewrite start_tables_run. unfold bind, emit, ret.
  unfold trace_of. cbn [snd app forallb is_command_pipe negb andb].
  rewrite forallb_app. cbn [forallb is_command_pipe negb andb].
  rewrite andb_true_r. apply forallb_flat_map. intros t.
  rewrite start_table_events_eq. destruct (supported env f t); reflexivity.
Qed.

(** The half of C2 that holds of every run: with [print_rules] set, [start]
    starts no external process, whichever families it processes. *)
Lemma print_opens_no_process
    (env : fw3_env) (g : globals) (st : fw3_state) (restart : bool) (w : world) :
  print_rules g = true ->
  existsb is_command_pipe (trace_of (start env g st restart w)) = false.
Proof.
  intros Hpr.
  assert (H : forallb (fun e => negb (is_command_pipe e))
                      (trace_of (start env g st restart w)) = true).
  { unfold start. unfold bind at 1. unfold fw3_read_statefile at 1.
    rewrite Hpr. cbn [negb andb].
    unfold bind at 1. unfold ret at 1.
    unfold bind at 1. cbn [for_fold family_range].
    unfold bind at 1.
    pose proof (start_family_print_quiet env g (w_statefile w) restart (1, st)
                  FW3_FAMILY_V4 w Hpr) as H4.
    destruct (start_family env g (w_statefile w) restart (1, st) FW3_FAMILY_V4 w)
      as [[acc1 w1] E4].
    unfold bind at 1.
    pose proof (start_family_print_quiet env g (w_statefile w) restart acc1
                  FW3_FAMILY_V6 w1 Hpr) as H6.
    destruct (start_family env g (w_statefile w) restart acc1 FW3_FAMILY_V6 w1)
      as [[[rv st'] w2] E6].
    unfold trace_of in *. cbn [snd] in H4, H6.
    unfold ret at 1. unfold bind, fw3_free_statefile, emit, when, fw3_write_statefile, ret.
    destruct (rv =? 0); cbn [snd app forallb is_command_pipe negb andb];
      rewrite ?app_nil_r, !forallb_app; cbn [forallb is_command_pipe negb andb];
      rewrite ?forallb_app, H4, H6; reflexivity. }
  destruct (existsb is_command_pipe (trace_of (start env g st restart w))) eqn:He;
    [|reflexivity].
  apply existsb_exists in He as (e & Hin & He).
  rewrite forallb_forall in H. specialize (H e Hin). rewrite He in H. discriminate.
Qed.

(** The other half fails whenever [print] processes a family: the record is
    then rewritten from the in-memory flags. *)
Lemma print_rewrites_record
    (env : fw3_env) (g : globals) (st : fw3_state) (w : world) (f : fw3_family) :
  f <> FW3_FAMILY_ANY ->
  start_processes env g (w_statefile w) false st f = true ->
  exists st',
    w_statefile (world_of (start env g st false w)) = written_record st'
    /\ In (EvWriteStatefile (has_flag (defaults st')))
          (trace_of (start env g st false w)).
Proof.
  intros Hf Hp.
  destruct (start_shape env g st false w)
    as (w' & A & B4 & B6 & Hrun & Hw & _).
  assert (Hany : start_processes env g (w_statefile w) false st FW3_FAMILY_V4
                 || start_processes env g (w_statefile w) false st FW3_FAMILY_V6 = true).
  { destruct f; [congruence | |]; rewrite Hp; auto using orb_true_r. }
  rewrite Hrun. rewrite Hany in *. eexists. split; [exact Hw|].
  unfold trace_of. cbn [snd]. right.
  apply in_or_app. right. apply in_or_app. right. right. now left.
Qed.

(** * Further properties of [main.c] *)

(** ** The lookups *)

Lemma has_name_owns (sel : fw3_zone -> list fw3_device) (name : string) (z : fw3_zone) :
  has_name name (sel z) = true <-> owns sel name z.
Proof.
  unfold has_name, owns. rewrite existsb_exists.
  split; intros (d & Hd & Hn); exists d; split; auto; now apply String.eqb_eq.
Qed.

Lemma find_first {A} (p : A -> bool) (pre post : list A) (x : A) :
  (forall y, In y pre -> p y = false) -> p x = true ->
  find p (pre ++ x :: post) = Some x.
Proof.
  intros Hpre Hx. induction pre as [|y pre IH]; simpl.
  - now rewrite Hx.
  - rewrite (Hpre y) by now left. apply IH. intros; apply Hpre. now right.
Qed.

Lemma find_nobody {A} (p : A -> bool) (l : list A) :
  (forall y, In y l -> p y = false) -> find p l = None.
Proof.
  intros H. induction l as [|y l IH]; simpl; [reflexivity|].
  rewrite (H y) by now left. apply IH. intros; apply H. now right.
Qed.

Lemma not_owns_false (sel : fw3_zone -> list fw3_device) (name : string) (z : fw3_zone) :
  ~ owns sel name z -> has_name name (sel z) = false.
Proof.
  intros H. destruct (has_name name (sel z)) eqn:E; [|reflexivity].
  exfalso. now apply H, has_name_owns.
Qed.

(** X1. [lookup_device] answers with the first zone, in configuration order,
    that lists the device: it prints that zone's name and a newline, returns
    0 and leaves the world alone, even when later zones list the device
    too. *)
Theorem lookup_device_first_match
    (state : fw3_state) (dev : string) (pre post : list fw3_zone) (z : fw3_zone)
    (w : world) :
  zones state = pre ++ z :: post ->
  (forall z', In z' pre -> ~ owns z_devices dev z') ->
  owns z_devices dev z ->
  lookup_device state dev w = (0, w, [EvPrintf (z_name z ++ nl)%string]).
Proof.
  intros Hz Hpre Hown. unfold lookup_device. rewrite Hz.
  rewrite (find_first _ pre post z).
  - reflexivity.
  - intros y Hy. now apply not_owns_false, Hpre.
  - now apply has_name_owns.
Qed.

Lemma lookup_device_first_match_witness :
  lookup_device two_zones "eth1" no_record
  = (0, no_record, [EvPrintf ("lan" ++ nl)%string]).
Proof.
  apply (lookup_device_first_match two_zones "eth1" [] [wan_zone] lan_zone no_record).
  - reflexivity.
  - intros z' [].
  - exists (mk_device "eth1"). split; [right; left|]; reflexivity.
Defined.

(** X2. When no zone lists the device, [lookup_device] prints nothing and
    returns 1. *)
Theorem lookup_device_missing (state : fw3_state) (dev : string) (w : world) :
  (forall z, In z (zones state) -> ~ owns z_devices dev z) ->
  lookup_device state dev w = (1, w, []).
Proof.
  intros H. unfold lookup_device. rewrite find_nobody; [reflexivity|].
  intros y Hy. now apply not_owns_false, H.
Qed.

Lemma lookup_device_missing_witness :
  lookup_device two_zones "eth9" no_record = (1, no_record, []).
Proof.
  apply (lookup_device_missing two_zones "eth9" no_record).
  intros z Hz (d & Hd & Hn). simpl in Hz.
  destruct Hz as [<- | [<- | []]]; simpl in Hd;
    repeat (destruct Hd as [<- | Hd]; [discriminate Hn|]); exact Hd.
Defined.

(** X3. [lookup_network] answers with the first zone that lists the
    network among its networks; the devices of a zone play no part. *)
Theorem lookup_network_first_match
    (state : fw3_state) (net : string) (pre post : list fw3_zone) (z : fw3_zone)
    (w : world) :
  zones state = pre ++ z :: post ->
  (forall z', In z' pre -> ~ owns z_networks net z') ->
  owns z_networks net z ->
  lookup_network state net w = (0, w, [EvPrintf (z_name z ++ nl)%string]).
Proof.
  intros Hz Hpre Hown. unfold lookup_network. rewrite Hz.
  rewrite (find_first _ pre post z).
  - reflexivity.
  - intros y Hy. now apply not_owns_false, Hpre.
  - now apply has_name_owns.
Qed.

Lemma lookup_network_first_match_witness :
  lookup_network two_zones "wan" no_record
  = (0, no_record, [EvPrintf ("wan" ++ nl)%string]).
Proof.
  apply (lookup_network_first_match two_zones "wan" [lan_zone] [] wan_zone no_record).
  - reflexivity.
  - intros z' [<- | []] (d & Hd & Hn). simpl in Hd.
    destruct Hd as [<- | []]. discriminate Hn.
  - exists (mk_device "wan"). split; [left|]; reflexivity.
Defined.

(** X4. When no zone lists the network, [lookup_network] prints nothing and
    returns 1; a device of that name does not count. *)
Theorem lookup_network_missing (state : fw3_state) (net : string) (w : world) :
  (forall z, In z (zones state) -> ~ owns z_networks net z) ->
  lookup_network state net w = (1, w, []).
Proof.
  intros H. unfold lookup_network. rewrite find_nobody; [reflexivity|].
  intros y Hy. now apply not_owns_false, H.
Qed.

Lemma lookup_network_missing_witness :
  lookup_network two_zones "eth1" no_record = (1, no_record, []).
Proof.
  apply (lookup_network_missing two_zones "eth1" no_record).
  intros z Hz (d & Hd & Hn). simpl in Hz.
  destruct Hz as [<- | [<- | []]]; simpl in Hd;
    repeat (destruct Hd as [<- | Hd]; [discriminate Hn|]); exact Hd.
Defined.

(** ** The in-memory flags *)

(** X5. Setting or clearing a family's flag is read back by
    [family_loaded] for that family and leaves the other family's flag as
    it was. *)
Theorem family_set_loaded
    (st : fw3_state) (f f' : fw3_family) (b : bool) (w : world) :
  f <> FW3_FAMILY_ANY -> f' <> FW3_FAMILY_ANY ->
  family_loaded (result_of (family_set st f b w)) f'
  = if family_eqb f f' then b else family_loaded st f'.
Proof.
  intros Hf Hf'. unfold family_set, result_of, bind, emit, ret. cbn [fst].
  destruct b.
  - rewrite family_loaded_set by assumption. now destruct (family_eqb f f').
  - rewrite family_loaded_del by assumption. now destruct (family_eqb f f').
Qed.

Lemma family_set_loaded_witness :
  family_loaded (result_of (family_set loaded_state FW3_FAMILY_V4 false no_record))
                FW3_FAMILY_V6 = true.
Proof.
  apply (family_set_loaded loaded_state FW3_FAMILY_V4 FW3_FAMILY_V6 false no_record);
    discriminate.
Defined.

(** ** [start]: state, result and record *)

Lemma setbit_idem (x n : Z) : 0 <= n -> hasbit x n = true -> setbit x n = x.
Proof.
  intros Hn Hb. rewrite hasbit_testbit in Hb by assumption.
  unfold setbit. rewrite Z.shiftl_1_l. apply Z.bits_inj'. intros m Hm.
  rewrite Z.lor_spec, Z.pow2_bits_eqb by assumption.
  destruct (Z.eqb_spec n m) as [->|]; [rewrite Hb|]; auto using orb_false_r.
Qed.

Lemma set_has_flag_same (st : fw3_state) : set_has_flag st (has_flag (defaults st)) = st.
Proof. destruct st as [[d h] i z]. reflexivity. Qed.

Lemma start_processes_loaded (env : fw3_env) (g : globals) (sf : statefile_t)
    (restart : bool) (st : fw3_state) (f : fw3_family) :
  start_processes env g sf restart st f = true -> family_loaded st f = true.
Proof.
  unfold start_processes. intros H.
  apply andb_true_iff in H as [H _]. apply andb_true_iff in H as [H _].
  now apply andb_true_iff in H as [_ H].
Qed.

Lemma mark_loaded_id (p : bool) (st : fw3_state) (f : fw3_family) :
  (p = true -> family_loaded st f = true) -> mark true p st f = st.
Proof.
  destruct p; [|reflexivity]. intros H. unfold mark.
  rewrite setbit_idem; [apply set_has_flag_same | apply family_flag_nonneg | now apply H].
Qed.

Lemma start_marks_nothing (env : fw3_env) (g : globals) (sf : statefile_t)
    (restart : bool) (st : fw3_state) :
  mark true (start_processes env g sf restart st FW3_FAMILY_V6)
       (mark true (start_processes env g sf restart st FW3_FAMILY_V4) st FW3_FAMILY_V4)
       FW3_FAMILY_V6 = st.
Proof.
  rewrite (mark_loaded_id _ st FW3_FAMILY_V4) by apply start_processes_loaded.
  apply mark_loaded_id, start_processes_loaded.
Qed.

(** X6. [start] hands back the in-memory state exactly as it got it: it
    only processes families whose flag is already set, so the flag updates
    it makes change nothing. *)
Theorem start_keeps_state
    (env : fw3_env) (g : globals) (st : fw3_state) (restart : bool) (w : world) :
  snd (result_of (start env g st restart w)) = st.
Proof.
  destruct (start_result env g st restart w) as [Hres _].
  rewrite Hres. cbn [snd]. apply start_marks_nothing.
Qed.

(** X7. [start] returns 0 exactly when it processed at least one family,
    and 1 otherwise.  When it returns 0 the record read back afterwards is
    the one written from the flags of the configuration, whatever it was
    before; when it returns 1 the record is left as it was. *)
Theorem start_success_record
    (env : fw3_env) (g : globals) (st : fw3_state) (restart : bool) (w : world) :
  let r := start env g st restart w in
  (fst (result_of r) = 0 \/ fst (result_of r) = 1)
  /\ (fst (result_of r) = 0 <->
      exists f, In f family_range
                /\ start_processes env g (w_statefile w) restart st f = true)
  /\ w_statefile (world_of r)
     = if fst (result_of r) =? 0 then written_record st else w_statefile w.
Proof.
  intros r. subst r.
  destruct (start_result env g st restart w) as [Hres Hw].
  rewrite Hres, Hw, start_marks_nothing. cbn [fst].
  destruct (start_processes env g (w_statefile w) restart st FW3_FAMILY_V4) eqn:H4;
    destruct (start_processes env g (w_statefile w) restart st FW3_FAMILY_V6) eqn:H6;
    cbn [orb]; (split; [auto|]); (split; [|reflexivity]).
  - split; [intros _; exists FW3_FAMILY_V4; simpl; auto | reflexivity].
  - split; [intros _; exists FW3_FAMILY_V4; simpl; auto | reflexivity].
  - split; [intros _; exists FW3_FAMILY_V6; simpl; auto | reflexivity].
  - split; [discriminate|].
    intros (f & [<- | [<- | []]] & Hf); congruence.
Qed.

(** ** [start]: the log in detail *)

Lemma start_ipsets_exact (env : fw3_env) (g : globals) (restart : bool) (w : world) :
  exists w',
    (if negb (print_rules g) && negb restart then
       ok <- fw3_command_pipe env false "ipset" ["-exist"; "-"] ;;
       if ok then emit EvCreateIpsets ;; fw3_command_close env ;; ret tt
       else ret tt
     else ret tt) w
    = (tt, w', ipset_log env (negb (print_rules g) && negb restart) EvCreateIpsets)
    /\ w_statefile w' = w_statefile w.
Proof.
  unfold ipset_log.
  destruct (negb (print_rules g) && negb restart).
  - unfold bind, fw3_command_pipe.
    destruct (env_command env "ipset"); simpl; eexists; split; reflexivity.
  - exists w. split; reflexivity.
Qed.

(** The log of [start], round by round. *)
Lemma start_rounds
    (env : fw3_env) (g : globals) (st : fw3_state) (restart : bool) (w : world) :
  exists w1,
    w_statefile w1 = w_statefile w
    /\ let r4 := start_family env g (w_statefile w) restart (1, st) FW3_FAMILY_V4 w1 in
       let r6 := start_family env g (w_statefile w) restart (result_of r4)
                   FW3_FAMILY_V6 (world_of r4) in
       trace_of (start env g st restart w)
       = EvReadStatefile
         :: ipset_log env (negb (print_rules g) && negb restart) EvCreateIpsets
         ++ (trace_of r4 ++ trace_of r6)
         ++ EvFreeStatefile
         :: (if fst (result_of r6) =? 0
             then [EvWriteStatefile (has_flag (defaults (snd (result_of r6))))]
             else []).
Proof.
  destruct (start_ipsets_exact env g restart w) as (w1 & HA & Hw1).
  exists w1. split; [exact Hw1|]. intros r4 r6.
  unfold start. unfold bind at 1. unfold fw3_read_statefile at 1.
  unfold bind at 1. rewrite HA.
  unfold bind at 1. cbn [for_fold family_range]. unfold bind at 1.
  fold r4. destruct r4 as [[acc1 w2] E4] eqn:Hr4.
  unfold bind at 1. unfold result_of, world_of in r6. cbn [fst snd] in r6.
  fold r6. destruct r6 as [[[rv st'] w3] E6] eqn:Hr6.
  unfold ret at 1. unfold bind, fw3_free_statefile, emit, when, fw3_write_statefile, ret.
  unfold trace_of, result_of. cbn [fst snd].
  destruct (rv =? 0); cbn [snd]; rewrite ?app_nil_r; reflexivity.
Qed.

Lemma existsb_none {A} (P : A -> bool) (l : list A) :
  forallb (fun e => negb (P e)) l = true -> existsb P l = false.
Proof.
  intros H. destruct (existsb P l) eqn:E; [|reflexivity].
  apply existsb_exists in E as (x & Hin & Hx).
  exfalso. exact (In_forallb_false P x l H Hx Hin).
Qed.

Lemma start_guard_blocks (env : fw3_env) (g : globals) (sf : statefile_t)
    (st : fw3_state) (f : fw3_family) :
  (family_loaded st f = true -> family_running sf f = true) ->
  start_processes env g sf false st f = false.
Proof.
  intros H. unfold start_processes.
  destruct (family_loaded st f); [rewrite H by reflexivity|];
    cbn [negb andb]; now rewrite ?andb_false_r.
Qed.

Lemma skip_event_no_write (e : event) :
  skip_event e = true -> negb (is_sink_write e || is_write_statefile e) = true.
Proof. destruct e; simpl; congruence. Qed.

Lemma ipset_event_no_write (e : event) :
  ipset_event e = true -> negb (is_sink_write e || is_write_statefile e) = true.
Proof. destruct e; simpl; congruence. Qed.

(** A non-restart [start] that the record stops at every loaded family. *)
Lemma start_guarded_run
    (env : fw3_env) (g : globals) (st : fw3_state) (w : world) :
  (forall f, f <> FW3_FAMILY_ANY ->
             family_loaded st f = true -> family_running (w_statefile w) f = true) ->
  fst (result_of (start env g st false w)) = 1
  /\ w_statefile (world_of (start env g st false w)) = w_statefile w
  /\ existsb (fun e => is_sink_write e || is_write_statefile e)
             (trace_of (start env g st false w)) = false.
Proof.
  intros H.
  destruct (start_shape env g st false w)
    as (w' & A & B4 & B6 & Hrun & Hw & HA & _ & HB4 & HB6).
  rewrite (start_guard_blocks env g (w_statefile w) st FW3_FAMILY_V4) in *
    by (apply H; discriminate).
  rewrite (start_guard_blocks env g (w_statefile w) st FW3_FAMILY_V6) in *
    by (apply H; discriminate).
  cbn [orb family_log] in *. rewrite Hrun.
  split; [reflexivity|]. split; [exact Hw|].
  apply existsb_none. unfold trace_of. cbn [snd forallb].
  rewrite !forallb_app.
  rewrite (forallb_impl _ _ A ipset_event_no_write HA).
  rewrite (forallb_impl _ _ B4 skip_event_no_write HB4).
  rewrite (forallb_impl _ _ B6 skip_event_no_write HB6).
  reflexivity.
Qed.

Lemma foreign_no_marker (f : fw3_family) (e : event) :
  foreign f e = true -> negb (is_info (constructing f) e) = true.
Proof. unfold foreign. intros H. now apply andb_true_iff in H as [_ H]. Qed.

Lemma family_block_of_start
    (env : fw3_env) (g : globals) (st : fw3_state) (restart : bool) (w : world)
    (f : fw3_family) :
  f <> FW3_FAMILY_ANY ->
  start_processes env g (w_statefile w) restart st f = true ->
  family_block f (trace_of (start env g st restart w))
  = flat_map (start_table_events env f) table_range.
Proof.
  intros Hf Hp.
  destruct (start_trace_split env g st restart w f Hf Hp) as (P & Q & Htr & HP & _).
  rewrite Htr. apply family_block_start_block.
  revert HP. apply forallb_impl, foreign_no_marker.
Qed.

Lemma start_table_text (env : fw3_env) (f : fw3_family) (t : fw3_table) :
  filter is_sink_write (start_table_events env f t)
  = if supported env f t then table_text f t else [].
Proof.
  rewrite start_table_events_eq. destruct (supported env f t); reflexivity.
Qed.

(** X10. What reaches the sink of a processed family, between its
    announcement and the close: for each supported table, in table order,
    the select directive, then the eight emitters in their fixed order
    (default chains, zone chains, default head rules, rules, redirects,
    forwards, zone rules, default tail rules), then the commit; nothing
    else, and nothing for an unsupported table. *)
Theorem start_family_text
    (env : fw3_env) (g : globals) (st : fw3_state) (restart : bool) (w : world)
    (f : fw3_family) :
  f <> FW3_FAMILY_ANY ->
  start_processes env g (w_statefile w) restart st f = true ->
  filter is_sink_write (family_block f (trace_of (start env g st restart w)))
  = flat_map (table_text f) (filter (supported env f) table_range).
Proof.
  intros Hf Hp. rewrite family_block_of_start by assumption.
  rewrite filter_flat_map.
  generalize table_range. intros l. induction l as [|t l IH]; [reflexivity|].
  cbn [flat_map filter]. rewrite IH, start_table_text.
  destruct (supported env f t); reflexivity.
Qed.

Lemma start_family_text_witness :
  filter is_sink_write
    (family_block FW3_FAMILY_V4
       (trace_of (start (router true closes_fine) (mk_globals true FW3_FAMILY_V4)
                    loaded_state false no_record)))
  = flat_map (table_text FW3_FAMILY_V4) table_range.
Proof.
  apply (start_family_text (router true closes_fine) (mk_globals true FW3_FAMILY_V4)
           loaded_state false no_record FW3_FAMILY_V4).
  - discriminate.
  - vm_compute. reflexivity.
Defined.

Lemma start_log
    (env : fw3_env) (g : globals) (st : fw3_state) (restart : bool) (w : world) :
  let sf := w_statefile w in
  let p4 := start_processes env g sf restart st FW3_FAMILY_V4 in
  let p6 := start_processes env g sf restart st FW3_FAMILY_V6 in
  exists B4 B6,
    trace_of (start env g st restart w)
    = EvReadStatefile
      :: ipset_log env (negb (print_rules g) && negb restart) EvCreateIpsets
      ++ (B4 ++ B6)
      ++ EvFreeStatefile
      :: (if p4 || p6 then [EvWriteStatefile (has_flag (defaults st))] else [])
    /\ family_log p4 (start_block env g FW3_FAMILY_V4) B4
    /\ family_log p6 (start_block env g FW3_FAMILY_V6) B6.
Proof.
  intros sf p4 p6.
  destruct (start_ipsets_exact env g restart w) as (w1 & HA & Hw1).
  destruct (start_loop_shape env g sf restart st w1) as (w2 & B4 & B6 & HL & Hw2 & HB4 & HB6).
  fold p4 in HL, HB4. fold p6 in HL, HB6.
  unfold sf, p4, p6 in HL. rewrite start_marks_nothing in HL. fold sf p4 p6 in HL.
  exists B4, B6. split; [|split; assumption].
  unfold start. unfold bind at 1. unfold fw3_read_statefile at 1.
  unfold bind at 1. fold sf. rewrite HA.
  unfold bind at 1. rewrite HL.
  destruct (p4 || p6); reflexivity.
Qed.

(** X11. When both families are processed, the whole log of [start] is
    fixed: the read of the record, the named-set step, the complete IPv4
    block up to the close of its sink and the flag update, then the complete
    IPv6 block, the release of the record and its rewrite.  The IPv4 sink is
    closed before the IPv6 sink is opened. *)
Theorem start_both_families
    (env : fw3_env) (g : globals) (st : fw3_state) (restart : bool) (w : world) :
  start_processes env g (w_statefile w) restart st FW3_FAMILY_V4 = true ->
  start_processes env g (w_statefile w) restart st FW3_FAMILY_V6 = true ->
  trace_of (start env g st restart w)
  = EvReadStatefile
    :: ipset_log env (negb (print_rules g) && negb restart) EvCreateIpsets
    ++ (start_block env g FW3_FAMILY_V4 ++ start_block env g FW3_FAMILY_V6)
    ++ [EvFreeStatefile; EvWriteStatefile (has_flag (defaults st))].
Proof.
  intros H4 H6.
  destruct (start_log env g st restart w) as (B4 & B6 & Htr & HB4 & HB6).
  rewrite H4 in *. rewrite H6 in *. cbn [family_log orb] in *.
  now subst B4 B6.
Qed.

Lemma start_both_families_witness :
  trace_of (start (router true closes_fine) (mk_globals false FW3_FAMILY_ANY)
              loaded_state true both_running)
  = EvReadStatefile
    :: (start_block (router true closes_fine) (mk_globals false FW3_FAMILY_ANY)
          FW3_FAMILY_V4
        ++ start_block (router true closes_fine) (mk_globals false FW3_FAMILY_ANY)
             FW3_FAMILY_V6)
    ++ [EvFreeStatefile; EvWriteStatefile both_loaded].
Proof.
  apply (start_both_families (router true closes_fine)
           (mk_globals false FW3_FAMILY_ANY) loaded_state true both_running).
  - vm_compute. reflexivity.
  - vm_compute. reflexivity.
Defined.

Lemma restore_pipe_fail_exact (env : fw3_env) (g : globals) (f : fw3_family)
    (silent : bool) (w : world) :
  pipe_ok env g f = false ->
  restore_pipe env g f silent w
  = (false, w,
     if print_rules g then [EvStdoutPipe false]
     else [EvCommandPipe silent (restore_cmd f) ["--lenient"; "--noflush"] false;
           unable_to_execute f]).
Proof.
  unfold pipe_ok, restore_pipe.
  destruct (print_rules g); intros H.
  - unfold fw3_stdout_pipe. rewrite H. destruct w. reflexivity.
  - unfold bind, fw3_command_pipe. rewrite H. destruct w. reflexivity.
Qed.

(** Every call one round of the family loop of [start] can log belongs to
    a class that holds of the calls listed here. *)
Lemma start_family_forall (Q : event -> bool)
    (env : fw3_env) (g : globals) (sf : statefile_t) (restart : bool)
    (acc : Z * fw3_state) (f : fw3_family) (w : world) :
  (forall silent ok,
      Q (EvCommandPipe silent (restore_cmd f) ["--lenient"; "--noflush"] ok) = true) ->
  (forall ok, Q (EvStdoutPipe ok) = true) ->
  (forall m, Q (EvWarn m) = true) ->
  (forall m, Q (EvInfo m) = true) ->
  (forall s, Q (EvPr s) = true) ->
  (forall k t, Q (EvPrint k t f) = true) ->
  (forall ok, Q (EvCommandClose ok) = true) ->
  Q (EvFamilySet f true) = true ->
  forallb Q (trace_of (start_family env g sf restart acc f w)) = true.
Proof.
  intros Hpipe Hout Hwarn Hinfo Hpr Hprint Hclose Hset.
  destruct acc as [rv st]. unfold start_family.
  destruct (family_used g f); [|reflexivity]. cbn [negb].
  destruct (family_loaded st f); [|reflexivity]. cbn [negb].
  assert (Htables : forallb Q (flat_map (start_table_events env f) table_range) = true).
  { apply forallb_flat_map. intros t. rewrite start_table_events_eq.
    destruct (supported env f t); [|reflexivity].
    cbn [forallb]. now rewrite Hinfo, !Hpr, !Hprint. }
  assert (Hopen : Q (open_event g f false) = true)
    by (unfold open_event; destruct (print_rules g); auto).
  unfold bind at 1.
  destruct (pipe_ok env g f) eqn:Hp.
  - rewrite (restore_pipe_ok env g f false w Hp). cbn [negb].
    destruct (negb restart && family_running sf f).
    + unfold trace_of, bind, warn, emit, ret. cbn [snd app forallb].
      now rewrite Hopen, Hwarn.
    + unfold bind, info, emit, family_set, fw3_command_close.
      rewrite start_tables_run. unfold bind, emit, ret.
      unfold trace_of. cbn [snd app forallb].
      now rewrite forallb_app, Htables, Hopen, Hinfo; cbn [forallb];
        rewrite Hclose, Hset.
  - rewrite (restore_pipe_fail_exact env g f false w Hp). cbn [negb].
    unfold trace_of, ret, unable_to_execute. cbn [snd]. rewrite app_nil_r.
    destruct (print_rules g); cbn [forallb]; now rewrite ?Hout, ?Hpipe, ?Hwarn.
Qed.

Lemma start_family_no_ipset
    (env : fw3_env) (g : globals) (sf : statefile_t) (restart : bool)
    (acc : Z * fw3_state) (f : fw3_family) (w : world) :
  f <> FW3_FAMILY_ANY ->
  forallb (fun e => negb (is_ipset_call e))
          (trace_of (start_family env g sf restart acc f w)) = true.
Proof.
  intros Hf. apply start_family_forall; try reflexivity.
  intros silent ok. destruct f; [congruence | reflexivity | reflexivity].
Qed.

Lemma create_is_ipset_call (e : event) :
  negb (is_ipset_call e) = true -> negb (is_create e) = true.
Proof. destruct e; simpl; congruence. Qed.

(** X12. The named sets are created at most once per [start] and before
    any family is looked at: the step sits directly behind the read of the
    record, and it is taken only when the run is neither a print nor a
    restart; the sets are created only if the set tool could be started.
    Nothing after that step concerns the named sets. *)
Theorem start_ipset_creation
    (env : fw3_env) (g : globals) (st : fw3_state) (restart : bool) (w : world) :
  exists rest,
    trace_of (start env g st restart w)
    = EvReadStatefile
      :: ipset_log env (negb (print_rules g) && negb restart) EvCreateIpsets
      ++ rest
    /\ existsb is_ipset_call rest = false
    /\ existsb is_create (trace_of (start env g st restart w))
       = negb (print_rules g) && negb restart && env_command env "ipset".
Proof.
  destruct (start_rounds env g st restart w) as (w1 & _ & Htr).
  cbv zeta in Htr.
  pose proof (start_family_no_ipset env g (w_statefile w) restart (1, st)
                FW3_FAMILY_V4 w1 ltac:(discriminate)) as H4.
  pose proof (start_family_no_ipset env g (w_statefile w) restart
                (result_of (start_family env g (w_statefile w) restart (1, st)
                              FW3_FAMILY_V4 w1))
                FW3_FAMILY_V6
                (world_of (start_family env g (w_statefile w) restart (1, st)
                             FW3_FAMILY_V4 w1)) ltac:(discriminate)) as H6.
  match type of Htr with
  | _ = _ :: _ ++ ?r => set (rest := r) in *
  end.
  assert (Hrest : forallb (fun e => negb (is_ipset_call e)) rest = true).
  { subst rest. rewrite !forallb_app, H4, H6.
    match goal with |- context [if ?b then _ else _] => destruct b end; reflexivity. }
  exists rest. split; [exact Htr|]. split; [now apply existsb_none|].
  rewrite Htr. cbn [existsb is_create orb]. rewrite existsb_app.
  rewrite (existsb_none is_create rest
             (forallb_impl _ _ rest create_is_ipset_call Hrest)).
  rewrite orb_false_r. unfold ipset_log.
  destruct (negb (print_rules g) && negb restart); [|reflexivity].
  destruct (env_command env "ipset"); reflexivity.
Qed.

Lemma start_family_pipe_fails
    (env : fw3_env) (g : globals) (sf : statefile_t) (restart : bool)
    (rv : Z) (st : fw3_state) (f : fw3_family) (w : world) :
  print_rules g = false -> family_used g f = true -> family_loaded st f = true ->
  env_command env (restore_cmd f) = false ->
  start_family env g sf restart (rv, st) f w
  = ((rv, st), w,
     [EvCommandPipe false (restore_cmd f) ["--lenient"; "--noflush"] false;
      unable_to_execute f]).
Proof.
  intros Hpr Hu Hl Hc. unfold start_family. rewrite Hu, Hl. cbn [negb].
  unfold bind at 1. unfold restore_pipe. rewrite Hpr.
  unfold bind at 1. unfold fw3_command_pipe. rewrite Hc. cbn [negb].
  destruct w. reflexivity.
Qed.

(** X13. A rule loader that cannot be started costs only its own family:
    the family is skipped with the warning that the loader could not be
    executed, no emitter is called for it, and [start] still returns 0 when
    the other family is processed. *)
Theorem start_missing_loader
    (env : fw3_env) (g : globals) (st : fw3_state) (restart : bool) (w : world)
    (f other : fw3_family) :
  f <> FW3_FAMILY_ANY -> other <> FW3_FAMILY_ANY -> other <> f ->
  print_rules g = false -> family_used g f = true -> family_loaded st f = true ->
  env_command env (restore_cmd f) = false ->
  In (unable_to_execute f) (trace_of (start env g st restart w))
  /\ existsb (is_emission f) (trace_of (start env g st restart w)) = false
  /\ (start_processes env g (w_statefile w) restart st other = true ->
      fst (result_of (start env g st restart w)) = 0).
Proof.
  intros Hf Ho Hne Hpr Hu Hl Hc.
  assert (Hp : start_processes env g (w_statefile w) restart st f = false).
  { unfold start_processes, pipe_ok. rewrite Hpr, Hc, Hu, Hl. reflexivity. }
  split; [|split].
  - destruct (start_rounds env g st restart w) as (w1 & _ & Htr).
    cbv zeta in Htr. rewrite Htr. right. apply in_or_app. right.
    apply in_or_app. left.
    destruct f; [congruence | |].
    + rewrite (start_family_pipe_fails env g (w_statefile w) restart 1 st
                 FW3_FAMILY_V4 w1 Hpr Hu Hl Hc).
      apply in_or_app. left. right. now left.
    + apply in_or_app. right.
      destruct (start_family_shape env g (w_statefile w) restart 1 st FW3_FAMILY_V4 w1)
        as (w2 & evs & Hr & _ & _).
      rewrite Hr. unfold result_of, world_of. cbn [fst snd].
      rewrite (start_family_pipe_fails env g (w_statefile w) restart _ _
                 FW3_FAMILY_V6 w2 Hpr Hu).
      * right. now left.
      * rewrite family_loaded_mark by discriminate.
        rewrite Hl. apply orb_true_r.
      * exact Hc.
  - destruct (start_shape env g st restart w)
      as (w' & A & B4 & B6 & Hrun & _ & HA & _ & HB4 & HB6).
    rewrite Hrun. unfold trace_of. cbn [snd].
    apply existsb_none. cbn [forallb]. rewrite !forallb_app.
    rewrite (forallb_impl _ _ A
               (fun e He => foreign_no_emission f e (ipset_event_foreign f e He)) HA).
    assert (HW : forall b x,
               forallb (fun e => negb (is_emission f e))
                       (EvFreeStatefile :: (if b : bool then [EvWriteStatefile x] else []))
               = true) by (intros [] x; reflexivity).
    rewrite HW.
    destruct f, other; try congruence.
    + rewrite Hp in HB4. cbn [family_log] in HB4.
      rewrite (forallb_impl _ _ B4
                 (fun e He => foreign_no_emission _ e (skip_event_foreign _ e He)) HB4).
      rewrite (forallb_impl _ _ B6 (foreign_no_emission FW3_FAMILY_V4)
                 (family_log_foreign env g FW3_FAMILY_V6 FW3_FAMILY_V4 _ B6 eq_refl HB6)).
      reflexivity.
    + rewrite Hp in HB6. cbn [family_log] in HB6.
      rewrite (forallb_impl _ _ B6
                 (fun e He => foreign_no_emission _ e (skip_event_foreign _ e He)) HB6).
      rewrite (forallb_impl _ _ B4 (foreign_no_emission FW3_FAMILY_V6)
                 (family_log_foreign env g FW3_FAMILY_V4 FW3_FAMILY_V6 _ B4 eq_refl HB4)).
      reflexivity.
  - intros Hpo. destruct (start_result env g st restart w) as [Hres _].
    rewrite Hres. cbn [fst].
    destruct other; [congruence | |]; rewrite Hpo, ?orb_true_r; reflexivity.
Qed.

Lemma start_missing_loader_witness :
  In (unable_to_execute FW3_FAMILY_V4)
     (trace_of (start router_without_iptables (mk_globals false FW3_FAMILY_ANY)
                  loaded_state false no_record))
  /\ fst (result_of (start router_without_iptables (mk_globals false FW3_FAMILY_ANY)
                       loaded_state false no_record)) = 0.
Proof.
  destruct (start_missing_loader router_without_iptables
              (mk_globals false FW3_FAMILY_ANY) loaded_state false no_record
              FW3_FAMILY_V4 FW3_FAMILY_V6) as (Hwarn & _ & Hrv);
    try discriminate; try reflexivity.
  split; [exact Hwarn | apply Hrv; vm_compute; reflexivity].
Defined.

(** ** [stop]: directives, result and record *)

Lemma stop_table_removal (env : fw3_env) (f : fw3_family) (c : bool) (t : fw3_table) :
  filter is_removal (stop_table_events env f c t)
  = if supported env f t then removal_text c f t else [].
Proof.
  unfold stop_table_events, stop_table, supported.
  destruct (fw3_has_table env (family_eqb f FW3_FAMILY_V6) (tables t)); [|reflexivity].
  destruct c; reflexivity.
Qed.

Lemma stop_tables_removal (env : fw3_env) (f : fw3_family) (c : bool)
    (l : list fw3_table) :
  filter is_removal (flat_map (stop_table_events env f c) l)
  = flat_map (removal_text c f) (filter (supported env f) l).
Proof.
  induction l as [|t l IH]; [reflexivity|].
  cbn [flat_map filter]. rewrite filter_app, IH, stop_table_removal.
  destruct (supported env f t); reflexivity.
Qed.

Lemma skip_event_no_removal (e : event) :
  skip_event e = true -> negb (is_removal e) = true.
Proof. destruct e; simpl; congruence. Qed.

Lemma ipset_event_no_removal (e : event) :
  ipset_event e = true -> negb (is_removal e) = true.
Proof. destruct e; simpl; congruence. Qed.

Lemma stop_block_removal (env : fw3_env) (g : globals) (f : fw3_family)
    (c restart : bool) :
  filter is_removal (stop_block env g f c restart)
  = flat_map (removal_text c f) (filter (supported env f) table_range).
Proof.
  unfold stop_block. cbn [filter].
  rewrite (proj1 (negb_true_iff _)
             (skip_event_no_removal _ (open_event_plain g f true))).
  cbn [is_removal]. rewrite filter_app, stop_tables_removal.
  destruct restart; simpl; apply app_nil_r.
Qed.

Lemma family_log_removal (env : fw3_env) (g : globals) (f : fw3_family)
    (c restart p : bool) (B : list event) :
  family_log p (stop_block env g f c restart) B ->
  filter is_removal B
  = if p then flat_map (removal_text c f) (filter (supported env f) table_range)
    else [].
Proof.
  destruct p; simpl.
  - intros ->. apply stop_block_removal.
  - intros H. apply filter_none. revert H. apply forallb_impl, skip_event_no_removal.
Qed.

Lemma stop_processes_no_record (env : fw3_env) (g : globals) (f : fw3_family) :
  stop_processes env g None false f = false.
Proof. reflexivity. Qed.

Lemma stop_early (env : fw3_env) (g : globals) (st : fw3_state)
    (complete restart : bool) (w : world) :
  negb complete && is_none (w_statefile w) = true ->
  complete = false /\ w_statefile w = None
  /\ exists evs,
       stop env g st complete restart w = ((1, st), w, EvReadStatefile :: evs)
       /\ forallb is_warn evs = true.
Proof.
  intros H. apply andb_true_iff in H as [Hc Hn].
  apply negb_true_iff in Hc. subst complete.
  destruct (w_statefile w) eqn:Hsf; [discriminate|].
  split; [reflexivity|]. split; [reflexivity|].
  unfold stop, bind, fw3_read_statefile. rewrite Hsf.
  destruct restart; eexists; split; reflexivity.
Qed.

(** X14. The directives of [stop], complete or not, in the order they are
    written: for each processed family, IPv4 first, and for each table the
    kernel supports for it, in table order, the select directive, then
    either the one full wipe (complete) or the two passes of the two
    teardown collaborators (not complete), then the commit.  A family that
    is not processed contributes nothing. *)
Theorem stop_directives
    (env : fw3_env) (g : globals) (st : fw3_state) (complete restart : bool)
    (w : world) :
  filter is_removal (trace_of (stop env g st complete restart w))
  = flat_map (fun f =>
                if stop_processes env g (w_statefile w) complete f
                then flat_map (removal_text complete f)
                              (filter (supported env f) table_range)
                else [])
             family_range.
Proof.
  destruct (negb complete && is_none (w_statefile w)) eqn:Hgo.
  - destruct (stop_early env g st complete restart w Hgo)
      as (-> & Hsf & evs & Hrun & Hevs).
    rewrite Hrun, Hsf. unfold trace_of. cbn [snd filter is_removal].
    rewrite filter_none; [reflexivity|].
    revert Hevs. apply forallb_impl. intros e. destruct e; simpl; congruence.
  - destruct (stop_shape env g st complete restart w Hgo)
      as (w' & B4 & B6 & A & Hrun & _ & HA & HB4 & HB6).
    rewrite Hrun. unfold trace_of. cbn [snd filter is_removal].
    rewrite !filter_app.
    rewrite (family_log_removal _ _ _ _ _ _ _ HB4), (family_log_removal _ _ _ _ _ _ _ HB6).
    rewrite (filter_none _ A (forallb_impl _ _ A ipset_event_no_removal HA)).
    cbn [filter is_removal family_range flat_map].
    match goal with |- context [if ?b then [EvWriteStatefile _] else []] =>
      destruct b end; cbn [filter is_removal]; now rewrite !app_nil_r.
Qed.

(** X15. The removal directives a complete [stop] hands to the rule
    loaders: for each selected family whose sink can be opened, IPv4 first,
    and each table the kernel supports for it, the select directive, one
    full wipe and the commit.  This sequence does not depend on the
    persisted record, on the in-memory flags or on being part of a restart.
    The destruction of the named sets in the same run is no part of it. *)
Theorem flush_ignores_record
    (env : fw3_env) (g : globals) (st st' : fw3_state) (restart restart' : bool)
    (w w' : world) :
  filter is_removal (trace_of (stop env g st true restart w))
  = flat_map (fun f =>
                if family_used g f && pipe_ok env g f
                then flat_map (removal_text true f)
                              (filter (supported env f) table_range)
                else [])
             family_range
  /\ filter is_removal (trace_of (stop env g st true restart w))
     = filter is_removal (trace_of (stop env g st' true restart' w')).
Proof.
  assert (H : forall s r x,
             filter is_removal (trace_of (stop env g s true r x))
             = flat_map (fun f =>
                           if family_used g f && pipe_ok env g f
                           then flat_map (removal_text true f)
                                         (filter (supported env f) table_range)
                           else [])
                        family_range).
  { intros s r x.
    destruct (stop_shape env g s true r x eq_refl)
      as (x' & B4 & B6 & A & Hrun & _ & HA & HB4 & HB6).
    rewrite Hrun. unfold trace_of. cbn [snd filter is_removal].
    rewrite !filter_app.
    rewrite (family_log_removal _ _ _ _ _ _ _ HB4), (family_log_removal _ _ _ _ _ _ _ HB6).
    rewrite (filter_none _ A (forallb_impl _ _ A ipset_event_no_removal HA)).
    cbn [filter is_removal family_range flat_map].
    match goal with |- context [if ?b then [EvWriteStatefile _] else []] =>
      destruct b end; cbn [filter is_removal]; now rewrite !app_nil_r. }
  split; [apply H | now rewrite !H].
Qed.

Lemma family_loaded_unmark (st : fw3_state) (f f' : fw3_family) (b : bool) :
  f <> FW3_FAMILY_ANY -> f' <> FW3_FAMILY_ANY ->
  family_loaded (mark false b st f) f'
  = negb (b && family_eqb f f') && family_loaded st f'.
Proof.
  intros Hf Hf'. destruct b; [|reflexivity].
  unfold mark. now rewrite family_loaded_del.
Qed.

Lemma stop_result
    (env : fw3_env) (g : globals) (st : fw3_state) (complete restart : bool)
    (w : world) :
  let sf := w_statefile w in
  let p4 := stop_processes env g sf complete FW3_FAMILY_V4 in
  let p6 := stop_processes env g sf complete FW3_FAMILY_V6 in
  let st' := mark false (p6 && negb restart)
                  (mark false (p4 && negb restart) st FW3_FAMILY_V4) FW3_FAMILY_V6 in
  result_of (stop env g st complete restart w) = (if p4 || p6 then 0 else 1, st')
  /\ w_statefile (world_of (stop env g st complete restart w))
     = if p4 || p6 then written_record st' else sf.
Proof.
  intros sf p4 p6 st'.
  destruct (negb complete && is_none (w_statefile w)) eqn:Hgo.
  - destruct (stop_early env g st complete restart w Hgo)
      as (-> & Hsf & evs & Hrun & _).
    subst st' p4 p6 sf. rewrite Hrun, Hsf, !stop_processes_no_record.
    split; [reflexivity | exact Hsf].
  - destruct (stop_shape env g st complete restart w Hgo)
      as (w' & B4 & B6 & A & Hrun & Hw & _).
    rewrite Hrun. split; [reflexivity | exact Hw].
Qed.

(** X16. [stop] returns 0 exactly when it processed at least one family.
    It then rewrites the record from the in-memory flags it leaves; when it
    returns 1 the record stays as it was.  As part of a restart it hands the
    in-memory state back unchanged. *)
Theorem stop_success_record
    (env : fw3_env) (g : globals) (st : fw3_state) (complete restart : bool)
    (w : world) :
  let r := stop env g st complete restart w in
  (fst (result_of r) = 0 \/ fst (result_of r) = 1)
  /\ (fst (result_of r) = 0 <->
      exists f, In f family_range
                /\ stop_processes env g (w_statefile w) complete f = true)
  /\ w_statefile (world_of r)
     = (if fst (result_of r) =? 0 then written_record (snd (result_of r))
        else w_statefile w)
  /\ (restart = true -> snd (result_of r) = st).
Proof.
  intros r. subst r.
  destruct (stop_result env g st complete restart w) as [Hres Hw].
  rewrite Hres, Hw. cbn [fst snd].
  destruct (stop_processes env g (w_statefile w) complete FW3_FAMILY_V4) eqn:H4;
    destruct (stop_processes env g (w_statefile w) complete FW3_FAMILY_V6) eqn:H6;
    cbn [orb]; (split; [auto|]); (split; [|split; [reflexivity|]]);
    try (intros ->; reflexivity).
  - split; [intros _; exists FW3_FAMILY_V4; simpl; auto | reflexivity].
  - split; [intros _; exists FW3_FAMILY_V4; simpl; auto | reflexivity].
  - split; [intros _; exists FW3_FAMILY_V6; simpl; auto | reflexivity].
  - split; [discriminate|].
    intros (f & [<- | [<- | []]] & Hf); congruence.
Qed.

(** X17. A [stop] that is not part of a restart clears the flag of every
    family it processes, in memory and in the record it writes, and leaves
    the flag of a family it does not process as it was in memory. *)
Theorem stop_clears_processed
    (env : fw3_env) (g : globals) (st : fw3_state) (complete : bool) (w : world)
    (f : fw3_family) :
  f <> FW3_FAMILY_ANY ->
  let r := stop env g st complete false w in
  (stop_processes env g (w_statefile w) complete f = true ->
   family_loaded (snd (result_of r)) f = false
   /\ family_running (w_statefile (world_of r)) f = false)
  /\ (stop_processes env g (w_statefile w) complete f = false ->
      family_loaded (snd (result_of r)) f = family_loaded st f).
Proof.
  intros Hf r. subst r.
  destruct (stop_result env g st complete false w) as [Hres Hw].
  rewrite Hres, Hw. cbn [snd]. rewrite !andb_true_r.
  split; intros Hp.
  - assert (Hany : stop_processes env g (w_statefile w) complete FW3_FAMILY_V4
                   || stop_processes env g (w_statefile w) complete FW3_FAMILY_V6 = true)
      by (destruct f; [congruence | |]; rewrite Hp; auto using orb_true_r).
    rewrite Hany, family_running_written.
    rewrite !family_loaded_unmark by (assumption || discriminate).
    destruct f; [congruence | |]; rewrite Hp; cbn [family_eqb andb negb];
      now rewrite ?andb_false_r.
  - rewrite !family_loaded_unmark by (assumption || discriminate).
    destruct f; [congruence | |]; rewrite Hp; cbn [family_eqb andb negb];
      now rewrite ?andb_false_r.
Qed.

Lemma stop_clears_processed_witness :
  family_running
    (w_statefile (world_of (stop (router true closes_fine)
                              (mk_globals false FW3_FAMILY_V4) loaded_state false false
                              both_running)))
    FW3_FAMILY_V4 = false.
Proof.
  refine (proj2 (proj1 (stop_clears_processed (router true closes_fine)
                          (mk_globals false FW3_FAMILY_V4) loaded_state false
                          both_running FW3_FAMILY_V4 _) _)).
  - discriminate.
  - vm_compute. reflexivity.
Defined.

(** ** The named sets in [stop] *)

Lemma skip_event_round (e : event) : skip_event e = true -> round_event e = true.
Proof. destruct e; simpl; congruence. Qed.

Lemma start_block_round (env : fw3_env) (g : globals) (f : fw3_family) :
  forallb round_event (start_block env g f) = true.
Proof.
  unfold start_block. cbn [forallb]. rewrite forallb_app.
  rewrite (skip_event_round _ (open_event_plain g f false)).
  rewrite forallb_flat_map; [reflexivity|].
  intros t. rewrite start_table_events_eq. destruct (supported env f t); reflexivity.
Qed.

Lemma stop_block_round (env : fw3_env) (g : globals) (f : fw3_family)
    (c restart : bool) :
  forallb round_event (stop_block env g f c restart) = true.
Proof.
  unfold stop_block. cbn [forallb]. rewrite forallb_app.
  rewrite (skip_event_round _ (open_event_plain g f true)).
  rewrite forallb_flat_map.
  - destruct restart; reflexivity.
  - intros t. unfold stop_table_events, stop_table.
    destruct (negb (fw3_has_table env (family_eqb f FW3_FAMILY_V6) (tables t)));
      [reflexivity|].
    destruct c; reflexivity.
Qed.

Lemma family_log_round (p : bool) (block B : list event) :
  forallb round_event block = true ->
  family_log p block B -> forallb round_event B = true.
Proof.
  intros Hb. destruct p; simpl.
  - now intros ->.
  - apply forallb_impl, skip_event_round.
Qed.

Lemma stop_ipsets_exact (env : fw3_env) (b : bool) (w : world) :
  exists w',
    (if b then
       ok <- fw3_command_pipe env false "ipset" ["-exist"; "-"] ;;
       if ok then emit EvDestroyIpsets ;; fw3_command_close env ;; ret tt
       else ret tt
     else ret tt) w = (tt, w', ipset_log env b EvDestroyIpsets)
    /\ w_statefile w' = w_statefile w.
Proof.
  unfold ipset_log. destruct b.
  - unfold bind, fw3_command_pipe.
    destruct (env_command env "ipset"); simpl; eexists; split; reflexivity.
  - exists w. split; reflexivity.
Qed.

Lemma stop_log
    (env : fw3_env) (g : globals) (st : fw3_state) (complete restart : bool)
    (w : world) :
  negb complete && is_none (w_statefile w) = false ->
  let st' := snd (result_of (stop env g st complete restart w)) in
  exists B4 B6 W,
    trace_of (stop env g st complete restart w)
    = EvReadStatefile
      :: (B4 ++ B6)
      ++ ipset_log env (negb restart && negb (family_loaded st' FW3_FAMILY_V4)
                        && negb (family_loaded st' FW3_FAMILY_V6)) EvDestroyIpsets
      ++ EvFreeStatefile :: W
    /\ forallb round_event B4 = true
    /\ forallb round_event B6 = true
    /\ forallb is_write_statefile W = true.
Proof.
  intros Hgo st'.
  destruct (stop_result env g st complete restart w) as [Hres _].
  assert (Hst : st' = snd (result_of (stop env g st complete restart w))) by reflexivity.
  rewrite Hres in Hst. cbn [snd] in Hst. clearbody st'.
  destruct (stop_loop_shape env g (w_statefile w) complete restart st w)
    as (w1 & B4 & B6 & HL & Hw1 & HB4 & HB6).
  rewrite <- Hst in HL.
  destruct (stop_ipsets_exact env
              (negb restart && negb (family_loaded st' FW3_FAMILY_V4)
               && negb (family_loaded st' FW3_FAMILY_V6)) w1)
    as (w2 & HA & Hw2).
  exists B4, B6,
    (if (if stop_processes env g (w_statefile w) complete FW3_FAMILY_V4
            || stop_processes env g (w_statefile w) complete FW3_FAMILY_V6
         then 0 else 1) =? 0
     then [EvWriteStatefile (has_flag (defaults st'))] else []).
  split; [|split; [|split]].
  - unfold stop. unfold bind at 1. unfold fw3_read_statefile at 1.
    rewrite Hgo. unfold bind at 1. rewrite HL.
    unfold bind at 1. rewrite HA.
    unfold trace_of, bind, fw3_free_statefile, emit, when, fw3_write_statefile, ret.
    match goal with |- context [if ?b =? 0 then _ else _] => destruct (b =? 0) end;
      cbn [snd app]; rewrite <- !app_assoc; cbn [app]; reflexivity.
  - eapply family_log_round; [apply stop_block_round | exact HB4].
  - eapply family_log_round; [apply stop_block_round | exact HB6].
  - match goal with |- context [if ?b =? 0 then _ else _] => destruct (b =? 0) end;
      reflexivity.
Qed.

Lemma round_event_no_destroy (e : event) :
  round_event e = true -> negb (is_destroy e) = true.
Proof. destruct e; simpl; congruence. Qed.

Lemma write_no_destroy (e : event) :
  is_write_statefile e = true -> negb (is_destroy e) = true.
Proof. destruct e; simpl; congruence. Qed.

Lemma write_no_removal (e : event) :
  is_write_statefile e = true -> negb (is_removal e) = true.
Proof. destruct e; simpl; congruence. Qed.

(** X18. The named sets are destroyed by [stop] exactly when the run got
    past the check for a missing record, is not part of a restart, leaves
    neither family's flag set in memory, and the set tool could be started.
    The destruction comes once, after the family loop: no removal directive
    is written after it. *)
Theorem stop_ipset_cleanup
    (env : fw3_env) (g : globals) (st : fw3_state) (complete restart : bool)
    (w : world) :
  let st' := snd (result_of (stop env g st complete restart w)) in
  existsb is_destroy (trace_of (stop env g st complete restart w))
  = negb (negb complete && is_none (w_statefile w))
    && negb restart
    && negb (family_loaded st' FW3_FAMILY_V4)
    && negb (family_loaded st' FW3_FAMILY_V6)
    && env_command env "ipset"
  /\ forall pre post,
       trace_of (stop env g st complete restart w) = pre ++ EvDestroyIpsets :: post ->
       existsb is_destroy pre = false
       /\ existsb is_destroy post = false
       /\ existsb is_removal post = false.
Proof.
  intros st'.
  destruct (negb complete && is_none (w_statefile w)) eqn:Hgo.
  - destruct (stop_early env g st complete restart w Hgo)
      as (-> & Hsf & evs & Hrun & Hevs).
    assert (Hnone : forallb (fun e => negb (is_destroy e)) (EvReadStatefile :: evs) = true).
    { cbn [forallb is_destroy negb andb]. revert Hevs. apply forallb_impl.
      intros e. destruct e; simpl; congruence. }
    rewrite Hrun. unfold trace_of. cbn [snd negb andb]. split.
    + now apply existsb_none.
    + intros pre post Heq. exfalso.
      apply (In_forallb_false is_destroy EvDestroyIpsets _ Hnone eq_refl).
      rewrite Heq. apply in_elt.
  - destruct (stop_log env g st complete restart w Hgo)
      as (B4 & B6 & W & Htr & HB4 & HB6 & HW).
    fold st' in Htr. rewrite Htr. cbn [negb andb].
    assert (HB : forallb (fun e => negb (is_destroy e)) (EvReadStatefile :: B4 ++ B6) = true).
    { cbn [forallb is_destroy negb andb]. rewrite forallb_app.
      rewrite (forallb_impl _ _ B4 round_event_no_destroy HB4).
      now rewrite (forallb_impl _ _ B6 round_event_no_destroy HB6). }
    assert (HT : forallb (fun e => negb (is_destroy e)) (EvFreeStatefile :: W) = true).
    { cbn [forallb is_destroy negb andb].
      revert HW. apply forallb_impl, write_no_destroy. }
    assert (HTr : forallb (fun e => negb (is_removal e)) (EvFreeStatefile :: W) = true).
    { cbn [forallb is_removal negb andb].
      revert HW. apply forallb_impl, write_no_removal. }
    change (EvReadStatefile :: (B4 ++ B6) ++ ?l) with ((EvReadStatefile :: B4 ++ B6) ++ l).
    unfold ipset_log.
    destruct (negb restart && negb (family_loaded st' FW3_FAMILY_V4)
              && negb (family_loaded st' FW3_FAMILY_V6)) eqn:Hc; cbn [andb].
    + destruct (env_command env "ipset") eqn:Hcmd.
      * split.
        -- rewrite existsb_app. cbn [existsb is_destroy orb app].
           now rewrite orb_true_r.
        -- intros pre post Heq.
           destruct (split_at_unique EvDestroyIpsets
                       ((EvReadStatefile :: B4 ++ B6)
                        ++ [EvCommandPipe false "ipset" ["-exist"; "-"] true])
                       (EvCommandClose (env_close env (Some (SinkCommand "ipset")))
                        :: EvFreeStatefile :: W)
                       pre post) as [-> ->].
           ++ apply (In_forallb_false is_destroy); [|reflexivity].
              now rewrite forallb_app, HB.
           ++ apply (In_forallb_false is_destroy); [|reflexivity].
              cbn [forallb is_destroy negb andb]. exact HT.
           ++ rewrite <- Heq. rewrite <- !app_assoc. reflexivity.
           ++ split; [|split]; apply existsb_none.
              ** now rewrite forallb_app, HB.
              ** cbn [forallb is_destroy negb andb]. exact HT.
              ** cbn [forallb is_removal negb andb]. exact HTr.
      * assert (Hnone : forallb (fun e => negb (is_destroy e))
                          ((EvReadStatefile :: B4 ++ B6)
                           ++ [EvCommandPipe false "ipset" ["-exist"; "-"] false]
                           ++ EvFreeStatefile :: W) = true).
        { rewrite !forallb_app, HB, HT. reflexivity. }
        split; [now apply existsb_none|].
        intros pre post Heq. exfalso.
        apply (In_forallb_false is_destroy EvDestroyIpsets _ Hnone eq_refl).
        rewrite Heq. apply in_elt.
    + assert (Hnone : forallb (fun e => negb (is_destroy e))
                        ((EvReadStatefile :: B4 ++ B6) ++ [] ++ EvFreeStatefile :: W)
                      = true).
      { rewrite !forallb_app, HB, HT. reflexivity. }
      split; [now apply existsb_none|].
      intros pre post Heq. exfalso.
      apply (In_forallb_false is_destroy EvDestroyIpsets _ Hnone eq_refl).
      rewrite Heq. apply in_elt.
Qed.

(** ** Restart *)

Lemma stop_restart_no_record
    (env : fw3_env) (g : globals) (st : fw3_state) (w : world) :
  w_statefile w = None ->
  stop env g st false true w = ((1, st), w, [EvReadStatefile]).
Proof.
  intros Hsf. unfold stop, bind, fw3_read_statefile. rewrite Hsf. reflexivity.
Qed.

(** X19. Restart on a system without a record is a plain start: the stop
    half only reads the (missing) record, without the warning it gives on
    its own, and [start] then runs as it does for the start command. *)
Theorem restart_without_record
    (env : fw3_env) (g : globals) (st : fw3_state) (rest : list string) (w : world) :
  w_statefile w = None ->
  run_command env g st "restart" rest w
  = (fst (result_of (start env g st false w)),
     world_of (start env g st false w),
     EvReadStatefile :: trace_of (start env g st false w)).
Proof.
  intros Hsf. unfold run_command. simpl. unfold bind.
  rewrite (stop_restart_no_record env g st w Hsf).
  change (c_truth (c_lnot 1)) with false.
  destruct (start env g st false w) as [[[rv st'] w'] tr].
  unfold ret, result_of, world_of, trace_of. cbn [fst snd app].
  now rewrite app_nil_r.
Qed.

Lemma restart_without_record_witness :
  result_of (run_command (router true closes_fine) (mk_globals false FW3_FAMILY_ANY)
               loaded_state "restart" [] no_record) = 0.
Proof.
  rewrite (restart_without_record (router true closes_fine)
             (mk_globals false FW3_FAMILY_ANY) loaded_state [] no_record eq_refl).
  vm_compute. reflexivity.
Defined.

(** ** What a command can log *)

Lemma round_event_command (e : event) : round_event e = true -> command_event e = true.
Proof. destruct e; simpl; congruence. Qed.

Lemma ipset_event_command (e : event) : ipset_event e = true -> command_event e = true.
Proof. destruct e; simpl; congruence. Qed.

Lemma start_command_events
    (env : fw3_env) (g : globals) (st : fw3_state) (restart : bool) (w : world) :
  forallb command_event (trace_of (start env g st restart w)) = true.
Proof.
  destruct (start_shape env g st restart w)
    as (w' & A & B4 & B6 & Hrun & _ & HA & _ & HB4 & HB6).
  rewrite Hrun. unfold trace_of. cbn [snd forallb command_event andb].
  rewrite !forallb_app.
  rewrite (forallb_impl _ _ A ipset_event_command HA).
  rewrite (forallb_impl _ _ B4 round_event_command
             (family_log_round _ _ B4 (start_block_round env g FW3_FAMILY_V4) HB4)).
  rewrite (forallb_impl _ _ B6 round_event_command
             (family_log_round _ _ B6 (start_block_round env g FW3_FAMILY_V6) HB6)).
  match goal with |- context [if ?b then _ else _] => destruct b end; reflexivity.
Qed.

Lemma stop_command_events
    (env : fw3_env) (g : globals) (st : fw3_state) (complete restart : bool)
    (w : world) :
  forallb command_event (trace_of (stop env g st complete restart w)) = true.
Proof.
  destruct (negb complete && is_none (w_statefile w)) eqn:Hgo.
  - destruct (stop_early env g st complete restart w Hgo)
      as (_ & _ & evs & Hrun & Hevs).
    rewrite Hrun. unfold trace_of. cbn [snd forallb command_event andb].
    revert Hevs. apply forallb_impl. intros e. destruct e; simpl; congruence.
  - destruct (stop_shape env g st complete restart w Hgo)
      as (w' & B4 & B6 & A & Hrun & _ & HA & HB4 & HB6).
    rewrite Hrun. unfold trace_of. cbn [snd forallb command_event andb].
    rewrite !forallb_app.
    rewrite (forallb_impl _ _ A ipset_event_command HA).
    rewrite (forallb_impl _ _ B4 round_event_command
               (family_log_round _ _ B4
                  (stop_block_round env g FW3_FAMILY_V4 complete restart) HB4)).
    rewrite (forallb_impl _ _ B6 round_event_command
               (family_log_round _ _ B6
                  (stop_block_round env g FW3_FAMILY_V6 complete restart) HB6)).
    match goal with |- context [if ?b then _ else _] => destruct b end; reflexivity.
Qed.

Lemma bind_trace {A B} (m : M A) (k : A -> M B) (w : world) :
  trace_of (bind m k w)
  = trace_of (m w) ++ trace_of (k (result_of (m w)) (world_of (m w))).
Proof.
  unfold bind, trace_of, result_of, world_of.
  destruct (m w) as [[a w1] l1]. cbn [fst snd].
  destruct (k a w1) as [[b w2] l2]. reflexivity.
Qed.

Lemma run_command_events
    (env : fw3_env) (g : globals) (st : fw3_state) (cmd : string)
    (rest : list string) (w : world) :
  forallb command_event (trace_of (run_command env g st cmd rest w)) = true.
Proof.
  assert (Hret : forall (m : M (Z * fw3_state)) x,
             forallb command_event (trace_of (m x)) = true ->
             forallb command_event
               (trace_of ((' (rv, _) <- m ;; ret rv) x)) = true).
  { intros m x H. rewrite bind_trace, forallb_app, H.
    destruct (result_of (m x)). reflexivity. }
  unfold run_command.
  destruct (String.eqb cmd "print").
  { rewrite bind_trace, forallb_app. cbn [trace_of emit snd forallb command_event andb].
    apply Hret, start_command_events. }
  destruct (String.eqb cmd "start"); [apply Hret, start_command_events|].
  destruct (String.eqb cmd "stop"); [apply Hret, stop_command_events|].
  destruct (String.eqb cmd "flush"); [apply Hret, stop_command_events|].
  destruct (String.eqb cmd "restart").
  { rewrite bind_trace, forallb_app, stop_command_events.
    destruct (result_of (stop env g st false true w)) as [rv st1].
    apply Hret, start_command_events. }
  destruct (String.eqb cmd "network" && negb (is_none (hd_error rest))).
  { unfold lookup_network. destruct (find _ _); reflexivity. }
  destruct (String.eqb cmd "device" && negb (is_none (hd_error rest))).
  { unfold lookup_device. destruct (find _ _); reflexivity. }
  reflexivity.
Qed.

Lemma locked_part_events
    (env : fw3_env) (g : globals) (st : fw3_state) (args : list string) (w : world) :
  forallb command_event
    (trace_of
       (match args with
        | [] => usage
        | cmd :: rest =>
            when (family_eqb (use_family g) FW3_FAMILY_V6
                  && disable_ipv6 (defaults st))
              (warn "IPv6 rules globally disabled in configuration") ;;
            run_command env g st cmd rest
        end w)) = true.
Proof.
  destruct args as [|cmd rest]; [reflexivity|].
  rewrite bind_trace, forallb_app, run_command_events.
  destruct (family_eqb (use_family g) FW3_FAMILY_V6 && disable_ipv6 (defaults st));
    reflexivity.
Qed.

(** ** Start-up and exit of [main] *)

Ltac reassoc := repeat (progress (rewrite <- ?app_assoc; cbn [app])).

Lemma parse_options_startup (opts : list ascii) (g : globals) (w : world) :
  exists og evs,
    parse_options opts g w = (og, w, evs) /\ forallb startup_event evs = true.
Proof.
  revert g. induction opts as [|ch opts IH]; intros g; cbn [parse_options].
  - exists (Some g), []. split; reflexivity.
  - destruct (Ascii.eqb ch "4"); [apply IH|].
    destruct (Ascii.eqb ch "6"); [apply IH|].
    destruct (Ascii.eqb ch "q").
    + destruct (IH g) as (og & evs & Hrun & Hevs).
      exists og, (EvFreopenStderr :: evs). unfold bind, emit. rewrite Hrun.
      split; [reflexivity | exact Hevs].
    + destruct (Ascii.eqb ch "h"); [|apply IH].
      exists None, [EvUsage]. split; reflexivity.
Qed.

Lemma build_state_startup (env : fw3_env) (w : world) :
  exists os evs,
    build_state env w = (os, w, evs)
    /\ forallb startup_event evs = true
    /\ (os = None -> exists pre msg, evs = pre ++ [EvError msg]).
Proof.
  unfold build_state, bind, fw3_find_command.
  destruct (env_malloc env); cbn.
  2:{ eexists _, _. split; [reflexivity|]. split; [reflexivity|].
      intros _. now exists [EvMalloc false], "Out of memory". }
  destruct (env_uci_alloc env); cbn.
  2:{ eexists _, _. split; [reflexivity|]. split; [reflexivity|].
      intros _. now exists [EvMalloc true; EvUciAlloc false], "Out of memory". }
  destruct (env_uci_load env); cbn.
  2:{ eexists _, _. split; [reflexivity|]. split; [reflexivity|].
      intros _.
      now exists [EvMalloc true; EvUciAlloc true; EvUciLoad false; EvUciPerror],
                 "Failed to load /etc/config/firewall". }
  destruct (env_find_command env "ipset"); cbn;
    (eexists _, _; split; [reflexivity|]; split; [reflexivity | discriminate]).
Qed.

Lemma startup_no_unlock (e : event) :
  startup_event e = true -> negb (is_unlock e) = true.
Proof. destruct e; simpl; congruence. Qed.

Lemma command_no_unlock (e : event) :
  command_event e = true -> negb (is_unlock e) = true.
Proof. destruct e; simpl; congruence. Qed.

(** X20. Every run of [main] that returns releases the lock as its very
    last call and nowhere else, also when the lock was refused or, with
    -h, never asked for.  A run that [error] ends never releases it, and
    [error] is then the last call of the run. *)
Theorem main_unlocks_last
    (env : fw3_env) (opts : list ascii) (args : list string) (w : world) :
  match result_of (main env opts args w) with
  | Return _ =>
      exists pre,
        trace_of (main env opts args w) = pre ++ [EvUnlock]
        /\ existsb is_unlock pre = false
  | Fatal =>
      existsb is_unlock (trace_of (main env opts args w)) = false
      /\ exists pre msg, trace_of (main env opts args w) = pre ++ [EvError msg]
  end.
Proof.
  remember (main env opts args w) as r eqn:Hr.
  unfold main in Hr.
  destruct (parse_options_startup opts (mk_globals false FW3_FAMILY_ANY) w)
    as (og & E1 & H1 & HE1).
  pose proof (forallb_impl _ _ E1 startup_no_unlock HE1) as HU1.
  unfold bind at 1 in Hr. rewrite H1 in Hr.
  destruct og as [g|].
  - unfold bind at 1 in Hr. unfold fw3_ubus_connect at 1 in Hr.
    destruct (env_ubus_connect env); cbn [negb] in Hr.
    + destruct (build_state_startup env w) as (os & E2 & H2 & HE2 & Hnone).
      pose proof (forallb_impl _ _ E2 startup_no_unlock HE2) as HU2.
      unfold bind at 1 in Hr. rewrite H2 in Hr.
      destruct os as [state|].
      * unfold bind at 1 in Hr. unfold fw3_lock at 1 in Hr.
        destruct (env_lock env); cbn [negb] in Hr.
        -- pose proof (locked_part_events env g state args w) as HX.
           pose proof (forallb_impl _ _ _ command_no_unlock HX) as HUX.
           clear HX. unfold bind at 1 in Hr.
           destruct (match args with
                     | [] => usage
                     | cmd :: rest =>
                         when (family_eqb (use_family g) FW3_FAMILY_V6
                               && disable_ipv6 (defaults state))
                           (warn "IPv6 rules globally disabled in configuration") ;;
                         run_command env g state cmd rest
                     end w) as [[rv w'] E3].
           unfold trace_of in HUX. cbn [snd] in HUX.
           subst r. cbn.
           exists (E1 ++ EvUbusConnect true :: E2 ++ EvLock true :: E3
                      ++ [EvFreeState; EvUbusDisconnect]).
           split; [reassoc; reflexivity|].
           apply existsb_none.
           rewrite forallb_app, HU1. cbn [forallb is_unlock negb andb].
           rewrite forallb_app, HU2. cbn [forallb is_unlock negb andb].
           now rewrite forallb_app, HUX.
        -- subst r. cbn.
           exists (E1 ++ EvUbusConnect true :: E2
                      ++ [EvLock false; EvFreeState; EvUbusDisconnect]).
           split; [reassoc; reflexivity|].
           apply existsb_none.
           rewrite forallb_app, HU1. cbn [forallb is_unlock negb andb].
           now rewrite forallb_app, HU2.
      * destruct (Hnone eq_refl) as (pre & msg & ->).
        subst r. cbn. split.
        -- apply existsb_none. rewrite app_nil_r.
           rewrite forallb_app, HU1. cbn [forallb is_unlock negb andb]. exact HU2.
        -- exists (E1 ++ EvUbusConnect true :: pre), msg.
           rewrite app_nil_r. reassoc. reflexivity.
    + subst r. cbn. split.
      * apply existsb_none. rewrite forallb_app, HU1. reflexivity.
      * exists (E1 ++ [EvUbusConnect false]), "Failed to connect to ubus".
        reassoc. reflexivity.
  - subst r. cbn. exists E1. split; [reflexivity | now apply existsb_none].
Qed.

Lemma parse_options_help (pre post : list ascii) (g : globals) (w : world) :
  forallb (fun c => negb (Ascii.eqb c "h")) pre = true ->
  parse_options (pre ++ "h"%char :: post) g w
  = (None, w,
     repeat EvFreopenStderr (List.length (filter (fun c => Ascii.eqb c "q") pre))
     ++ [EvUsage]).
Proof.
  revert g. induction pre as [|ch pre IH]; intros g Hpre.
  - reflexivity.
  - cbn [forallb] in Hpre. apply andb_true_iff in Hpre as [Hch Hpre].
    apply negb_true_iff in Hch.
    cbn [app parse_options filter].
    destruct (Ascii.eqb_spec ch "4") as [->|_]; [now rewrite IH|].
    destruct (Ascii.eqb_spec ch "6") as [->|_]; [now rewrite IH|].
    destruct (Ascii.eqb ch "q").
    + unfold bind, emit. now rewrite IH.
    + rewrite Hch. now rewrite IH.
Qed.

(** X21. With -h among the options, [main] prints the usage and returns 1
    without looking at anything behind the -h: it does not connect to ubus,
    load the configuration, ask for the lock or run a command.  Its whole
    log is one redirection of stderr per -q in front of the -h, the usage
    and the release of the lock; the world is left as it was. *)
Theorem main_help
    (env : fw3_env) (pre post : list ascii) (args : list string) (w : world) :
  forallb (fun c => negb (Ascii.eqb c "h")) pre = true ->
  main env (pre ++ "h"%char :: post) args w
  = (Return 1, w,
     repeat EvFreopenStderr (List.length (filter (fun c => Ascii.eqb c "q") pre))
     ++ [EvUsage; EvUnlock]).
Proof.
  intros Hpre. unfold main. unfold bind at 1.
  rewrite (parse_options_help pre post _ w Hpre).
  unfold bind, fw3_unlock, emit, ret. cbn [app].
  now rewrite <- app_assoc.
Qed.

Lemma main_help_witness :
  main (router true closes_fine) ["q"; "4"; "h"; "q"]%char ["start"] no_record
  = (Return 1, no_record, [EvFreopenStderr; EvUsage; EvUnlock]).
Proof.
  apply (main_help (router true closes_fine) ["q"; "4"]%char ["q"%char] ["start"]
           no_record).
  reflexivity.
Defined.

Lemma parse_options_some (opts : list ascii) (g : globals) (w : world) :
  forallb (fun c => negb (Ascii.eqb c "h")) opts = true ->
  exists g' evs,
    parse_options opts g w = (Some g', w, evs)
    /\ print_rules g' = print_rules g.
Proof.
  revert g. induction opts as [|ch opts IH]; intros g Hopts.
  - exists g, []. split; reflexivity.
  - cbn [forallb] in Hopts. apply andb_true_iff in Hopts as [Hch Hopts].
    apply negb_true_iff in Hch. cbn [parse_options].
    destruct (Ascii.eqb ch "4");
      [destruct (IH (mk_globals (print_rules g) FW3_FAMILY_V4) Hopts)
         as (g' & evs & Hr & Hp); now exists g', evs|].
    destruct (Ascii.eqb ch "6");
      [destruct (IH (mk_globals (print_rules g) FW3_FAMILY_V6) Hopts)
         as (g' & evs & Hr & Hp); now exists g', evs|].
    destruct (IH g Hopts) as (g' & evs & Hr & Hp).
    destruct (Ascii.eqb ch "q").
    + exists g', (EvFreopenStderr :: evs). unfold bind, emit. rewrite Hr. auto.
    + rewrite Hch. now exists g', evs.
Qed.

(** X22. Without -h, [main] dies in [error] exactly when the connection to
    ubus, one of the two allocations or the load of the configuration
    fails; in every other case it returns. *)
Theorem main_fatal
    (env : fw3_env) (opts : list ascii) (args : list string) (w : world) :
  forallb (fun c => negb (Ascii.eqb c "h")) opts = true ->
  (result_of (main env opts args w) = Fatal <->
   env_ubus_connect env && env_malloc env && env_uci_alloc env && env_uci_load env
   = false).
Proof.
  intros Hopts.
  destruct (parse_options_some opts (mk_globals false FW3_FAMILY_ANY) w Hopts)
    as (g & E1 & H1 & _).
  unfold main. unfold bind at 1. rewrite H1.
  unfold bind at 1. unfold fw3_ubus_connect at 1.
  destruct (env_ubus_connect env); cbn [negb andb];
    [|unfold result_of, bind, error, emit, ret; cbn; tauto].
  unfold bind at 1. unfold build_state.
  unfold bind at 1. unfold emit at 1.
  destruct (env_malloc env); cbn [negb andb];
    [|unfold result_of, bind, error, emit, ret; cbn; tauto].
  unfold bind at 1. unfold emit at 1.
  destruct (env_uci_alloc env); cbn [negb andb];
    [|unfold result_of, bind, error, emit, ret; cbn; tauto].
  unfold bind at 1. unfold emit at 1.
  destruct (env_uci_load env); cbn [negb andb];
    [|unfold result_of, bind, error, emit, ret; cbn; tauto].
  unfold bind at 1. unfold fw3_find_command at 1.
  assert (Hend : forall (m : M Z) x pre,
             result_of (let '(b, w2, l2) :=
                          (rv <- m ;; free_state ;; fw3_unlock ;; ret (Return rv)) x
                        in (b, w2, pre ++ l2)) = Fatal <-> true = false).
  { intros m x pre. unfold bind, free_state, fw3_unlock, emit, ret, result_of.
    destruct (m x) as [[rv w'] l]. cbn. split; discriminate. }
  destruct (env_find_command env "ipset"); cbn [negb];
    unfold bind, warn, emit, ret, fw3_lock, free_state, fw3_unlock, result_of;
    match goal with
    | |- context [if negb (env_lock env) then _ else ?m] =>
        destruct (env_lock env); cbn [negb];
        [destruct (m w) as [[rv w'] l] | ]; cbn; split; discriminate
    end.
Qed.

Lemma main_fatal_witness :
  result_of (main (mk_env false true true true (fun _ => true) (fun s => s) true
                     (fun _ => true) true (fun _ _ => true) closes_fine)
               ["4"%char] ["start"] no_record) = Fatal.
Proof.
  apply (main_fatal (mk_env false true true true (fun _ => true) (fun s => s) true
                       (fun _ => true) true (fun _ _ => true) closes_fine)
           ["4"%char] ["start"] no_record).
  - reflexivity.
  - reflexivity.
Defined.

(** ** Commands and options *)

(** X23. A word that is not a command, and network or device without the
    name to look up, end in the usage text and status 1; no sink is opened
    and the record is neither read nor written. *)
Theorem run_command_usage
    (env : fw3_env) (g : globals) (st : fw3_state) (cmd : string)
    (rest : list string) (w : world) :
  ~ In cmd plain_commands ->
  rest = [] \/ (cmd <> "network" /\ cmd <> "device") ->
  run_command env g st cmd rest w = (1, w, [EvUsage]).
Proof.
  intros Hcmd Hrest. unfold run_command.
  destruct (String.eqb_spec cmd "print") as [->|_];
    [exfalso; apply Hcmd; simpl; tauto|].
  destruct (String.eqb_spec cmd "start") as [->|_];
    [exfalso; apply Hcmd; simpl; tauto|].
  destruct (String.eqb_spec cmd "stop") as [->|_];
    [exfalso; apply Hcmd; simpl; tauto|].
  destruct (String.eqb_spec cmd "flush") as [->|_];
    [exfalso; apply Hcmd; simpl; tauto|].
  destruct (String.eqb_spec cmd "restart") as [->|_];
    [exfalso; apply Hcmd; simpl; tauto|].
  destruct Hrest as [-> | [Hn Hd]].
  - cbn [hd_error is_none negb]. rewrite !andb_false_r. reflexivity.
  - destruct (String.eqb_spec cmd "network"); [contradiction|].
    destruct (String.eqb_spec cmd "device"); [contradiction|].
    reflexivity.
Qed.

Lemma run_command_usage_witness :
  run_command (router true closes_fine) (mk_globals false FW3_FAMILY_ANY) two_zones
    "device" [] both_running
  = (1, both_running, [EvUsage]).
Proof.
  apply (run_command_usage (router true closes_fine) (mk_globals false FW3_FAMILY_ANY)
           two_zones "device" [] both_running).
  - simpl. intuition discriminate.
  - left. reflexivity.
Defined.

Lemma parse_options_snoc (opts : list ascii) (ch : ascii) (g : globals) (w : world) :
  forallb (fun c => negb (Ascii.eqb c "h")) opts = true ->
  exists g',
    print_rules g' = print_rules g
    /\ result_of (parse_options (opts ++ [ch]) g w)
       = result_of (parse_options [ch] g' w).
Proof.
  revert g. induction opts as [|c opts IH]; intros g Hopts.
  - exists g. split; reflexivity.
  - cbn [forallb] in Hopts. apply andb_true_iff in Hopts as [Hc Hopts].
    apply negb_true_iff in Hc. cbn [app]. cbn [parse_options].
    destruct (Ascii.eqb c "4");
      [destruct (IH (mk_globals (print_rules g) FW3_FAMILY_V4) Hopts) as (g' & Hp & Hr);
       now exists g'|].
    destruct (Ascii.eqb c "6");
      [destruct (IH (mk_globals (print_rules g) FW3_FAMILY_V6) Hopts) as (g' & Hp & Hr);
       now exists g'|].
    destruct (IH g Hopts) as (g' & Hp & Hr). exists g'. split; [exact Hp|].
    destruct (Ascii.eqb c "q").
    + etransitivity; [|exact Hr]. unfold bind, emit, result_of.
      now destruct (parse_options (opts ++ [ch]) g w) as [[og w'] l].
    + rewrite Hc. exact Hr.
Qed.

(** X24. Of several family options the last one counts: when the options
    hold no -h and end in -4 (or -6), the family filter is IPv4 (or IPv6),
    whatever family options came before; [print_rules] is not touched. *)
Theorem parse_options_last_wins
    (opts : list ascii) (last : bool) (g : globals) (w : world) :
  forallb (fun c => negb (Ascii.eqb c "h")) opts = true ->
  result_of (parse_options (opts ++ [if last then "4" else "6"]%char) g w)
  = Some (mk_globals (print_rules g)
                     (if last then FW3_FAMILY_V4 else FW3_FAMILY_V6)).
Proof.
  intros Hopts.
  destruct (parse_options_snoc opts (if last then "4" else "6")%char g w Hopts)
    as (g' & Hp & Hr).
  rewrite Hr, <- Hp. destruct last; reflexivity.
Qed.

Lemma parse_options_last_wins_witness :
  result_of (parse_options ["4"; "q"; "6"; "4"]%char
               (mk_globals false FW3_FAMILY_ANY) no_record)
  = Some (mk_globals false FW3_FAMILY_V4).
Proof.
  apply (parse_options_last_wins ["4"; "q"; "6"]%char true
           (mk_globals false FW3_FAMILY_ANY) no_record).
  reflexivity.
Defined.

(** ** Building the state *)

(** X25. [build_state] hands out a state exactly when both allocations and
    the load of the configuration succeed.  It then calls the six loaders
    once each in the order defaults, ipsets, zones, rules, redirects,
    forwards, on a zeroed state in which named sets are disabled exactly
    when the set tool is not found, which is also the only case in which it
    warns.  When it fails, no loader runs. *)
Theorem build_state_outcome (env : fw3_env) (w : world) :
  let ok := env_malloc env && env_uci_alloc env && env_uci_load env in
  let found := env_find_command env "ipset" in
  result_of (build_state env w)
  = (if ok
     then Some (env_load_config env (set_disable_ipsets zero_state (negb found)))
     else None)
  /\ world_of (build_state env w) = w
  /\ filter is_load (trace_of (build_state env w))
     = (if ok then map EvLoad loader_order else [])
  /\ existsb is_warn (trace_of (build_state env w)) = ok && negb found.
Proof.
  unfold build_state, bind, fw3_find_command, result_of, world_of, trace_of.
  destruct (env_malloc env); cbn; [|repeat split].
  destruct (env_uci_alloc env); cbn; [|repeat split].
  destruct (env_uci_load env); cbn; [|repeat split].
  destruct (env_find_command env "ipset"); cbn; repeat split.
Qed.

(** ** The named sets across a restart *)

Lemma round_event_no_create (e : event) :
  round_event e = true -> negb (is_create e) = true.
Proof. destruct e; simpl; congruence. Qed.

Lemma start_no_destroy
    (env : fw3_env) (g : globals) (st : fw3_state) (restart : bool) (w : world) :
  forallb (fun e => negb (is_destroy e)) (trace_of (start env g st restart w)) = true.
Proof.
  destruct (start_log env g st restart w) as (B4 & B6 & Htr & HB4 & HB6).
  rewrite Htr. cbn [forallb is_destroy negb andb]. rewrite !forallb_app.
  rewrite (forallb_impl _ _ B4 round_event_no_destroy
             (family_log_round _ _ B4 (start_block_round env g FW3_FAMILY_V4) HB4)).
  rewrite (forallb_impl _ _ B6 round_event_no_destroy
             (family_log_round _ _ B6 (start_block_round env g FW3_FAMILY_V6) HB6)).
  unfold ipset_log.
  destruct (negb (print_rules g) && negb restart);
    [destruct (env_command env "ipset")|];
    match goal with |- context [if ?b then [EvWriteStatefile _] else []] =>
      destruct b end; reflexivity.
Qed.

Lemma start_creates
    (env : fw3_env) (g : globals) (st : fw3_state) (restart : bool) (w : world) :
  existsb is_create (trace_of (start env g st restart w))
  = negb (print_rules g) && negb restart && env_command env "ipset".
Proof.
  destruct (start_log env g st restart w) as (B4 & B6 & Htr & HB4 & HB6).
  rewrite Htr. cbn [existsb is_create orb]. rewrite !existsb_app.
  rewrite (existsb_none is_create B4
             (forallb_impl _ _ B4 round_event_no_create
                (family_log_round _ _ B4 (start_block_round env g FW3_FAMILY_V4) HB4))).
  rewrite (existsb_none is_create B6
             (forallb_impl _ _ B6 round_event_no_create
                (family_log_round _ _ B6 (start_block_round env g FW3_FAMILY_V6) HB6))).
  unfold ipset_log.
  destruct (negb (print_rules g) && negb restart);
    [destruct (env_command env "ipset")|];
    match goal with |- context [if ?b then [EvWriteStatefile _] else []] =>
      destruct b end; reflexivity.
Qed.

Lemma stop_restart_quiet
    (env : fw3_env) (g : globals) (st : fw3_state) (complete : bool) (w : world) :
  forallb (fun e => negb (is_destroy e || is_create e))
          (trace_of (stop env g st complete true w)) = true.
Proof.
  destruct (negb complete && is_none (w_statefile w)) eqn:Hgo.
  - destruct (stop_early env g st complete true w Hgo) as (_ & _ & evs & Hrun & Hevs).
    rewrite Hrun. unfold trace_of. cbn [snd forallb is_destroy is_create orb negb andb].
    revert Hevs. apply forallb_impl. intros e. destruct e; simpl; congruence.
  - destruct (stop_log env g st complete true w Hgo)
      as (B4 & B6 & W & Htr & HB4 & HB6 & HW).
    rewrite Htr. cbn [negb andb ipset_log app forallb is_destroy is_create orb].
    rewrite !forallb_app. cbn [forallb is_destroy is_create orb negb andb].
    assert (Hr : forall e, round_event e = true -> negb (is_destroy e || is_create e) = true)
      by (intros e; destruct e; simpl; congruence).
    assert (Hw : forall e, is_write_statefile e = true
                           -> negb (is_destroy e || is_create e) = true)
      by (intros e; destruct e; simpl; congruence).
    now rewrite (forallb_impl _ _ B4 Hr HB4), (forallb_impl _ _ B6 Hr HB6),
      (forallb_impl _ _ W Hw HW).
Qed.

(** X26. A restart keeps the named sets: it never destroys them, and it
    creates them anew only when its stop half returned failure (then the
    start half runs as a plain start), the run is not a print and the set
    tool can be started. *)
Theorem restart_keeps_ipsets
    (env : fw3_env) (g : globals) (st : fw3_state) (rest : list string) (w : world) :
  let tr := trace_of (run_command env g st "restart" rest w) in
  existsb is_destroy tr = false
  /\ existsb is_create tr
     = negb (fst (result_of (stop env g st false true w)) =? 0)
       && negb (print_rules g) && env_command env "ipset".
Proof.
  intros tr. subst tr.
  pose proof (stop_restart_quiet env g st false w) as Hq.
  unfold run_command. simpl. unfold bind.
  destruct (stop env g st false true w) as [[[rv st1] w1] E].
  unfold result_of, trace_of in *. cbn [fst snd] in *.
  rewrite c_truth_lnot. unfold stop_succeeded.
  pose proof (start_no_destroy env g st1 (rv =? 0) w1) as Hd.
  pose proof (start_creates env g st1 (rv =? 0) w1) as Hc.
  unfold trace_of in Hd, Hc.
  destruct (start env g st1 (rv =? 0) w1) as [[[rv' st2] w2] E'].
  unfold ret. cbn [snd] in *. rewrite app_nil_r. split.
  - apply existsb_none. rewrite forallb_app, Hd, andb_true_r.
    revert Hq. apply forallb_impl. intros e. destruct (is_destroy e); [discriminate|reflexivity].
  - rewrite existsb_app, Hc.
    rewrite (existsb_none is_create E); [|revert Hq; apply forallb_impl; intros e;
      destruct (is_destroy e), (is_create e); simpl; congruence].
    cbn [orb]. destruct (rv =? 0), (print_rules g); reflexivity.
Qed.

(** ** A start the record refuses *)

Lemma start_family_refused
    (env : fw3_env) (g : globals) (sf : statefile_t) (rv : Z) (st : fw3_state)
    (f : fw3_family) (w : world) :
  (family_loaded st f = true -> family_running sf f = true) ->
  exists w',
    start_family env g sf false (rv, st) f w = ((rv, st), w', refused_round env g st f)
    /\ w_statefile w' = w_statefile w.
Proof.
  intros H. unfold start_family, refused_round.
  destruct (family_used g f); cbn [negb andb]; [|exists w; split; reflexivity].
  destruct (family_loaded st f); cbn [negb]; [|exists w; split; reflexivity].
  rewrite (H eq_refl). unfold bind at 1.
  destruct (pipe_ok env g f) eqn:Hp.
  - rewrite (restore_pipe_ok env g f false w Hp). cbn [negb andb].
    eexists. split; reflexivity.
  - rewrite (restore_pipe_fail_exact env g f false w Hp). cbn [negb].
    exists w. unfold ret, pipe_failure. rewrite app_nil_r. split; reflexivity.
Qed.

Lemma start_refused_log
    (env : fw3_env) (g : globals) (st : fw3_state) (w : world) :
  (forall f, f <> FW3_FAMILY_ANY ->
             family_loaded st f = true -> family_running (w_statefile w) f = true) ->
  trace_of (start env g st false w)
  = EvReadStatefile
    :: ipset_log env (negb (print_rules g)) EvCreateIpsets
    ++ refused_round env g st FW3_FAMILY_V4
    ++ refused_round env g st FW3_FAMILY_V6
    ++ [EvFreeStatefile].
Proof.
  intros H.
  destruct (start_rounds env g st false w) as (w1 & _ & Htr).
  cbv zeta in Htr.
  destruct (start_family_refused env g (w_statefile w) 1 st FW3_FAMILY_V4 w1)
    as (w2 & H4 & _); [apply H; discriminate|].
  rewrite H4 in Htr. unfold result_of, world_of, trace_of in Htr.
  cbn [fst snd] in Htr.
  destruct (start_family_refused env g (w_statefile w) 1 st FW3_FAMILY_V6 w2)
    as (w3 & H6 & _); [apply H; discriminate|].
  rewrite H6 in Htr. cbn [fst snd Z.eqb] in Htr.
  rewrite andb_true_r in Htr. unfold trace_of. rewrite Htr.
  now rewrite <- app_assoc.
Qed.

(** X8. The guard against starting twice.  When the record marks every
    family the configuration enables as applied, a [start] that is not a
    restart returns 1 and leaves the record as it was.  Its whole log is the
    read of the record, the named-set step (outside print mode the sets are
    still created when the set tool starts), then for each selected and
    enabled family the opening of its sink followed by the warning that the
    family appears to be started already (or the failed opening alone), and
    the release of the record: no table directive, no rule emitter, no close
    of a rule sink, no flag update and no write of the record. *)
Theorem start_already_started
    (env : fw3_env) (g : globals) (st : fw3_state) (w : world) :
  (forall f, f <> FW3_FAMILY_ANY ->
             family_loaded st f = true -> family_running (w_statefile w) f = true) ->
  trace_of (start env g st false w)
  = EvReadStatefile
    :: ipset_log env (negb (print_rules g)) EvCreateIpsets
    ++ refused_round env g st FW3_FAMILY_V4
    ++ refused_round env g st FW3_FAMILY_V6
    ++ [EvFreeStatefile]
  /\ fst (result_of (start env g st false w)) = 1
  /\ w_statefile (world_of (start env g st false w)) = w_statefile w
  /\ existsb (fun e => is_sink_write e || is_write_statefile e)
             (trace_of (start env g st false w)) = false.
Proof.
  intros H. split; [now apply start_refused_log|].
  now apply start_guarded_run.
Qed.

Lemma start_already_started_witness :
  trace_of (start (router true closes_fine) (mk_globals false FW3_FAMILY_ANY)
              loaded_state false both_running)
  = [EvReadStatefile;
     EvCommandPipe false "ipset" ["-exist"; "-"] true;
     EvCreateIpsets;
     EvCommandClose true;
     EvCommandPipe false "iptables-restore" ["--lenient"; "--noflush"] true;
     already_started FW3_FAMILY_V4;
     EvCommandPipe false "ip6tables-restore" ["--lenient"; "--noflush"] true;
     already_started FW3_FAMILY_V6;
     EvFreeStatefile].
Proof.
  refine (proj1 (start_already_started (router true closes_fine)
                   (mk_globals false FW3_FAMILY_ANY) loaded_state both_running _)).
  intros f Hf _. destruct f; [congruence | reflexivity | reflexivity].
Defined.


